(** * Post-flight AFCS telemetry dashboard: column classification, flight
    phases, attitude rotation, playback and cursor fan-out.

    The dashboard exists in several variants (V1 ... V13 and the full
    dashboard); each variant that a property below talks about has a module
    of its own, holding the methods of that variant as they are written.

    Numbers.  Telemetry samples are Python floats.  Where a function only
    compares and selects samples (phase detection, cursor updates) they are
    modelled as exact rationals [Q]; the rotation matrices, which need
    [cos] and [sin], are modelled over the real numbers.  Rounding, [inf]
    and [nan] are outside both models. *)

From Stdlib Require Import List ZArith QArith Bool String Ascii Lia.
From Stdlib Require Import Reals Lra.
From Stdlib Require Lqa.
From Stdlib Require Import Qabs.
Import ListNotations.

Close Scope Q_scope.
Close Scope R_scope.
Open Scope bool_scope.
Open Scope list_scope.

(* ================================================================== *)
(** * Python values, exceptions and object state *)
(* ================================================================== *)

Module Py.

(** The exceptions the modelled code can raise. *)
Inductive exn : Set :=
| ValueError | IndexError | KeyError | TypeError | AttributeError
| OverflowError | RuntimeError.

(** A call either returns a value or raises. *)
Inductive result (A : Type) : Type :=
| Ok (a : A)
| Raise (e : exn).
Arguments Ok {A} a.
Arguments Raise {A} e.

Definition bind {A B} (r : result A) (k : A -> result B) : result B :=
  match r with
  | Ok a => k a
  | Raise e => Raise e
  end.

Definition raised {A} (r : result A) : bool :=
  match r with Ok _ => false | Raise _ => true end.

(** A method of an object whose attributes are [S]: it returns the
    attributes as the call leaves them together with its outcome.  What
    was assigned before an exception stays assigned. *)
Definition M (S A : Type) : Type := S -> S * result A.

Definition ret {S A} (a : A) : M S A := fun s => (s, Ok a).
Definition raise {S A} (e : exn) : M S A := fun s => (s, Raise e).
Definition lift {S A} (r : result A) : M S A := fun s => (s, r).
Definition get {S} : M S S := fun s => (s, Ok s).
Definition modify {S} (f : S -> S) : M S unit := fun s => (f s, Ok tt).

Definition mbind {S A B} (m : M S A) (k : A -> M S B) : M S B :=
  fun s =>
    match m s with
    | (s', Ok a) => k a s'
    | (s', Raise e) => (s', Raise e)
    end.

(** [try: body except: pass] *)
Definition try_pass {S} (body : M S unit) : M S unit :=
  fun s =>
    match body s with
    | (s', Ok _) => (s', Ok tt)
    | (s', Raise _) => (s', Ok tt)
    end.

(** [for x in xs: body(x)] over plain values. *)
Fixpoint for_ {S A} (xs : list A) (body : A -> M S unit) : M S unit :=
  match xs with
  | [] => ret tt
  | x :: rest => mbind (body x) (fun _ => for_ rest body)
  end.

(** [for o in objs: o.method()] over a list of objects: the method runs
    on each object in list order and mutates it in place; the first
    exception ends the loop and leaves the remaining objects untouched. *)
Fixpoint for_objs {O} (method : M O unit) (objs : list O)
  : list O * result unit :=
  match objs with
  | [] => ([], Ok tt)
  | o :: rest =>
      match method o with
      | (o', Ok _) =>
          let (rest', r) := for_objs method rest in (o' :: rest', r)
      | (o', Raise e) => (o' :: rest, Raise e)
      end
  end.

(** Run a method of an attribute object inside the owner's method. *)
Definition on_attr {S O A} (proj : S -> O) (upd : O -> S -> S)
           (m : M O A) : M S A :=
  fun s => let (o', r) := m (proj s) in (upd o' s, r).

(** [obj.name] for an attribute that is missing, or is [None] where a
    method is called on it: [AttributeError]. *)
Definition attr {A} (o : option A) : result A :=
  match o with Some a => Ok a | None => Raise AttributeError end.

(** [xs[i]] for a Python integer [i]: negative indices count from the
    end, anything out of range raises [IndexError]. *)
Definition index {A} (xs : list A) (i : Z) : result A :=
  let n := Z.of_nat (List.length xs) in
  let j := if (i <? 0)%Z then (n + i)%Z else i in
  if ((0 <=? j) && (j <? n))%Z then
    match nth_error xs (Z.to_nat j) with
    | Some x => Ok x
    | None => Raise IndexError
    end
  else Raise IndexError.

(** [xs[i]] for an index that is a natural number. *)
Definition index_nat {A} (xs : list A) (i : nat) : result A :=
  match nth_error xs i with
  | Some x => Ok x
  | None => Raise IndexError
  end.

(** [str.lower()] on ASCII text. *)
Definition lower_ascii (c : ascii) : ascii :=
  let n := nat_of_ascii c in
  if (65 <=? n)%nat && (n <=? 90)%nat then ascii_of_nat (n + 32) else c.

Fixpoint lower (s : string) : string :=
  match s with
  | EmptyString => EmptyString
  | String c r => String (lower_ascii c) (lower r)
  end.

(** [k in s] for strings: [k] occurs in [s] as a substring. *)
Fixpoint str_in (k s : string) : bool :=
  if String.prefix k s then true
  else match s with
       | EmptyString => false
       | String _ r => str_in k r
       end.

(** [any(k in name for k in keys)] *)
Definition any_in (keys : list string) (name : string) : bool :=
  existsb (fun k => str_in k name) keys.

End Py.

Import Py.

Declare Scope py_scope.
Delimit Scope py_scope with py.
Notation "x <- m ;; k" := (mbind m (fun x => k))
  (at level 61, m at next level, right associativity) : py_scope.
Notation "m ;; k" := (mbind m (fun _ => k))
  (at level 61, right associativity) : py_scope.
Notation "'let?' x := r 'in' k" := (bind r (fun x => k))
  (at level 61, x name, r at next level, right associativity) : py_scope.

(* ================================================================== *)
(** * The loaded table (a pandas DataFrame) *)
(* ================================================================== *)

Module Pandas.

(** One cell of a table. *)
Inductive cell : Type :=
| CNum (q : Q)
| CStr (s : string).

(** A column is numeric or textual as a whole (its dtype). *)
Inductive series : Type :=
| Numeric (v : list Q)
| Text (v : list string).

(** Columns in table order.  All columns of a table read from a file
    have the same length. *)
Definition DataFrame : Type := list (string * series).

Definition columns (df : DataFrame) : list string := map fst df.

Definition is_numeric_dtype (s : series) : bool :=
  match s with Numeric _ => true | Text _ => false end.

Definition series_len (s : series) : nat :=
  match s with Numeric v => List.length v | Text v => List.length v end.

Definition cells (s : series) : list cell :=
  match s with Numeric v => map CNum v | Text v => map CStr v end.

(** [len(df)]: the number of rows. *)
Definition len (df : DataFrame) : nat :=
  match df with
  | [] => 0
  | (_, s) :: _ => series_len s
  end.

Fixpoint lookup (df : DataFrame) (c : string) : option series :=
  match df with
  | [] => None
  | (n, s) :: rest => if String.eqb n c then Some s else lookup rest c
  end.

(** [df[c]] where [c] may be [None]: a missing label raises [KeyError]. *)
Definition getitem (df : DataFrame) (c : option string) : result series :=
  match c with
  | None => Raise KeyError
  | Some n =>
      match lookup df n with
      | Some s => Ok s
      | None => Raise KeyError
      end
  end.

(** [df.select_dtypes(include='number')] *)
Definition select_number (df : DataFrame) : list (string * list Q) :=
  flat_map (fun p => match snd p with
                     | Numeric v => [(fst p, v)]
                     | Text _ => []
                     end) df.

(** A numeric array handed to numpy arithmetic; text raises [TypeError]. *)
Definition as_float (s : series) : result (list Q) :=
  match s with
  | Numeric v => Ok v
  | Text _ => Raise TypeError
  end.

(** A row: the cells of one table line, labelled by column. *)
Definition row : Type := list (string * cell).

(** [df.iloc[i]]: the row at integer position [i]. *)
Fixpoint row_at (df : DataFrame) (i : Z) : result row :=
  match df with
  | [] => Ok []
  | (n, s) :: rest =>
      bind (index (cells s) i) (fun c =>
      bind (row_at rest i) (fun r => Ok ((n, c) :: r)))
  end.

Definition iloc (df : DataFrame) (i : Z) : result row :=
  let n := Z.of_nat (len df) in
  if ((- n <=? i) && (i <? n))%Z then row_at df i else Raise IndexError.

(** [row[c]] where [c] may be [None]. *)
Fixpoint row_getitem (r : row) (c : option string) : result cell :=
  match c, r with
  | Some k, (n, v) :: rest =>
      if String.eqb n k then Ok v else row_getitem rest c
  | _, _ => Raise KeyError
  end.

(** [row.get(c, default)] *)
Definition row_get (r : row) (c : option string) (default : cell) : cell :=
  match row_getitem r c with
  | Ok v => v
  | Raise _ => default
  end.

(** A cell used as a number in arithmetic: text raises [TypeError]. *)
Definition cell_float (c : cell) : result Q :=
  match c with
  | CNum q => Ok q
  | CStr _ => Raise TypeError
  end.

(** A cell formatted with [:.2f] or [:.1f]: text raises [ValueError].
    The label text is represented by the number it prints. *)
Definition fmt_float (c : cell) : result Q :=
  match c with
  | CNum q => Ok q
  | CStr _ => Raise ValueError
  end.

(** [c in df.columns] *)
Definition has_column (df : DataFrame) (c : string) : bool :=
  existsb (String.eqb c) (columns df).

End Pandas.

Import Pandas.

(* ================================================================== *)
(** * numpy: the array functions the dashboards call *)
(* ================================================================== *)

Module Np.

Local Open Scope Q_scope.

(** [x < y] on samples. *)
Definition Qlt_bool (x y : Q) : bool := negb (Qle_bool y x).

Definition Qmin_b (x y : Q) : Q := if Qle_bool x y then x else y.

Definition Qabs_b (x : Q) : Q := if Qle_bool 0 x then x else - x.

(** Position of the first [true]. *)
Fixpoint first_true (mask : list bool) : option nat :=
  match mask with
  | [] => None
  | b :: rest =>
      if b then Some O
      else match first_true rest with
           | Some i => Some (S i)
           | None => None
           end
  end.

(** [np.argmax(mask)] on a boolean array: the index of the first [True],
    and 0 when there is none; an empty array raises. *)
Definition argmax_bool (mask : list bool) : result nat :=
  match mask with
  | [] => Raise ValueError
  | _ => Ok (match first_true mask with Some i => i | None => O end)
  end.

(** Scan for the maximum, keeping the earliest index that holds it:
    the running best is replaced only by a strictly larger sample. *)
Fixpoint argmax_from (best_i : nat) (best : Q) (i : nat) (a : list Q)
  : nat :=
  match a with
  | [] => best_i
  | x :: rest =>
      if Qlt_bool best x then argmax_from i x (S i) rest
      else argmax_from best_i best (S i) rest
  end.

(** [np.argmax(a)]: index of the first occurrence of the maximum. *)
Definition argmax (a : list Q) : result nat :=
  match a with
  | [] => Raise ValueError
  | x :: rest => Ok (argmax_from O x 1 rest)
  end.

(** [a.min()] *)
Definition amin (a : list Q) : result Q :=
  match a with
  | [] => Raise ValueError
  | x :: rest => Ok (fold_left Qmin_b rest x)
  end.

(** [a.max()] *)
Definition amax (a : list Q) : result Q :=
  match a with
  | [] => Raise ValueError
  | x :: rest => Ok (fold_left (fun m y => if Qle_bool m y then y else m) rest x)
  end.

(** [np.diff(x)]: [x[1:] - x[:-1]]. *)
Definition diff (x : list Q) : list Q :=
  map (fun p => snd p - fst p) (combine x (tl x)).

(** One entry of the gradient of [f] along coordinates [x] with
    spacings [dx = diff x]; [n] is the length of [f].  First-order
    one-sided differences at both ends; in the interior the central
    difference when the spacing is uniform and numpy's second-order
    three-point formula otherwise. *)
Definition gradient_at (uniform : bool) (f dx : list Q) (n i : nat) : Q :=
  let F k := nth k f 0 in
  let D k := nth k dx 0 in
  if (i =? 0)%nat then
    (F 1%nat - F 0%nat) / D 0%nat
  else if (i =? n - 1)%nat then
    (F (n - 1)%nat - F (n - 2)%nat) / (if uniform then D 0%nat else D (n - 2)%nat)
  else if uniform then
    (F (i + 1)%nat - F (i - 1)%nat) / (2 * D 0%nat)
  else
    let dx1 := D (i - 1)%nat in
    let dx2 := D i in
    let a := - dx2 / (dx1 * (dx1 + dx2)) in
    let b := (dx2 - dx1) / (dx1 * dx2) in
    let c := dx1 / (dx2 * (dx1 + dx2)) in
    a * F (i - 1)%nat + b * F i + c * F (i + 1)%nat.

(** [np.gradient(f, x)] for one-dimensional [f] and a coordinate array
    [x].  The checks come in numpy's order: the coordinate array must be
    as long as [f]; [diffx[0]] is read to test for uniform spacing; at
    least two samples are needed. *)
Definition gradient (f x : list Q) : result (list Q) :=
  if negb (List.length x =? List.length f)%nat then Raise ValueError
  else
    let diffx := diff x in
    match diffx with
    | [] => Raise IndexError
    | d0 :: _ =>
        let n := List.length f in
        if (n <? 2)%nat then Raise ValueError
        else
          let uniform := forallb (fun d => Qeq_bool d d0) diffx in
          Ok (map (gradient_at uniform f diffx n) (seq 0 n))
    end.

(** Scan for the minimum, keeping the earliest index that holds it:
    the running best is replaced only by a strictly smaller sample. *)
Fixpoint argmin_from (best_i : nat) (best : Q) (i : nat) (a : list Q)
  : nat :=
  match a with
  | [] => best_i
  | x :: rest =>
      if Qlt_bool x best then argmin_from i x (S i) rest
      else argmin_from best_i best (S i) rest
  end.

(** [a.argmin()]: index of the first occurrence of the minimum. *)
Definition argmin (a : list Q) : result nat :=
  match a with
  | [] => Raise ValueError
  | x :: rest => Ok (argmin_from O x 1 rest)
  end.

(** [np.gradient(f)] without coordinates: unit spacing.  At least two
    samples are needed. *)
Definition gradient_unit (f : list Q) : result (list Q) :=
  let n := List.length f in
  if (n <? 2)%nat then Raise ValueError
  else Ok (map (gradient_at true f [1] n) (seq 0 n)).

End Np.

(* ================================================================== *)
(** * Qt: the timeline slider, the playback timer and colours *)
(* ================================================================== *)

Module Qt.

Local Open Scope Z_scope.

(** A [QSlider]: its range and its value.  A new slider has range
    0..99 and value 0. *)
Record QSlider : Set := mkSlider { minimum : Z; maximum : Z; value : Z }.

Definition new_slider : QSlider := mkSlider 0 99 0.

(** [qBound(minimum, v, maximum)] *)
Definition bound (s : QSlider) (v : Z) : Z :=
  Z.max (minimum s) (Z.min (maximum s) v).

(** [setValue(v)]: the value is bounded to the range; [valueChanged] is
    emitted, with the new value, only when the value changes. *)
Definition setValue (v : Z) (s : QSlider) : QSlider * option Z :=
  let v' := bound s v in
  if v' =? value s then (s, None)
  else (mkSlider (minimum s) (maximum s) v', Some v').

(** [setRange(lo, hi)]: when the range changes, the value is re-bounded
    to the new range. *)
Definition setRange (lo hi : Z) (s : QSlider) : QSlider * option Z :=
  let hi' := Z.max lo hi in
  if (lo =? minimum s) && (hi' =? maximum s) then (s, None)
  else setValue (value s) (mkSlider lo hi' (value s)).

(** [setMaximum(hi)] *)
Definition setMaximum (hi : Z) (s : QSlider) : QSlider * option Z :=
  setRange (Z.min (minimum s) hi) hi s.

(** A [QColor].  A valid colour holds three channels, each 0 .. 255 (a
    byte: [QColor("#4CAF50")] is [Rgb x4c xaf x50]); the other colours
    are invalid. *)
Inductive QColor : Set :=
| Rgb (r g b : Byte.byte)
| InvalidColor.

(** The number a channel holds. *)
Definition channel (b : Byte.byte) : Z := Z.of_N (Byte.to_N b).

(** [red()], [green()], [blue()]: the channels of an invalid colour
    read as 0. *)
Definition red (c : QColor) : Z :=
  match c with Rgb r _ _ => channel r | InvalidColor => 0 end.
Definition green (c : QColor) : Z :=
  match c with Rgb _ g _ => channel g | InvalidColor => 0 end.
Definition blue (c : QColor) : Z :=
  match c with Rgb _ _ b => channel b | InvalidColor => 0 end.

(** A Python integer that fits the C [int] of a Qt signature. *)
Definition c_int (n : Z) : bool :=
  (-2147483648 <=? n) && (n <=? 2147483647).

(** The channel that holds [n], for [n] in 0 .. 255. *)
Definition to_channel (n : Z) : option Byte.byte :=
  if n <? 0 then None else Byte.of_N (Z.to_N n).

(** [QColor(r, g, b)] on Python integers.  PyQt6 converts each argument
    to a C [int] and raises [OverflowError] when one does not fit; Qt
    then builds a valid colour when every channel is in 0 .. 255 and an
    invalid colour otherwise. *)
Definition rgb (r g b : Z) : result QColor :=
  if c_int r && c_int g && c_int b then
    match to_channel r, to_channel g, to_channel b with
    | Some r', Some g', Some b' => Ok (Rgb r' g' b')
    | _, _, _ => Ok InvalidColor
    end
  else Raise OverflowError.

End Qt.

(* ================================================================== *)
(** * V9: graph cards with flight phases, GPS map, playback *)
(* ================================================================== *)

Module V9.

Local Open Scope py_scope.

(** ** [class GraphCard] *)
Module GraphCard.

(** The attributes of a card: [data], [cursor] (the abscissa of the
    dashed vertical line) and [dot] are [None] until [plot]; [time]
    does not exist until [plot]; [phase_lines] are the labelled
    vertical lines [draw_phases] has put on the axes. *)
Record t : Type := mk {
  title : string;
  data : option (list Q);
  time : option (list Q);
  cursor : option Q;
  dot : option (Q * Q);
  phase_lines : list (string * Q)
}.

Definition init (title : string) : t := mk title None None None None [].

Definition set_data_time (tm d : list Q) (c : t) : t :=
  mk (title c) (Some d) (Some tm) (cursor c) (dot c) [].
Definition set_cursor (x : Q) (c : t) : t :=
  mk (title c) (data c) (time c) (Some x) (dot c) (phase_lines c).
Definition set_dot (p : Q * Q) (c : t) : t :=
  mk (title c) (data c) (time c) (cursor c) (Some p) (phase_lines c).
Definition add_phase_line (p : string * Q) (c : t) : t :=
  mk (title c) (data c) (time c) (cursor c) (dot c) (phase_lines c ++ [p]).

(** [plot(self, time, data)]: [ax.clear()] removes what was drawn. *)
Definition plot (tm d : list Q) : M t unit :=
  modify (set_data_time tm d) ;;
  t0 <- lift (index tm 0) ;;
  modify (set_cursor t0) ;;
  t0' <- lift (index tm 0) ;;
  d0 <- lift (index d 0) ;;
  modify (set_dot (t0', d0)).

(** [draw_phases(self, phases)]: one line per entry, in dict order. *)
Definition draw_phases (phases : list (string * Q)) : M t unit :=
  for_ phases (fun p => modify (add_phase_line p)).

(** [update_cursor(self, t, index)] *)
Definition update_cursor (tv : Q) (i : Z) : M t unit :=
  fun c =>
    match data c with
    | None => (c, Ok tt)
    | Some d =>
        (_ <- lift (attr (cursor c)) ;;
         modify (set_cursor tv) ;;
         _ <- lift (attr (dot c)) ;;
         y <- lift (index d i) ;;
         modify (set_dot (tv, y))) c
    end.

End GraphCard.

(** ** [class GPSMap] *)
Module GPSMap.

(** [lat], [lon] and [cursor] do not exist until [plot]. *)
Record t : Type := mk {
  lat : option (list cell);
  lon : option (list cell);
  cursor : option (cell * cell)
}.

Definition init : t := mk None None None.

Definition plot (la lo : list cell) : M t unit :=
  modify (fun g => mk (Some la) (Some lo) (cursor g)) ;;
  x <- lift (index lo 0) ;;
  y <- lift (index la 0) ;;
  modify (fun g => mk (lat g) (lon g) (Some (x, y))).

Definition update_cursor (i : Z) : M t unit :=
  fun g =>
    (_ <- lift (attr (cursor g)) ;;
     lo <- lift (attr (lon g)) ;;
     x <- lift (index lo i) ;;
     la <- lift (attr (lat g)) ;;
     y <- lift (index la i) ;;
     modify (fun g => mk (lat g) (lon g) (Some (x, y)))) g.

End GPSMap.

(** ** [class RocketDashboard] *)
Module RocketDashboard.

(** [gps] and [time] do not exist before a load creates them;
    [timer_active] is [self.timer.isActive()]. *)
Record t : Type := mk {
  data : option DataFrame;
  cards : list GraphCard.t;
  gps : option GPSMap.t;
  time : option (list Q);
  slider : Qt.QSlider;
  timer_active : bool
}.

Definition init : t := mk None [] None None Qt.new_slider false.

Definition set_data (d : option DataFrame) (s : t) : t :=
  mk d (cards s) (gps s) (time s) (slider s) (timer_active s).
Definition set_cards (c : list GraphCard.t) (s : t) : t :=
  mk (data s) c (gps s) (time s) (slider s) (timer_active s).
Definition set_gps (g : option GPSMap.t) (s : t) : t :=
  mk (data s) (cards s) g (time s) (slider s) (timer_active s).
Definition set_time (tm : option (list Q)) (s : t) : t :=
  mk (data s) (cards s) (gps s) tm (slider s) (timer_active s).
Definition set_slider (sl : Qt.QSlider) (s : t) : t :=
  mk (data s) (cards s) (gps s) (time s) sl (timer_active s).
Definition set_timer (b : bool) (s : t) : t :=
  mk (data s) (cards s) (gps s) (time s) (slider s) b.

(** The scan of [detect]: the first column, in table order, whose
    lower-cased name contains one of the keywords. *)
Fixpoint detect_scan (cols : list string) (keywords : list string)
  : option string :=
  match cols with
  | [] => None
  | c :: rest =>
      if any_in keywords (lower c) then Some c
      else detect_scan rest keywords
  end.

(** [detect(self, keywords)] *)
Definition detect (keywords : list string) : M t (option string) :=
  fun s =>
    match data s with
    | None => (s, Raise AttributeError)
    | Some df => (s, Ok (detect_scan (columns df) keywords))
    end.

(** The row indices [detect_phases] computes before it builds its
    result ([coast] is the index used for the "Coast" entry). *)
Record phase_index : Set := mkPhases {
  boost : nat;
  coast : nat;
  apogee : nat;
  descent : nat;
  landed : nat
}.

(** The body of [detect_phases] up to its [return]:
    [vel = np.gradient(altitude, time)],
    [boost = np.argmax(vel > 5)], [apogee = np.argmax(altitude)],
    [descent = apogee + np.argmax(vel[apogee:] < -2)],
    [landed = len(altitude) - np.argmax(altitude[::-1] > altitude.min() + 2)],
    and [int((boost + apogee)/2)] for the coast entry. *)
Definition phase_indices (time altitude : list Q) : result phase_index :=
  let? vel := Np.gradient altitude time in
  let? boost := Np.argmax_bool (map (fun v => Np.Qlt_bool 5%Q v) vel) in
  let? apogee := Np.argmax altitude in
  let? k := Np.argmax_bool
              (map (fun v => Np.Qlt_bool v (-2)%Q) (skipn apogee vel)) in
  let descent := (apogee + k)%nat in
  let? lo := Np.amin altitude in
  let? r := Np.argmax_bool
              (map (fun a => Np.Qlt_bool (lo + 2)%Q a) (rev altitude)) in
  let landed := (List.length altitude - r)%nat in
  Ok (mkPhases boost ((boost + apogee) / 2)%nat apogee descent landed).

(** [detect_phases(self, time, altitude)]: the time stamps at the
    phase indices, as a dict in insertion order. *)
Definition detect_phases (time altitude : list Q)
  : result (list (string * Q)) :=
  let? p := phase_indices time altitude in
  let? t_boost := index_nat time (boost p) in
  let? t_coast := index_nat time (coast p) in
  let? t_apogee := index_nat time (apogee p) in
  let? t_descent := index_nat time (descent p) in
  let? t_landed := index time (Z.of_nat (landed p) - 1) in
  Ok [("Boost", t_boost); ("Coast", t_coast); ("Apogee", t_apogee);
      ("Descent", t_descent); ("Landed", t_landed)]%string.

(** [detect_phases] as [load_csv] calls it, on the [.values] of two
    columns: numpy's arithmetic raises on text. *)
Definition detect_phases_values (time altitude : series)
  : result (list (string * Q)) :=
  match time, altitude with
  | Numeric tm, Numeric al => detect_phases tm al
  | _, _ =>
      if negb (series_len time =? series_len altitude)%nat
      then Raise ValueError
      else if (series_len time <? 2)%nat then Raise IndexError
      else Raise TypeError
  end.

(** [update_all(self, index)], the slot of [slider.valueChanged]. *)
Definition update_all (i : Z) : M t unit :=
  s <- get ;;
  tm <- lift (attr (time s)) ;;
  tv <- lift (index tm i) ;;
  (fun s => let (cs, r) := for_objs (GraphCard.update_cursor tv i) (cards s)
            in (set_cards cs s, r)) ;;
  s <- get ;;
  match gps s with
  | Some g =>
      fun s => let (g', r) := GPSMap.update_cursor i g
               in (set_gps (Some g') s, r)
  | None => ret tt
  end.

(** A slider call made by the dashboard: the slot runs, inside the
    call, when [valueChanged] is emitted.  An exception that leaves the
    slot is the outcome of the call: the caller does not go on (PyQt
    ends the application on an unhandled exception in a slot). *)
Definition with_slider (op : Qt.QSlider -> Qt.QSlider * option Z)
  : M t unit :=
  fun s =>
    let (sl, sig) := op (slider s) in
    match sig with
    | Some v => update_all v (set_slider sl s)
    | None => (set_slider sl s, Ok tt)
    end.

(** The body of the card loop of [load_csv]. *)
Definition add_card (time_col : option string) (tm : list Q)
           (phases : list (string * Q)) (col : string * list Q)
  : M t unit :=
  if match time_col with
     | Some tc => String.eqb (fst col) tc
     | None => false
     end
  then ret tt
  else
    fun s =>
      match (GraphCard.plot tm (snd col) ;;
             GraphCard.draw_phases phases) (GraphCard.init (fst col)) with
      | (card, Ok _) => (set_cards (cards s ++ [card]) s, Ok tt)
      | (_, Raise e) => (s, Raise e)
      end.

(** [load_csv(self)] once a file was chosen; [df] is what
    [pd.read_csv(path)] returned. *)
Definition load_csv (df : DataFrame) : M t unit :=
  modify (set_data (Some df)) ;;
  time_col <- detect ["time"%string] ;;
  alt_col <- detect ["alt"%string] ;;
  time_v <- lift (getitem df time_col) ;;
  altitude_v <- lift (getitem df alt_col) ;;
  phases <- lift (detect_phases_values time_v altitude_v) ;;
  tm <- lift (as_float time_v) ;;  (* numeric, or the line above raised *)
  let numeric := select_number df in
  modify (set_cards []) ;;
  for_ numeric (add_card time_col tm phases) ;;
  lat <- detect ["lat"%string] ;;
  lon <- detect ["lon"%string] ;;
  match lat, lon with
  | Some _, Some _ =>
      modify (set_gps (Some GPSMap.init)) ;;
      la <- lift (getitem df lat) ;;
      lo <- lift (getitem df lon) ;;
      (fun s => let (g', r) := GPSMap.plot (cells la) (cells lo) GPSMap.init
                in (set_gps (Some g') s, r))
  | _, _ => ret tt
  end ;;
  modify (set_time (Some tm)) ;;
  with_slider (Qt.setMaximum (Z.of_nat (List.length tm) - 1)).

(** The play and pause buttons: [timer.start(20)], [timer.stop]. *)
Definition play : M t unit := modify (set_timer true).
Definition pause : M t unit := modify (set_timer false).

(** [animate(self)], the slot of [timer.timeout]. *)
Definition animate : M t unit :=
  s <- get ;;
  let v := (Qt.value (slider s) + 1)%Z in
  if (v >=? Qt.maximum (slider s))%Z then
    modify (set_timer false)
  else
    with_slider (Qt.setValue v).

(** The timer fires only while it is active. *)
Definition tick : M t unit :=
  s <- get ;;
  if timer_active s then animate else ret tt.

End RocketDashboard.

End V9.

(* ================================================================== *)
(** * V8b: playback by toggle *)
(* ================================================================== *)

Module V8b.

Local Open Scope py_scope.

Module RocketDashboard.

(** The timeline of the dashboard: the slider and the playback timer.
    The slot of [slider.valueChanged] ([update_cursor]) redraws the
    altitude plot and the info label; it touches neither the slider
    nor the timer. *)
Record t : Set := mk {
  slider : Qt.QSlider;
  timer_active : bool
}.

(** [toggle_playback(self)] *)
Definition toggle_playback (s : t) : t :=
  if timer_active s then mk (slider s) false else mk (slider s) true.

(** [animate(self)], the slot of [timer.timeout]; the second component
    is the value [valueChanged] was emitted with, if it was. *)
Definition animate (s : t) : t * option Z :=
  let v := Qt.value (slider s) in
  if (v <? Qt.maximum (slider s))%Z then
    let (sl, sig) := Qt.setValue (v + 1) (slider s) in
    (mk sl (timer_active s), sig)
  else
    (mk (slider s) false, None).

(** The timer fires only while it is active. *)
Definition tick (s : t) : t :=
  if timer_active s then fst (animate s) else s.

End RocketDashboard.

End V8b.

(* ================================================================== *)
(** * V1: the first dashboard *)
(* ================================================================== *)

Module V1.

Local Open Scope py_scope.

Module RocketDashboard.

(** The five metric labels show ["-"] ([None]) until a row is shown. *)
Record t : Type := mk {
  data : option DataFrame;
  slider : Qt.QSlider;
  metric_time : option Q;
  metric_alt : option Q;
  metric_vel : option Q;
  metric_pitch : option Q;
  metric_roll : option Q
}.

Definition init : t := mk None Qt.new_slider None None None None None.

Definition set_data (d : option DataFrame) (s : t) : t :=
  mk d (slider s) (metric_time s) (metric_alt s) (metric_vel s)
     (metric_pitch s) (metric_roll s).
Definition set_slider (sl : Qt.QSlider) (s : t) : t :=
  mk (data s) sl (metric_time s) (metric_alt s) (metric_vel s)
     (metric_pitch s) (metric_roll s).

Definition field (r : row) (c : string) : result Q :=
  let? v := row_getitem r (Some c) in fmt_float v.

(** [update_metrics(self, index)], the slot of [slider.valueChanged]. *)
Definition update_metrics (i : Z) : M t unit :=
  fun s =>
    match data s with
    | None => (s, Ok tt)
    | Some df =>
        (r <- lift (iloc df i) ;;
         x <- lift (field r "time") ;;
         modify (fun s => mk (data s) (slider s) (Some x) (metric_alt s)
                             (metric_vel s) (metric_pitch s) (metric_roll s)) ;;
         x <- lift (field r "altitude") ;;
         modify (fun s => mk (data s) (slider s) (metric_time s) (Some x)
                             (metric_vel s) (metric_pitch s) (metric_roll s)) ;;
         x <- lift (field r "velocity") ;;
         modify (fun s => mk (data s) (slider s) (metric_time s) (metric_alt s)
                             (Some x) (metric_pitch s) (metric_roll s)) ;;
         x <- lift (field r "pitch") ;;
         modify (fun s => mk (data s) (slider s) (metric_time s) (metric_alt s)
                             (metric_vel s) (Some x) (metric_roll s)) ;;
         x <- lift (field r "roll") ;;
         modify (fun s => mk (data s) (slider s) (metric_time s) (metric_alt s)
                             (metric_vel s) (metric_pitch s) (Some x))) s
    end.

Definition with_slider (op : Qt.QSlider -> Qt.QSlider * option Z)
  : M t unit :=
  fun s =>
    let (sl, sig) := op (slider s) in
    match sig with
    | Some v => update_metrics v (set_slider sl s)
    | None => (set_slider sl s, Ok tt)
    end.

Definition required : list string :=
  ["time"; "pitch"; "roll"; "yaw"; "altitude"; "velocity"]%string.

(** [load_data(self, path)]; [df] is what [pd.read_csv(path)] returned. *)
Definition load_data (df : DataFrame) : M t unit :=
  modify (set_data (Some df)) ;;
  for_ required (fun col =>
    if negb (has_column df col) then raise ValueError else ret tt) ;;
  with_slider (Qt.setMaximum (Z.of_nat (len df) - 1)) ;;
  with_slider (Qt.setValue 0).

End RocketDashboard.

End V1.

(* ================================================================== *)
(** * V8: graph cards and GPS map *)
(* ================================================================== *)

Module V8.

Local Open Scope py_scope.

(** ** [class GraphCard] *)
Module GraphCard.

Record t : Type := mk {
  data : option (list Q);
  cursor : option cell;
  dot : option (cell * Q)
}.

Definition init : t := mk None None None.

(** [plot(self, time, data, label)] *)
Definition plot (tm : list cell) (d : list Q) : M t unit :=
  modify (fun c => mk (Some d) (cursor c) (dot c)) ;;
  t0 <- lift (index tm 0) ;;
  modify (fun c => mk (data c) (Some t0) (dot c)) ;;
  t0' <- lift (index tm 0) ;;
  d0 <- lift (index d 0) ;;
  modify (fun c => mk (data c) (cursor c) (Some (t0', d0))).

(** [update_cursor(self, t, index)] *)
Definition update_cursor (tv : cell) (i : Z) : M t unit :=
  fun c =>
    match data c with
    | None => (c, Ok tt)
    | Some d =>
        (_ <- lift (attr (cursor c)) ;;
         modify (fun c => mk (data c) (Some tv) (dot c)) ;;
         _ <- lift (attr (dot c)) ;;
         y <- lift (index d i) ;;
         modify (fun c => mk (data c) (cursor c) (Some (tv, y)))) c
    end.

End GraphCard.

(** ** [class GPSMap] *)
Module GPSMap.

(** [cursor] is [None] until [plot]; [lat] and [lon] do not exist
    until [plot]. *)
Record t : Type := mk {
  cursor : option (cell * cell);
  lat : option (list cell);
  lon : option (list cell)
}.

Definition init : t := mk None None None.

Definition plot (la lo : list cell) : M t unit :=
  x <- lift (index lo 0) ;;
  y <- lift (index la 0) ;;
  modify (fun g => mk (Some (x, y)) (Some la) (Some lo)).

Definition update_cursor (i : Z) : M t unit :=
  fun g =>
    (_ <- lift (attr (cursor g)) ;;
     lo <- lift (attr (lon g)) ;;
     x <- lift (index lo i) ;;
     la <- lift (attr (lat g)) ;;
     y <- lift (index la i) ;;
     modify (fun g => mk (Some (x, y)) (lat g) (lon g))) g.

End GPSMap.

(** ** [class RocketDashboard] *)
Module RocketDashboard.

Record t : Type := mk {
  data : option DataFrame;
  time_col : option string;
  cards : list GraphCard.t;
  gps_map : option GPSMap.t;
  slider : Qt.QSlider;
  timer_active : bool
}.

Definition init : t := mk None None [] None Qt.new_slider false.

Definition set_data (d : option DataFrame) (s : t) : t :=
  mk d (time_col s) (cards s) (gps_map s) (slider s) (timer_active s).
Definition set_time_col (c : option string) (s : t) : t :=
  mk (data s) c (cards s) (gps_map s) (slider s) (timer_active s).
Definition set_cards (c : list GraphCard.t) (s : t) : t :=
  mk (data s) (time_col s) c (gps_map s) (slider s) (timer_active s).
Definition set_gps_map (g : option GPSMap.t) (s : t) : t :=
  mk (data s) (time_col s) (cards s) g (slider s) (timer_active s).
Definition set_slider (sl : Qt.QSlider) (s : t) : t :=
  mk (data s) (time_col s) (cards s) (gps_map s) sl (timer_active s).
Definition set_timer (b : bool) (s : t) : t :=
  mk (data s) (time_col s) (cards s) (gps_map s) (slider s) b.

(** [update_all(self, index)], the slot of [slider.valueChanged]. *)
Definition update_all (i : Z) : M t unit :=
  fun s =>
    match data s with
    | None => (s, Ok tt)
    | Some df =>
        (col <- lift (getitem df (time_col s)) ;;
         tv <- lift (index (cells col) i) ;;
         (fun s => let (cs, r) :=
                     for_objs (GraphCard.update_cursor tv i) (cards s)
                   in (set_cards cs s, r)) ;;
         s <- get ;;
         match gps_map s with
         | Some g =>
             fun s => let (g', r) := GPSMap.update_cursor i g
                      in (set_gps_map (Some g') s, r)
         | None => ret tt
         end) s
    end.

Definition with_slider (op : Qt.QSlider -> Qt.QSlider * option Z)
  : M t unit :=
  fun s =>
    let (sl, sig) := op (slider s) in
    match sig with
    | Some v => update_all v (set_slider sl s)
    | None => (set_slider sl s, Ok tt)
    end.

(** The time-column loop of [load_csv]:
    [for c in columns: if "time" in c.lower(): self.time_col = c]. *)
Definition scan_time (cols : list string) : M t unit :=
  for_ cols (fun c =>
    if str_in "time" (lower c) then modify (set_time_col (Some c))
    else ret tt).

(** The body of the card loop of [load_csv]. *)
Definition add_card (tm : list cell) (col : string * list Q) : M t unit :=
  fun s =>
    if match time_col s with
       | Some tc => String.eqb (fst col) tc
       | None => false
       end
    then (s, Ok tt)
    else
      match GraphCard.plot tm (snd col) GraphCard.init with
      | (card, Ok _) => (set_cards (cards s ++ [card]) s, Ok tt)
      | (_, Raise e) => (s, Raise e)
      end.

(** The GPS loop of [load_csv]: the last column containing ["lat"]
    and the last containing ["lon"]. *)
Fixpoint scan_gps (df : DataFrame) (lat lon : option series)
  : option series * option series :=
  match df with
  | [] => (lat, lon)
  | (c, v) :: rest =>
      let name := lower c in
      let lat' := if str_in "lat" name then Some v else lat in
      let lon' := if str_in "lon" name then Some v else lon in
      scan_gps rest lat' lon'
  end.

(** [load_csv(self)] once a file was chosen. *)
Definition load_csv (df : DataFrame) : M t unit :=
  modify (set_data (Some df)) ;;
  scan_time (columns df) ;;
  s <- get ;;
  time_v <- lift (getitem df (time_col s)) ;;
  let tm := cells time_v in
  modify (set_cards []) ;;
  for_ (select_number df) (add_card tm) ;;
  match scan_gps df None None with
  | (Some la, Some lo) =>
      fun s => let (g, r) := GPSMap.plot (cells la) (cells lo) GPSMap.init
               in (set_gps_map (Some g) s, r)
  | _ => ret tt
  end ;;
  with_slider (Qt.setMaximum (Z.of_nat (List.length tm) - 1)).

(** [animate(self)] *)
Definition animate : M t unit :=
  s <- get ;;
  let v := (Qt.value (slider s) + 1)%Z in
  if (v >=? Qt.maximum (slider s))%Z then modify (set_timer false)
  else with_slider (Qt.setValue v).

End RocketDashboard.

End V8.

(* ================================================================== *)
(** * V7: one mini graph per channel *)
(* ================================================================== *)

Module V7.

Local Open Scope py_scope.

(** ** [class MiniGraph] *)
Module MiniGraph.

(** [cursor] and [dot] are [None] until [plot]. *)
Record t : Type := mk {
  cursor : option cell;
  dot : option (cell * cell)
}.

Definition init : t := mk None None.

(** [update_cursor(self, t, y)] *)
Definition update_cursor (tv y : cell) : M t unit :=
  fun g =>
    (_ <- lift (attr (cursor g)) ;;
     modify (fun g => mk (Some tv) (dot g)) ;;
     _ <- lift (attr (dot g)) ;;
     modify (fun g => mk (cursor g) (Some (tv, y)))) g.

End MiniGraph.

(** ** [class RocketDashboard] *)
Module RocketDashboard.

Record t : Type := mk {
  data : option DataFrame;
  time_col : option string;
  graphs : list (MiniGraph.t * string);
  slider : Qt.QSlider;
  timer_active : bool
}.

Definition init : t := mk None None [] Qt.new_slider false.

(** The loop [for graph, col in self.graphs] of [slider_update]: the
    graphs are updated in list order, each in place. *)
Fixpoint update_graphs (df : DataFrame) (tv : cell) (i : Z)
         (gs : list (MiniGraph.t * string))
  : list (MiniGraph.t * string) * result unit :=
  match gs with
  | [] => ([], Ok tt)
  | (g, col) :: rest =>
      match bind (getitem df (Some col))
                 (fun v => index (cells v) i) with
      | Raise e => (gs, Raise e)
      | Ok y =>
          match MiniGraph.update_cursor tv y g with
          | (g', Ok _) =>
              let (rest', r) := update_graphs df tv i rest in
              ((g', col) :: rest', r)
          | (g', Raise e) => ((g', col) :: rest, Raise e)
          end
      end
  end.

(** [slider_update(self, index)], the slot of [slider.valueChanged]. *)
Definition slider_update (i : Z) : M t unit :=
  fun s =>
    match data s with
    | None => (s, Ok tt)
    | Some df =>
        (time_v <- lift (getitem df (time_col s)) ;;
         tv <- lift (index (cells time_v) i) ;;
         (fun s => let (gs, r) := update_graphs df tv i (graphs s) in
                   (mk (data s) (time_col s) gs (slider s) (timer_active s),
                    r))) s
    end.

End RocketDashboard.

End V7.

(* ================================================================== *)
(** * V3: adaptive column categories *)
(* ================================================================== *)

Module V3.

Local Open Scope string_scope.

Module RocketDashboard.

(** [categories]: a dict from category name to the columns put in it. *)
Definition categories_t : Type := list (string * list string).

Definition empty_categories : categories_t :=
  [("Time", []); ("Altitude", []); ("Velocity", []); ("Orientation", []);
   ("Control", []); ("Setpoint", []); ("Apogee", []); ("Status", []);
   ("Other", [])].

(** [categories[key].append(col)] *)
Fixpoint append_to (key col : string) (cats : categories_t)
  : categories_t :=
  match cats with
  | [] => []
  | (k, cols) :: rest =>
      if String.eqb k key then (k, (cols ++ [col])%list) :: rest
      else (k, cols) :: append_to key col rest
  end.

Definition category (key : string) (cats : categories_t) : list string :=
  match find (fun p => String.eqb (fst p) key) cats with
  | Some p => snd p
  | None => []
  end.

(** The [if]/[elif] chain of [detect_columns] on the lower-cased
    name: the category the column is appended to, if any;
    [numeric] is [is_numeric_dtype] of the column. *)
Definition category_of (name : string) (numeric : bool) : option string :=
  if str_in "time" name || String.eqb name "t" then Some "Time"
  else if str_in "alt" name || str_in "height" name then Some "Altitude"
  else if str_in "vel" name || str_in "speed" name then Some "Velocity"
  else if str_in "yaw" name || str_in "pitch" name || str_in "roll" name
       then Some "Orientation"
  else if str_in "servo" name || str_in "fin" name then Some "Control"
  else if str_in "setpoint" name || str_in "target" name
       then Some "Setpoint"
  else if str_in "apogee" name then Some "Apogee"
  else if str_in "status" name || str_in "mpu" name || str_in "bmp" name
       then Some "Status"
  else if numeric then Some "Other"
  else None.

(** [self.time_column] and [self.detected_categories]. *)
Record t : Type := mk {
  time_column : option string;
  detected_categories : categories_t
}.

(** The loop of [detect_columns] over the columns in table order. *)
Fixpoint detect_loop (df : DataFrame) (time_column : option string)
         (cats : categories_t) : option string * categories_t :=
  match df with
  | [] => (time_column, cats)
  | (col, v) :: rest =>
      match category_of (lower col) (is_numeric_dtype v) with
      | Some key =>
          detect_loop rest
            (if String.eqb key "Time" then Some col else time_column)
            (append_to key col cats)
      | None => detect_loop rest time_column cats
      end
  end.

(** [detect_columns(self)] *)
Definition detect_columns (df : DataFrame) (s : t) : t :=
  let (tc, cats) := detect_loop df (time_column s) empty_categories in
  mk tc cats.

End RocketDashboard.

End V3.

(* ================================================================== *)
(** * V4: telemetry under the mouse *)
(* ================================================================== *)

Module V4.

Local Open Scope py_scope.

Module RocketDashboard.

(** What the telemetry label shows: its start text ["Telemetry: "], or
    the read-out of a row, with the altitude when there is an altitude
    column. *)
Inductive telemetry_text : Type :=
| NoTelemetry
| TimeOnly (nearest_time : Q)
| TimeAltitude (nearest_time altitude : Q).

(** [cursor_line] is [None] until a plot; then it holds the abscissa of
    the vertical line. *)
Record t : Type := mk {
  data : option DataFrame;
  time_column : option string;
  altitude_column : option string;
  cursor_line : option Q;
  telemetry_label : telemetry_text
}.

Definition init : t := mk None None None None NoTelemetry.

Definition set_cursor_line (x : option Q) (s : t) : t :=
  mk (data s) (time_column s) (altitude_column s) x (telemetry_label s).
Definition set_telemetry_label (x : telemetry_text) (s : t) : t :=
  mk (data s) (time_column s) (altitude_column s) (cursor_line s) x.

(** The lines of [on_mouse_move(self, event)] that choose the row to
    show: [idx = (np.abs(time - mouse_time)).argmin()] and
    [nearest_time = time[idx]], where [time] is the time column and
    [mouse_time] is [event.xdata]. *)
Definition on_mouse_move_nearest (time : list Q) (mouse_time : Q)
  : result (nat * Q) :=
  let? idx := Np.argmin
                (map (fun t => Np.Qabs_b (t - mouse_time)%Q) time) in
  let? nearest_time := index_nat time idx in
  Ok (idx, nearest_time).

(** The same two lines on the [.values] of the time column: [time -
    mouse_time] raises [TypeError] on text; a column without rows gets
    as far as [argmin]. *)
Definition nearest_row (time : series) (mouse_time : Q)
  : result (nat * Q) :=
  match time with
  | Numeric v => on_mouse_move_nearest v mouse_time
  | Text [] => Raise ValueError
  | Text _ => Raise TypeError
  end.

(** [self.cursor_line.set_xdata(nearest_time)]: the abscissa is handed
    over as a bare number.  Matplotlib up to 3.8 takes the number as the
    position of the line; from 3.9 on [set_xdata] raises [RuntimeError]
    unless it is given a sequence.  [sequence_only] says which
    matplotlib runs the dashboard. *)
Definition set_xdata (sequence_only : bool) (nearest_time : Q) : M t unit :=
  s <- get ;;
  _ <- lift (attr (cursor_line s)) ;;
  if sequence_only then raise RuntimeError
  else modify (set_cursor_line (Some nearest_time)).

(** [if self.altitude_column]: [None] and the empty string are false. *)
Definition truthy (c : option string) : bool :=
  match c with
  | None => false
  | Some n => negb (String.eqb n "")
  end.

(** [on_mouse_move(self, event)], the handler of
    [motion_notify_event].  The event is [None] when the mouse is
    outside the axes ([event.inaxes] is [None]) and [event.xdata]
    otherwise. *)
Definition on_mouse_move (sequence_only : bool) (event : option Q)
  : M t unit :=
  fun s =>
    match event, data s with
    | Some mouse_time, Some df =>
        (time <- lift (getitem df (time_column s)) ;;
         p <- lift (nearest_row time mouse_time) ;;
         let (idx, nearest_time) := p in
         set_xdata sequence_only nearest_time ;;
         text <- (if truthy (altitude_column s) then
                    col <- lift (getitem df (altitude_column s)) ;;
                    a <- lift (index_nat (cells col) idx) ;;
                    altitude <- lift (fmt_float a) ;;
                    ret (TimeAltitude nearest_time altitude)
                  else ret (TimeOnly nearest_time)) ;;
         modify (set_telemetry_label text)) s
    | _, _ => (s, Ok tt)
    end.

End RocketDashboard.

End V4.

(* ================================================================== *)
(** * V6 (and V5b): plot list with automatic time and altitude columns *)
(* ================================================================== *)

Module V6.

Local Open Scope py_scope.

Module RocketDashboard.

(** The message boxes [load_csv] shows. *)
Inductive dialog : Set := Success | Error.

(** What the telemetry label shows: its start text, or the read-out
    of a row: the time and the value of every plotted column. *)
Inductive telemetry_text : Type :=
| NoTelemetry
| Readout (t_val : Q) (values : list (string * Q)).

(** The attributes of the dashboard.  [plot_selected] and
    [slider_moved] write [current_ax] ([None] until a plot: [false]),
    [cursor_line] ([None] until a plot has drawn it, then the abscissa
    of the line), [selected_columns] (the columns of the last plot),
    the telemetry label and the slider.  [variable_list] holds the
    items of the list widget ([clear()] removes them together with
    their selection); [dialogs] are the message boxes shown so far,
    oldest first. *)
Record t : Type := mk {
  data : option DataFrame;
  time_column : option string;
  altitude_column : option string;
  current_ax : bool;
  cursor_line : option cell;
  selected_columns : list string;
  variable_list : list string;
  telemetry_label : telemetry_text;
  slider : Qt.QSlider;
  dialogs : list dialog
}.

Definition init : t :=
  mk None None None false None [] [] NoTelemetry Qt.new_slider [].

Definition set_data (d : option DataFrame) (s : t) : t :=
  mk d (time_column s) (altitude_column s) (current_ax s) (cursor_line s)
     (selected_columns s) (variable_list s) (telemetry_label s) (slider s)
     (dialogs s).
Definition set_time_column (c : option string) (s : t) : t :=
  mk (data s) c (altitude_column s) (current_ax s) (cursor_line s)
     (selected_columns s) (variable_list s) (telemetry_label s) (slider s)
     (dialogs s).
Definition set_altitude_column (c : option string) (s : t) : t :=
  mk (data s) (time_column s) c (current_ax s) (cursor_line s)
     (selected_columns s) (variable_list s) (telemetry_label s) (slider s)
     (dialogs s).
Definition set_variable_list (l : list string) (s : t) : t :=
  mk (data s) (time_column s) (altitude_column s) (current_ax s)
     (cursor_line s) (selected_columns s) l (telemetry_label s) (slider s)
     (dialogs s).
Definition show (d : dialog) (s : t) : t :=
  mk (data s) (time_column s) (altitude_column s) (current_ax s)
     (cursor_line s) (selected_columns s) (variable_list s)
     (telemetry_label s) (slider s) (dialogs s ++ [d]).

(** [detect_columns(self)]: both attributes are reset, then every
    column is tested for both, by two separate [if]s. *)
Definition detect_columns : M t unit :=
  modify (set_time_column None) ;;
  modify (set_altitude_column None) ;;
  s <- get ;;
  df <- lift (attr (data s)) ;;
  for_ (columns df) (fun col =>
    let name := lower col in
    (if str_in "time" name then modify (set_time_column (Some col))
     else ret tt) ;;
    (if str_in "alt" name || str_in "height" name
     then modify (set_altitude_column (Some col))
     else ret tt)).

(** [not self.time_column]: [None] and the empty string are false. *)
Definition not_ (c : option string) : bool :=
  match c with
  | None => true
  | Some n => String.eqb n ""
  end.

(** The list loop of [load_csv]:
    [for col in numeric: if col != self.time_column: addItem(col)]. *)
Definition add_items (numeric : list string) : M t unit :=
  for_ numeric (fun col =>
    s <- get ;;
    if match time_column s with
       | Some tc => negb (String.eqb col tc)
       | None => true
       end
    then modify (set_variable_list (variable_list s ++ [col]))
    else ret tt).

(** [load_csv(self)] once a file was chosen; [df] is what
    [pd.read_csv(file)] returned.  The body is one [try] block; the
    exception raised when no time column was detected, like any other,
    ends in the error box of the [except] clause. *)
Definition load_csv (df : DataFrame) : M t unit :=
  fun s =>
    match (modify (set_data (Some df)) ;;
           modify (set_variable_list []) ;;
           detect_columns) s with
    | (s1, Raise _) => (show Error s1, Ok tt)
    | (s1, Ok _) =>
        if not_ (time_column s1) then (show Error s1, Ok tt)
        else
          match (add_items (map fst (select_number df)) ;;
                 modify (show Success)) s1 with
          | (s2, Ok _) => (s2, Ok tt)
          | (s2, Raise _) => (show Error s2, Ok tt)
          end
    end.

End RocketDashboard.

End V6.

(* ================================================================== *)
(** * The full dashboard (Post-Flight AFCS Telemetry Dashboard (Full)) *)
(* ================================================================== *)

Module Full.

Local Open Scope py_scope.

(** ** [class HUDGauge] *)
Module HUDGauge.

Local Open Scope Q_scope.

(** The limits are numbers: 0 and 100 at construction, later the
    extremes of a numeric column. *)
Record t : Type := mk {
  min_val : Q;
  max_val : Q;
  value : cell;
  fill_ratio : Q;
  base_color : Qt.QColor;
  display_color : Qt.QColor
}.

Definition init (color : Qt.QColor) : t :=
  mk 0 100 (CNum 0) 0 color color.

Definition set_display_color (c : Qt.QColor) (g : t) : t :=
  mk (min_val g) (max_val g) (value g) (fill_ratio g) (base_color g) c.

(** [np.clip(x, 0, 1)] *)
Definition clip01 (x : Q) : Q :=
  if Qle_bool x 0 then 0 else if Qle_bool 1 x then 1 else x.

(** [int(x)]: truncation toward zero. *)
Definition int (x : Q) : Z := Z.quot (Qnum x) (Zpos (Qden x)).

(** [set_value(self, val, velocity_ratio=0)]: the value and the fill
    ratio are assigned before the colour is built. *)
Definition set_value (val : cell) (velocity_ratio : Q) : M t unit :=
  (modify (fun g => mk (min_val g) (max_val g) val (fill_ratio g)
                       (base_color g) (display_color g)) ;;
   v <- lift (cell_float val) ;;
   modify (fun g =>
     let range_size := max_val g - min_val g in
     mk (min_val g) (max_val g) (value g)
        (clip01 ((v - min_val g) / range_size))
        (base_color g) (display_color g)) ;;
   g <- get ;;
   let red := inject_Z (Qt.red (base_color g)) in
   let green := inject_Z (Qt.green (base_color g)) in
   let r := int (red + (255 - red) * velocity_ratio) in
   let gr := int (green * (1 - velocity_ratio)) in
   c <- lift (Qt.rgb r gr (Qt.blue (base_color g))) ;;
   modify (set_display_color c))%py.

(** [update_limits(self, min_val, max_val)] *)
Definition update_limits (lo hi : Q) : M t unit :=
  (modify (fun g =>
     mk lo (if negb (Qeq_bool hi lo) then hi else hi + (1 # 1000))
        (value g) (fill_ratio g) (base_color g) (display_color g)))%py.

End HUDGauge.

(** ** [class RocketDashboard] *)
Module RocketDashboard.

(** The channel a column is taken for by the [if]/[elif] chain of
    [load_csv]. *)
Inductive role : Set :=
| Time | Altitude | Velocity | Yaw | YawSetpoint | ServoPosition.

(** The column attributes [load_csv] assigns; [acc_x], [acc_y] and
    [acc_z] are the entries of the dict [acc_cols]. *)
Record channels : Set := mkChannels {
  time_col : option string;
  alt_col : option string;
  vel_col : option string;
  yaw_col : option string;
  yaw_sp_col : option string;
  servo_col : option string;
  acc_x : option string;
  acc_y : option string;
  acc_z : option string
}.

Definition no_channels : channels :=
  mkChannels None None None None None None None None None.

(** The [if]/[elif] chain on the lower-cased name [low]. *)
Definition role_of (low : string) : option role :=
  if str_in "time" low then Some Time
  else if str_in "alt" low then Some Altitude
  else if str_in "vel" low then Some Velocity
  else if str_in "yaw" low
          && (negb (str_in "set" low) && negb (str_in "sp" low))
       then Some Yaw
  else if str_in "set" low || str_in "sp" low then Some YawSetpoint
  else if str_in "servo" low || str_in "pos" low then Some ServoPosition
  else None.

Definition assign (r : option role) (c : string) (ch : channels)
  : channels :=
  match r with
  | Some Time =>
      mkChannels (Some c) (alt_col ch) (vel_col ch) (yaw_col ch)
        (yaw_sp_col ch) (servo_col ch) (acc_x ch) (acc_y ch) (acc_z ch)
  | Some Altitude =>
      mkChannels (time_col ch) (Some c) (vel_col ch) (yaw_col ch)
        (yaw_sp_col ch) (servo_col ch) (acc_x ch) (acc_y ch) (acc_z ch)
  | Some Velocity =>
      mkChannels (time_col ch) (alt_col ch) (Some c) (yaw_col ch)
        (yaw_sp_col ch) (servo_col ch) (acc_x ch) (acc_y ch) (acc_z ch)
  | Some Yaw =>
      mkChannels (time_col ch) (alt_col ch) (vel_col ch) (Some c)
        (yaw_sp_col ch) (servo_col ch) (acc_x ch) (acc_y ch) (acc_z ch)
  | Some YawSetpoint =>
      mkChannels (time_col ch) (alt_col ch) (vel_col ch) (yaw_col ch)
        (Some c) (servo_col ch) (acc_x ch) (acc_y ch) (acc_z ch)
  | Some ServoPosition =>
      mkChannels (time_col ch) (alt_col ch) (vel_col ch) (yaw_col ch)
        (yaw_sp_col ch) (Some c) (acc_x ch) (acc_y ch) (acc_z ch)
  | None => ch
  end.

(** The acceleration mapping that follows the chain. *)
Definition assign_acc (low c : string) (ch : channels) : channels :=
  if str_in "accel" low || str_in "acc" low then
    if str_in "x" low then
      mkChannels (time_col ch) (alt_col ch) (vel_col ch) (yaw_col ch)
        (yaw_sp_col ch) (servo_col ch) (Some c) (acc_y ch) (acc_z ch)
    else if str_in "y" low then
      mkChannels (time_col ch) (alt_col ch) (vel_col ch) (yaw_col ch)
        (yaw_sp_col ch) (servo_col ch) (acc_x ch) (Some c) (acc_z ch)
    else if str_in "z" low then
      mkChannels (time_col ch) (alt_col ch) (vel_col ch) (yaw_col ch)
        (yaw_sp_col ch) (servo_col ch) (acc_x ch) (acc_y ch) (Some c)
    else ch
  else ch.

(** One round of the column loop of [load_csv] (without the entry
    added to the variable list). *)
Definition classify_column (c : string) (ch : channels) : channels :=
  let low := lower c in
  assign_acc low c (assign (role_of low) c ch).

(** The column loop of [load_csv], in table order, starting from the
    attributes as the previous load left them; the second component is
    [variable_list]. *)
Fixpoint load_csv_columns (df : DataFrame) (ch : channels)
         (variable_list : list string) : channels * list string :=
  match df with
  | [] => (ch, variable_list)
  | (c, v) :: rest =>
      let ch' := classify_column c ch in
      let vl :=
        if is_numeric_dtype v
           && negb match time_col ch' with
                   | Some tc => String.eqb c tc
                   | None => false
                   end
        then variable_list ++ [c] else variable_list in
      load_csv_columns rest ch' vl
  end.

(** What the telemetry label shows: its start text, the text after a
    load, or the read-out [T: ..s | ALT: ..m] of a row. *)
Inductive telemetry_text : Type :=
| SystemReady
| Loaded
| Readout (t_val alt : Q).

(** [current_ax] is [None] until a plot ([false]); [cursor_line] does
    not exist until a plot has drawn it; [intersection_dots] is a dict
    from the plotted column to the position of its dot ([None] while
    the dot has no data). *)
Record t : Type := mk {
  data : option DataFrame;
  ch : channels;
  current_ax : bool;
  bg_cache : bool;
  cursor_line : option cell;
  intersection_dots : list (string * option (cell * cell));
  alt_gauge : HUDGauge.t;
  vel_gauge : HUDGauge.t;
  servo_gauge : HUDGauge.t;
  yaw_gauge : HUDGauge.t;
  yaw_sp_gauge : HUDGauge.t;
  telemetry : telemetry_text;
  slider : Qt.QSlider;
  timer_active : bool
}.

Definition init : t :=
  mk None no_channels false false None []
     (HUDGauge.init (Qt.Rgb Byte.x4c Byte.xaf Byte.x50))
     (HUDGauge.init (Qt.Rgb Byte.x21 Byte.x96 Byte.xf3))
     (HUDGauge.init (Qt.Rgb Byte.xe9 Byte.x1e Byte.x63))
     (HUDGauge.init (Qt.Rgb Byte.x00 Byte.xbc Byte.xd4))
     (HUDGauge.init (Qt.Rgb Byte.xff Byte.x98 Byte.x00))
     SystemReady Qt.new_slider false.

Definition set_bg_cache (b : bool) (s : t) : t :=
  mk (data s) (ch s) (current_ax s) b (cursor_line s)
     (intersection_dots s) (alt_gauge s) (vel_gauge s) (servo_gauge s)
     (yaw_gauge s) (yaw_sp_gauge s) (telemetry s) (slider s)
     (timer_active s).
Definition set_cursor_line (c : option cell) (s : t) : t :=
  mk (data s) (ch s) (current_ax s) (bg_cache s) c
     (intersection_dots s) (alt_gauge s) (vel_gauge s) (servo_gauge s)
     (yaw_gauge s) (yaw_sp_gauge s) (telemetry s) (slider s)
     (timer_active s).
Definition set_dots (d : list (string * option (cell * cell))) (s : t)
  : t :=
  mk (data s) (ch s) (current_ax s) (bg_cache s) (cursor_line s) d
     (alt_gauge s) (vel_gauge s) (servo_gauge s) (yaw_gauge s)
     (yaw_sp_gauge s) (telemetry s) (slider s) (timer_active s).
Definition set_alt_gauge (g : HUDGauge.t) (s : t) : t :=
  mk (data s) (ch s) (current_ax s) (bg_cache s) (cursor_line s)
     (intersection_dots s) g (vel_gauge s) (servo_gauge s) (yaw_gauge s)
     (yaw_sp_gauge s) (telemetry s) (slider s) (timer_active s).
Definition set_vel_gauge (g : HUDGauge.t) (s : t) : t :=
  mk (data s) (ch s) (current_ax s) (bg_cache s) (cursor_line s)
     (intersection_dots s) (alt_gauge s) g (servo_gauge s) (yaw_gauge s)
     (yaw_sp_gauge s) (telemetry s) (slider s) (timer_active s).
Definition set_servo_gauge (g : HUDGauge.t) (s : t) : t :=
  mk (data s) (ch s) (current_ax s) (bg_cache s) (cursor_line s)
     (intersection_dots s) (alt_gauge s) (vel_gauge s) g (yaw_gauge s)
     (yaw_sp_gauge s) (telemetry s) (slider s) (timer_active s).
Definition set_yaw_gauge (g : HUDGauge.t) (s : t) : t :=
  mk (data s) (ch s) (current_ax s) (bg_cache s) (cursor_line s)
     (intersection_dots s) (alt_gauge s) (vel_gauge s) (servo_gauge s) g
     (yaw_sp_gauge s) (telemetry s) (slider s) (timer_active s).
Definition set_yaw_sp_gauge (g : HUDGauge.t) (s : t) : t :=
  mk (data s) (ch s) (current_ax s) (bg_cache s) (cursor_line s)
     (intersection_dots s) (alt_gauge s) (vel_gauge s) (servo_gauge s)
     (yaw_gauge s) g (telemetry s) (slider s) (timer_active s).
Definition set_telemetry (x : telemetry_text) (s : t) : t :=
  mk (data s) (ch s) (current_ax s) (bg_cache s) (cursor_line s)
     (intersection_dots s) (alt_gauge s) (vel_gauge s) (servo_gauge s)
     (yaw_gauge s) (yaw_sp_gauge s) x (slider s) (timer_active s).
Definition set_slider (sl : Qt.QSlider) (s : t) : t :=
  mk (data s) (ch s) (current_ax s) (bg_cache s) (cursor_line s)
     (intersection_dots s) (alt_gauge s) (vel_gauge s) (servo_gauge s)
     (yaw_gauge s) (yaw_sp_gauge s) (telemetry s) sl (timer_active s).
Definition set_timer (b : bool) (s : t) : t :=
  mk (data s) (ch s) (current_ax s) (bg_cache s) (cursor_line s)
     (intersection_dots s) (alt_gauge s) (vel_gauge s) (servo_gauge s)
     (yaw_gauge s) (yaw_sp_gauge s) (telemetry s) (slider s) b.

(** The loop [for c, dot in self.intersection_dots.items()] of
    [slider_moved]: [dot.set_data([t_val], [row[c]])], in dict order. *)
Fixpoint move_dots (r : row) (t_val : cell)
         (dots : list (string * option (cell * cell)))
  : list (string * option (cell * cell)) * result unit :=
  match dots with
  | [] => ([], Ok tt)
  | (c, d) :: rest =>
      match row_getitem r (Some c) with
      | Raise e => (dots, Raise e)
      | Ok y =>
          let (rest', res) := move_dots r t_val rest in
          ((c, Some (t_val, y)) :: rest', res)
      end
  end.

(** [if col: gauge.set_value(row[col], ratio)] *)
Definition gauge_update (col : option string) (r : row) (ratio : Q)
           (proj : t -> HUDGauge.t) (upd : HUDGauge.t -> t -> t)
  : M t unit :=
  match col with
  | None => ret tt
  | Some _ =>
      v <- lift (row_getitem r col) ;;
      on_attr proj upd (HUDGauge.set_value v ratio)
  end.

(** The [try] block of [slider_moved]. *)
Definition slider_moved_body (i : Z) (df : DataFrame) : M t unit :=
  r <- lift (iloc df i) ;;
  s <- get ;;
  t_val <- lift (row_getitem r (time_col (ch s))) ;;
  modify (set_bg_cache true) ;;
  _ <- lift (attr (cursor_line s)) ;;
  modify (set_cursor_line (Some t_val)) ;;
  (fun s => let (ds, res) := move_dots r t_val (intersection_dots s) in
            (set_dots ds s, res)) ;;
  v_max <- match vel_col (ch s) with
           | Some _ =>
               col <- lift (getitem df (vel_col (ch s))) ;;
               match col with
               | Numeric v => lift (Np.amax v)
               | Text _ => raise TypeError
               end
           | None => ret 1%Q
           end ;;
  v_ratio <- match vel_col (ch s) with
             | Some _ =>
                 if negb (Qeq_bool v_max 0) then
                   c <- lift (row_getitem r (vel_col (ch s))) ;;
                   x <- lift (cell_float c) ;;
                   ret (Np.Qabs_b x / v_max)%Q
                 else ret 0%Q
             | None => ret 0%Q
             end ;;
  gauge_update (alt_col (ch s)) r v_ratio alt_gauge set_alt_gauge ;;
  gauge_update (vel_col (ch s)) r v_ratio vel_gauge set_vel_gauge ;;
  gauge_update (servo_col (ch s)) r 0%Q servo_gauge set_servo_gauge ;;
  gauge_update (yaw_col (ch s)) r 0%Q yaw_gauge set_yaw_gauge ;;
  gauge_update (yaw_sp_col (ch s)) r 0%Q yaw_sp_gauge set_yaw_sp_gauge ;;
  tv <- lift (fmt_float t_val) ;;
  alt <- lift (fmt_float (row_get r (alt_col (ch s)) (CNum 0))) ;;
  modify (set_telemetry (Readout tv alt)).

(** [slider_moved(self, i)], the slot of [slider.valueChanged]. *)
Definition slider_moved (i : Z) : M t unit :=
  fun s =>
    match data s with
    | None => (s, Ok tt)
    | Some df =>
        if negb (current_ax s) then (s, Ok tt)
        else try_pass (slider_moved_body i df) s
    end.

Definition with_slider (op : Qt.QSlider -> Qt.QSlider * option Z)
  : M t unit :=
  fun s =>
    let (sl, sig) := op (slider s) in
    match sig with
    | Some v => slider_moved v (set_slider sl s)
    | None => (set_slider sl s, Ok tt)
    end.

(** [toggle_playback(self)] *)
Definition toggle_playback : M t unit :=
  s <- get ;;
  if timer_active s then modify (set_timer false)
  else modify (set_timer true).

(** [step_forward(self)], the slot of [timer.timeout]. *)
Definition step_forward : M t unit :=
  s <- get ;;
  if (Qt.value (slider s) <? Qt.maximum (slider s))%Z then
    with_slider (Qt.setValue (Qt.value (slider s) + 1))
  else toggle_playback.

(** The timer fires only while it is active. *)
Definition tick : M t unit :=
  s <- get ;;
  if timer_active s then step_forward else ret tt.

End RocketDashboard.

End Full.

(* ================================================================== *)
(** * 3x3 matrices (numpy arrays of shape (3, 3)) over the reals *)
(* ================================================================== *)

Module Mat3.

Local Open Scope R_scope.

Definition vec : Type := (R * R * R)%type.

(** A matrix is its three rows. *)
Definition mat : Type := (vec * vec * vec)%type.

Definition I3 : mat := ((1, 0, 0), (0, 1, 0), (0, 0, 1)).

Definition dot (u v : vec) : R :=
  let '(u0, u1, u2) := u in
  let '(v0, v1, v2) := v in
  u0 * v0 + u1 * v1 + u2 * v2.

(** [A.T] *)
Definition transpose (A : mat) : mat :=
  let '((a00, a01, a02), (a10, a11, a12), (a20, a21, a22)) := A in
  ((a00, a10, a20), (a01, a11, a21), (a02, a12, a22)).

(** [A @ v] *)
Definition mvmul (A : mat) (v : vec) : vec :=
  let '(r0, r1, r2) := A in (dot r0 v, dot r1 v, dot r2 v).

(** [v @ A] for a row [v] *)
Definition vmmul (v : vec) (A : mat) : vec :=
  let '(c0, c1, c2) := transpose A in (dot v c0, dot v c1, dot v c2).

(** [A @ B] *)
Definition mmul (A B : mat) : mat :=
  let '(r0, r1, r2) := A in
  let '(c0, c1, c2) := transpose B in
  ((dot r0 c0, dot r0 c1, dot r0 c2),
   (dot r1 c0, dot r1 c1, dot r1 c2),
   (dot r2 c0, dot r2 c1, dot r2 c2)).

Definition det (A : mat) : R :=
  let '((a00, a01, a02), (a10, a11, a12), (a20, a21, a22)) := A in
  a00 * (a11 * a22 - a12 * a21)
  - a01 * (a10 * a22 - a12 * a20)
  + a02 * (a10 * a21 - a11 * a20).

(** The three elementary rotations as the dashboards write them. *)
Definition Rx (a : R) : mat :=
  ((1, 0, 0), (0, cos a, - sin a), (0, sin a, cos a)).
Definition Ry (a : R) : mat :=
  ((cos a, 0, sin a), (0, 1, 0), (- sin a, 0, cos a)).
Definition Rz (a : R) : mat :=
  ((cos a, - sin a, 0), (sin a, cos a, 0), (0, 0, 1)).

(** [np.radians(x)] *)
Definition radians (x : R) : R := x * (PI / 180).

End Mat3.

(* ================================================================== *)
(** * V10: the 3D rocket viewer *)
(* ================================================================== *)

Module V10.

Module Rocket3D.

Import Mat3.

(** [rotation_matrix(self, r, p, y)], angles in degrees. *)
Definition rotation_matrix (r p y : R) : mat :=
  let r := radians r in
  let p := radians p in
  let y := radians y in
  let Rx := ((1, 0, 0), (0, cos r, - sin r), (0, sin r, cos r))%R in
  let Ry := ((cos p, 0, sin p), (0, 1, 0), (- sin p, 0, cos p))%R in
  let Rz := ((cos y, - sin y, 0), (sin y, cos y, 0), (0, 0, 1))%R in
  mmul (mmul Rz Ry) Rx.

(** [self.body]: the two ends of the rocket axis, one per row. *)
Definition body : vec * vec := ((0, 0, 0), (0, 0, 3 / 2))%R.

(** [update_attitude(self, roll, pitch, yaw)]: the rows of
    [rot = self.body @ R.T], the two points the line is drawn through. *)
Definition update_attitude (roll pitch yaw : R) : vec * vec :=
  let R := rotation_matrix roll pitch yaw in
  (vmmul (fst body) (transpose R), vmmul (snd body) (transpose R)).

End Rocket3D.

End V10.

(* ================================================================== *)
(** * V12b: graph cards and the 3D attitude viewer *)
(* ================================================================== *)

Module V12b.

Local Open Scope py_scope.

(** ** [class GraphCard] *)
Module GraphCard.

Record t : Type := mk {
  time : option (list cell);
  data : option (list Q);
  cursor : option cell;
  dot : option (cell * Q)
}.

Definition init : t := mk None None None None.

(** [plot(self, time, data, label)] *)
Definition plot (tm : list cell) (d : list Q) : M t unit :=
  modify (fun c => mk (Some tm) (Some d) (cursor c) (dot c)) ;;
  t0 <- lift (index tm 0) ;;
  modify (fun c => mk (time c) (data c) (Some t0) (dot c)) ;;
  t0' <- lift (index tm 0) ;;
  d0 <- lift (index d 0) ;;
  modify (fun c => mk (time c) (data c) (cursor c) (Some (t0', d0))).

(** [update_cursor(self, t, index)] *)
Definition update_cursor (tv : cell) (i : Z) : M t unit :=
  fun c =>
    match data c with
    | None => (c, Ok tt)
    | Some d =>
        (_ <- lift (attr (cursor c)) ;;
         modify (fun c => mk (time c) (data c) (Some tv) (dot c)) ;;
         _ <- lift (attr (dot c)) ;;
         y <- lift (index d i) ;;
         modify (fun c => mk (time c) (data c) (cursor c) (Some (tv, y)))) c
    end.

End GraphCard.

(** ** [class AttitudeViewer] *)
Module AttitudeViewer.

Import Mat3.

(** The matrix [R] that [update(self, pitch, roll, yaw)] computes
    from its arguments (radians). *)
Definition update_R (pitch roll yaw : R) : mat :=
  let Rx := ((1, 0, 0), (0, cos roll, - sin roll),
             (0, sin roll, cos roll))%R in
  let Ry := ((cos pitch, 0, sin pitch), (0, 1, 0),
             (- sin pitch, 0, cos pitch))%R in
  let Rz := ((cos yaw, - sin yaw, 0), (sin yaw, cos yaw, 0),
             (0, 0, 1))%R in
  mmul (mmul Rz Ry) Rx.

(** The tip of the line [update] draws: [R @ [0, 0, length]] with
    [length = 1]. *)
Definition update_vec (pitch roll yaw : R) : vec :=
  mvmul (update_R pitch roll yaw) (0, 0, 1)%R.

(** What the viewer shows: nothing, or the body axis of one sample.
    The sample is kept as the (pitch, roll, yaw) read from the table, in
    degrees; the line drawn for it is
    [update_vec (radians pitch) (radians roll) (radians yaw)]. *)
Record t : Type := mk { shown : option (Q * Q * Q) }.

Definition init : t := mk None.

(** [update(self, pitch, roll, yaw)] as a change of what is shown. *)
Definition update (pitch roll yaw : Q) : M t unit :=
  modify (fun _ => mk (Some (pitch, roll, yaw))).

End AttitudeViewer.

(** ** [class RocketDashboard] *)
Module RocketDashboard.

Record t : Type := mk {
  data : option DataFrame;
  cards : list GraphCard.t;
  attitude : option AttitudeViewer.t;
  slider : Qt.QSlider;
  timer_active : bool
}.

Definition init : t := mk None [] None Qt.new_slider false.

Definition set_cards (c : list GraphCard.t) (s : t) : t :=
  mk (data s) c (attitude s) (slider s) (timer_active s).
Definition set_attitude (a : option AttitudeViewer.t) (s : t) : t :=
  mk (data s) (cards s) a (slider s) (timer_active s).

(** [df.filter(regex=k, axis=1).values[index][0]]: the cell at row
    [index] of the first column whose name contains [k]. *)
Definition filter_value (df : DataFrame) (k : string) (i : Z)
  : result cell :=
  let sub := filter (fun p => str_in k (fst p)) df in
  let? r := iloc sub i in
  let? c := index (map snd r) 0 in
  Ok c.

(** The [try] block of [update_all]. *)
Definition update_attitude (df : DataFrame) (i : Z) : M t unit :=
  pitch <- lift (filter_value df "pitch" i) ;;
  roll <- lift (filter_value df "roll" i) ;;
  yaw <- lift (filter_value df "yaw" i) ;;
  s <- get ;;
  match attitude s with
  | None => raise AttributeError
  | Some a =>
      p <- lift (cell_float pitch) ;;
      r <- lift (cell_float roll) ;;
      y <- lift (cell_float yaw) ;;
      on_attr (fun _ => a) (fun a' => set_attitude (Some a'))
              (AttitudeViewer.update p r y)
  end.

(** [update_all(self, index)], the slot of [slider.valueChanged]. *)
Definition update_all (i : Z) : M t unit :=
  fun s =>
    match data s with
    | None => (s, Ok tt)
    | Some df =>
        (time <- lift (index (filter (fun c => str_in "time" (lower c))
                                     (columns df)) 0) ;;
         col <- lift (getitem df (Some time)) ;;
         tv <- lift (index (cells col) i) ;;
         (fun s => let (cs, r) :=
                     for_objs (GraphCard.update_cursor tv i) (cards s)
                   in (set_cards cs s, r)) ;;
         try_pass (update_attitude df i)) s
    end.

(** The label [detect_phases] gives to one vertical rate. *)
Definition phase_label (v : Q) : string :=
  if Np.Qlt_bool 5%Q v then "BOOST"%string
  else if Np.Qlt_bool 0%Q v then "COAST"%string
  else if Np.Qlt_bool v (-2)%Q then "DESCENT"%string
  else "LANDED"%string.

(** [detect_phases(self, alt)]: one label per sample, from the rate
    [np.gradient(alt)]. *)
Definition detect_phases (alt : list Q) : result (list string) :=
  let? vel := Np.gradient_unit alt in
  Ok (map phase_label vel).

End RocketDashboard.

End V12b.

(* ================================================================== *)
(** * Vocabulary of the statements *)
(* ================================================================== *)

(** ** Predicates *)

(** The time stamps never go back. *)
Fixpoint non_decreasing (l : list Q) : Prop :=
  match l with
  | a :: (b :: _) as rest => (a <= b)%Q /\ non_decreasing rest
  | _ => True
  end.

(** The precondition of phase detection: two series of one length, at
    least 2, over non-decreasing time. *)
Definition valid_series (time altitude : list Q) : Prop :=
  List.length time = List.length altitude /\
  (2 <= List.length time)%nat /\
  non_decreasing time.

(** The order of the four phase indices. *)
Definition phases_ordered (p : V9.RocketDashboard.phase_index) : Prop :=
  (V9.RocketDashboard.boost p <= V9.RocketDashboard.coast p)%nat /\
  (V9.RocketDashboard.coast p <= V9.RocketDashboard.apogee p)%nat /\
  (V9.RocketDashboard.apogee p <= V9.RocketDashboard.descent p)%nat.

(** The vertical rate at row [i] is above the boost threshold, below the
    descent threshold. *)
Definition rate_above (vel : list Q) (i : nat) : bool :=
  Np.Qlt_bool 5%Q (nth i vel 0%Q).
Definition rate_below (vel : list Q) (i : nat) : bool :=
  Np.Qlt_bool (nth i vel 0%Q) (-2)%Q.

(** [phases[name]] *)
Definition phase_time (name : string) (phases : list (string * Q))
  : option Q :=
  match find (fun p => String.eqb (fst p) name) phases with
  | Some p => Some (snd p)
  | None => None
  end.

(** The slider keeps its value inside its range. *)
Definition slider_in_range (sl : Qt.QSlider) : Prop :=
  (Qt.minimum sl <= Qt.value sl <= Qt.maximum sl)%Z.

(** The lower-cased name of the column contains ["time"]. *)
Definition is_time_name (c : string) : bool := str_in "time" (lower c).

(** A matrix is a rotation: orthonormal, with determinant 1. *)
Definition is_rotation (A : Mat3.mat) : Prop :=
  Mat3.mmul (Mat3.transpose A) A = Mat3.I3 /\ Mat3.det A = 1%R.

(** What one round of the card loop of V9's [load_csv] keeps: the slider,
    the timer, the table, the time stamps and the GPS map of the dashboard
    [s0] it started from, and cards that all carry [phases]. *)
Definition card_loop_inv (phases : list (string * Q))
           (s0 s : V9.RocketDashboard.t) : Prop :=
  V9.RocketDashboard.slider s = V9.RocketDashboard.slider s0 /\
  V9.RocketDashboard.timer_active s = V9.RocketDashboard.timer_active s0 /\
  V9.RocketDashboard.data s = V9.RocketDashboard.data s0 /\
  V9.RocketDashboard.time s = V9.RocketDashboard.time s0 /\
  V9.RocketDashboard.gps s = V9.RocketDashboard.gps s0 /\
  Forall (fun c => V9.GraphCard.phase_lines c = phases)
         (V9.RocketDashboard.cards s).

(** [n] calls of a method in a row, each on the attributes the previous
    call left. *)
Fixpoint repeat_call {S} (n : nat) (m : M S unit) (s : S) : S :=
  match n with
  | O => s
  | S k => repeat_call k m (fst (m s))
  end.

(** The lower-cased name of the column contains one of the keywords. *)
Definition matches (keywords : list string) (c : string) : bool :=
  any_in keywords (lower c).

(** The lower-cased name of the column contains ["alt"] or ["height"]. *)
Definition is_altitude_name (c : string) : bool :=
  str_in "alt" (lower c) || str_in "height" (lower c).

(** The last element of a list, in list order, that satisfies [p]. *)
Definition last_match {A} (p : A -> bool) (l : list A) : option A :=
  find p (rev l).

(** V3's [detect_columns] puts the column into the category [key]. *)
Definition in_category (key : string) (p : string * series) : bool :=
  match V3.RocketDashboard.category_of (lower (fst p))
                                       (is_numeric_dtype (snd p)) with
  | Some k => String.eqb k key
  | None => false
  end.

(** A property of the full dashboard that no update of a view can
    break: it survives every assignment to the cursor line, the dots, the
    gauges and the telemetry label. *)
Definition views_only (P : Full.RocketDashboard.t -> Prop) : Prop :=
  (forall b st, P st -> P (Full.RocketDashboard.set_bg_cache b st)) /\
  (forall c st, P st -> P (Full.RocketDashboard.set_cursor_line c st)) /\
  (forall d st, P st -> P (Full.RocketDashboard.set_dots d st)) /\
  (forall g st, P st -> P (Full.RocketDashboard.set_alt_gauge g st)) /\
  (forall g st, P st -> P (Full.RocketDashboard.set_vel_gauge g st)) /\
  (forall g st, P st -> P (Full.RocketDashboard.set_servo_gauge g st)) /\
  (forall g st, P st -> P (Full.RocketDashboard.set_yaw_gauge g st)) /\
  (forall g st, P st -> P (Full.RocketDashboard.set_yaw_sp_gauge g st)) /\
  (forall x st, P st -> P (Full.RocketDashboard.set_telemetry x st)).

(** A V9 card that has been plotted with [n] samples. *)
Definition card_ready (n : nat) (c : V9.GraphCard.t) : Prop :=
  (exists d, V9.GraphCard.data c = Some d /\ List.length d = n) /\
  V9.GraphCard.cursor c <> None /\ V9.GraphCard.dot c <> None.

(** A V9 GPS map that has been plotted with at least [n] positions. *)
Definition map_ready (n : nat) (g : V9.GPSMap.t) : Prop :=
  V9.GPSMap.cursor g <> None /\
  (exists la, V9.GPSMap.lat g = Some la /\ (n <= List.length la)%nat) /\
  (exists lo, V9.GPSMap.lon g = Some lo /\ (n <= List.length lo)%nat).

(** The V9 dashboard shows a flight of [n] rows: the time stamps, every
    card and the GPS map (when there is one) hold [n] samples, and the
    slider runs over the rows 0 .. n-1. *)
Definition dashboard_ready (n : nat) (s : V9.RocketDashboard.t) : Prop :=
  (exists tm, V9.RocketDashboard.time s = Some tm /\ List.length tm = n) /\
  Forall (card_ready n) (V9.RocketDashboard.cards s) /\
  match V9.RocketDashboard.gps s with
  | Some g => map_ready n g
  | None => True
  end /\
  Qt.minimum (V9.RocketDashboard.slider s) = 0%Z /\
  Qt.maximum (V9.RocketDashboard.slider s) = (Z.of_nat n - 1)%Z /\
  slider_in_range (V9.RocketDashboard.slider s).

(** The path a V9 GPS map shows, when there is a map: its latitudes
    and longitudes. *)
Definition map_track (g : option V9.GPSMap.t)
  : option (option (list cell) * option (list cell)) :=
  option_map (fun m => (V9.GPSMap.lat m, V9.GPSMap.lon m)) g.

(** The cells of a column of the table. *)
Definition column_cells (df : DataFrame) (c : string) : list cell :=
  match lookup df c with
  | Some v => cells v
  | None => []
  end.

(** Every column of the table has [n] rows. *)
Definition table_rows (n : nat) (df : DataFrame) : Prop :=
  Forall (fun p => series_len (snd p) = n) df.

(** The chain of the full dashboard takes the column for the channel
    [r]. *)
Definition has_role (r : Full.RocketDashboard.role) (c : string) : bool :=
  match Full.RocketDashboard.role_of (lower c), r with
  | Some Full.RocketDashboard.Time, Full.RocketDashboard.Time
  | Some Full.RocketDashboard.Altitude, Full.RocketDashboard.Altitude
  | Some Full.RocketDashboard.Velocity, Full.RocketDashboard.Velocity
  | Some Full.RocketDashboard.Yaw, Full.RocketDashboard.Yaw
  | Some Full.RocketDashboard.YawSetpoint, Full.RocketDashboard.YawSetpoint
  | Some Full.RocketDashboard.ServoPosition,
    Full.RocketDashboard.ServoPosition => true
  | _, _ => false
  end.

(** The acceleration mapping of the full dashboard takes the column
    for the x, the y, the z axis: the name says "acc" and the axis
    letter, and no letter tested earlier. *)
Definition is_acc_x (c : string) : bool :=
  (str_in "accel" (lower c) || str_in "acc" (lower c))
  && str_in "x" (lower c).
Definition is_acc_y (c : string) : bool :=
  (str_in "accel" (lower c) || str_in "acc" (lower c))
  && negb (str_in "x" (lower c)) && str_in "y" (lower c).
Definition is_acc_z (c : string) : bool :=
  (str_in "accel" (lower c) || str_in "acc" (lower c))
  && negb (str_in "x" (lower c)) && negb (str_in "y" (lower c))
  && str_in "z" (lower c).

(** The channel after a scan: the last column, in table order, that is
    taken for it, or what it held before when there is none. *)
Definition last_or {A} (p : A -> bool) (l : list A) (before : option A)
  : option A :=
  match last_match p l with
  | Some a => Some a
  | None => before
  end.

(** The channel, when it is assigned, is a numeric column of the table. *)
Definition numeric_channel (df : DataFrame) (c : option string) : Prop :=
  match c with
  | Some n => exists v, lookup df n = Some (Numeric v)
  | None => True
  end.

(** The number in row [i] of the channel's column (0 without a numeric
    column), and the cell in row [i] of any column. *)
Definition number_at (df : DataFrame) (c : option string) (i : Z) : Q :=
  match c with
  | Some n =>
      match lookup df n with
      | Some (Numeric v) => nth (Z.to_nat i) v 0%Q
      | _ => 0%Q
      end
  | None => 0%Q
  end.
Definition cell_at (df : DataFrame) (c : string) (i : Z) : cell :=
  match lookup df c with
  | Some v => nth (Z.to_nat i) (cells v) (CNum 0%Q)
  | None => CNum 0%Q
  end.

(** The full dashboard shows a plot of the table [df] of [n] rows: the
    table is loaded, a plot has drawn the cursor line and its dots, the
    time column and every assigned gauge channel are numeric columns of
    the table, and every dot belongs to a column of the table. *)
Definition plot_consistent (n : nat) (df : DataFrame)
           (s : Full.RocketDashboard.t) : Prop :=
  Full.RocketDashboard.data s = Some df /\
  Full.RocketDashboard.current_ax s = true /\
  table_rows n df /\
  Full.RocketDashboard.time_col (Full.RocketDashboard.ch s) <> None /\
  numeric_channel df
    (Full.RocketDashboard.time_col (Full.RocketDashboard.ch s)) /\
  numeric_channel df
    (Full.RocketDashboard.alt_col (Full.RocketDashboard.ch s)) /\
  numeric_channel df
    (Full.RocketDashboard.vel_col (Full.RocketDashboard.ch s)) /\
  numeric_channel df
    (Full.RocketDashboard.servo_col (Full.RocketDashboard.ch s)) /\
  numeric_channel df
    (Full.RocketDashboard.yaw_col (Full.RocketDashboard.ch s)) /\
  numeric_channel df
    (Full.RocketDashboard.yaw_sp_col (Full.RocketDashboard.ch s)) /\
  Full.RocketDashboard.cursor_line s <> None /\
  Forall (fun d => In (fst d) (columns df))
         (Full.RocketDashboard.intersection_dots s).

(** The tint of the gauges stays within the integers of Qt on every
    row: no sample of the velocity column is, in absolute value, more
    than 8,000,000 times the maximum of the column.  Nothing is asked
    without a velocity channel, or when the maximum is 0. *)
Definition tint_fits (df : DataFrame) (vel : option string) : Prop :=
  match vel with
  | Some c =>
      match lookup df c with
      | Some (Numeric v) =>
          forall m, Np.amax v = Ok m -> ~ (m == 0)%Q ->
                    Forall (fun x => (Qabs x <= 8000000 * Qabs m)%Q) v
      | _ => True
      end
  | None => True
  end.

(** The card V9's [load_csv] makes for a numeric column: plotted over
    the time stamps [tm], with the phase lines drawn. *)
Definition loaded_card (tm : list Q) (phases : list (string * Q))
           (col : string * list Q) : V9.GraphCard.t :=
  V9.GraphCard.mk (fst col) (Some (snd col)) (Some tm)
    (Some (nth 0 tm 0%Q)) (Some (nth 0 tm 0%Q, nth 0 (snd col) 0%Q)) phases.

(** ** Flights and dashboards used as examples *)

(** Integer samples. *)
Definition samples (l : list Z) : list Q := map inject_Z l.

(** The flight of the specification's example: nine altitude samples
    over uniform time steps. *)
Definition example_time : list Q := samples [0; 1; 2; 3; 4; 5; 6; 7; 8]%Z.
Definition example_altitude : list Q :=
  samples [0; 10; 40; 90; 95; 60; 20; 2; 1]%Z.

(** A slow climb to 8, a fall back to 0, and a late jump: the only rate
    above 5 comes after the highest sample. *)
Definition late_jump_time : list Q := samples [0; 1; 2; 3; 4; 5]%Z.
Definition late_jump_altitude : list Q := samples [0; 4; 8; 2; 0; 7]%Z.

(** Time stamps that go back. *)
Definition backward_time : list Q := samples [0; 2; 1]%Z.
Definition backward_altitude : list Q := samples [0; 10; 5]%Z.

(** A table of ten rows with a time and an altitude column, and the V9
    dashboard after loading it. *)
Definition ten_rows : DataFrame :=
  [("time"%string, Numeric (samples [0; 1; 2; 3; 4; 5; 6; 7; 8; 9]%Z));
   ("alt"%string, Numeric (samples [0; 10; 40; 90; 95; 60; 20; 2; 1; 0]%Z))].
Definition ten_rows_loaded : V9.RocketDashboard.t :=
  fst (V9.RocketDashboard.load_csv ten_rows V9.RocketDashboard.init).

(** The V9 dashboard playing the ten-row table, after five ticks. *)
Definition playing_at_5 : V9.RocketDashboard.t :=
  repeat_call 5 V9.RocketDashboard.tick
    (fst (V9.RocketDashboard.play ten_rows_loaded)).

(** The V8b timeline over ten rows, stopped at the first row. *)
Definition ten_rows_timeline : V8b.RocketDashboard.t :=
  V8b.RocketDashboard.mk (Qt.mkSlider 0 9 0) false.

(** A second flight of eight rows, and a table without an altitude
    column. *)
Definition second_flight : DataFrame :=
  [("time"%string, Numeric (samples [0; 1; 2; 3; 4; 5; 6; 7]%Z));
   ("alt"%string, Numeric (samples [0; 20; 50; 30; 10; 3; 1; 0]%Z))].
Definition no_altitude : DataFrame :=
  [("time"%string, Numeric (samples [0; 1; 2; 3]%Z));
   ("pressure"%string, Numeric (samples [1013; 1000; 990; 1010]%Z))].

(** The V4 dashboard with the ten-row table loaded and plotted: the
    cursor line is where the plot has put it, at 0. *)
Definition ten_rows_plotted : V4.RocketDashboard.t :=
  V4.RocketDashboard.mk (Some ten_rows) (Some "time"%string)
    (Some "alt"%string) (Some 0%Q) V4.RocketDashboard.NoTelemetry.

(** A table V1 accepts. *)
Definition v1_flight : DataFrame :=
  [("time"%string, Numeric (samples [0; 1; 2]%Z));
   ("pitch"%string, Numeric (samples [0; 1; 2]%Z));
   ("roll"%string, Numeric (samples [0; 0; 1]%Z));
   ("yaw"%string, Numeric (samples [0; 3; 5]%Z));
   ("altitude"%string, Numeric (samples [0; 10; 5]%Z));
   ("velocity"%string, Numeric (samples [0; 10; -5]%Z))].

(** A table with two clocks. *)
Definition two_clocks : DataFrame :=
  [("time"%string, Numeric (samples [0; 1; 2]%Z));
   ("alt"%string, Numeric (samples [0; 10; 5]%Z));
   ("gps_time"%string, Numeric (samples [100; 101; 102]%Z));
   ("vel"%string, Numeric (samples [0; 10; -5]%Z))].

(** A table with a dynamic-pressure column, whose name "max_q" contains
    the keyword "ax", before its acceleration column. *)
Definition accel_flight : DataFrame :=
  [("time"%string, Numeric (samples [0; 1; 2]%Z));
   ("max_q"%string, Numeric (samples [5; 9; 4]%Z));
   ("accelx"%string, Numeric (samples [1; 2; 3]%Z))].

(** A flight whose columns are written with capitals, and the V12b
    dashboard with that table, no card and an empty attitude viewer. *)
Definition capital_names : DataFrame :=
  [("Time"%string, Numeric (samples [0; 1; 2]%Z));
   ("Pitch"%string, Numeric (samples [0; 5; 10]%Z));
   ("Roll"%string, Numeric (samples [0; 1; 2]%Z));
   ("Yaw"%string, Numeric (samples [90; 91; 92]%Z))].
Definition capital_names_dashboard : V12b.RocketDashboard.t :=
  V12b.RocketDashboard.mk (Some capital_names) []
    (Some V12b.AttitudeViewer.init) (Qt.mkSlider 0 2 0) false.

(** The column names of the specification's classification example. *)
Definition example_columns : list string :=
  ["Time(s)"; "Alt_m"; "VelocityX"; "yaw_setpoint"; "Roll_deg"]%string.

(** A flight of three rows with attitude columns. *)
Definition attitude_flight : DataFrame :=
  [("time"%string, Numeric (samples [0; 1; 2]%Z));
   ("alt"%string, Numeric (samples [0; 10; 5]%Z));
   ("pitch"%string, Numeric (samples [0; 5; 10]%Z));
   ("roll"%string, Numeric (samples [0; 1; 2]%Z));
   ("yaw"%string, Numeric (samples [90; 91; 92]%Z))].

(** The V12b dashboard on that flight with two cards, the first of which
    holds a single sample.  [load_csv] gives every card as many samples
    as the table has rows; the short card stands for a card whose update
    raises, here with [IndexError] at any later row. *)
Definition short_card_dashboard : V12b.RocketDashboard.t :=
  V12b.RocketDashboard.mk
    (Some attitude_flight)
    [fst (V12b.GraphCard.plot (map CNum (samples [0; 1; 2]%Z))
            (samples [7]%Z) V12b.GraphCard.init);
     fst (V12b.GraphCard.plot (map CNum (samples [0; 1; 2]%Z))
            (samples [0; 10; 5]%Z) V12b.GraphCard.init)]
    (Some V12b.AttitudeViewer.init)
    (Qt.mkSlider 0 2 0) false.

(** The full dashboard after these steps: a flight with the columns
    time, alt and pressure is loaded; its pressure is plotted, which puts
    the cursor line and the pressure dot at row 0; a flight with the
    columns time and alt only (altitudes 0, 20, 50, 30) is loaded.  The
    table is the new one, the altitude gauge has the new limits 0 and 50,
    the telemetry label shows the load message, and the dot of the plot
    is still the pressure dot. *)
Definition stale_dots_dashboard : Full.RocketDashboard.t :=
  Full.RocketDashboard.mk
    (Some [("time"%string, Numeric (samples [0; 1; 2; 3]%Z));
           ("alt"%string, Numeric (samples [0; 20; 50; 30]%Z))])
    (Full.RocketDashboard.mkChannels
       (Some "time"%string) (Some "alt"%string) None None None None
       None None None)
    true true (Some (CNum 0%Q))
    [("pressure"%string, Some (CNum 0%Q, CNum 1013%Q))]
    (Full.HUDGauge.mk 0 50 (CNum 0%Q) 0
       (Qt.Rgb Byte.x4c Byte.xaf Byte.x50) (Qt.Rgb Byte.x4c Byte.xaf Byte.x50))
    (Full.HUDGauge.init (Qt.Rgb Byte.x21 Byte.x96 Byte.xf3))
    (Full.HUDGauge.init (Qt.Rgb Byte.xe9 Byte.x1e Byte.x63))
    (Full.HUDGauge.init (Qt.Rgb Byte.x00 Byte.xbc Byte.xd4))
    (Full.HUDGauge.init (Qt.Rgb Byte.xff Byte.x98 Byte.x00))
    Full.RocketDashboard.Loaded (Qt.mkSlider 0 3 0) false.

(** A flight whose velocity column has a tiny maximum: a millionth,
    against -200 in the second row; and the full dashboard with that
    flight loaded and plotted, with no dot. *)
Definition tiny_maximum_flight : DataFrame :=
  [("time"%string, Numeric (samples [0; 1]%Z));
   ("vel"%string, Numeric [(1 # 1000000)%Q; (-200)%Q])].
Definition tiny_maximum_dashboard : Full.RocketDashboard.t :=
  Full.RocketDashboard.mk
    (Some tiny_maximum_flight)
    (Full.RocketDashboard.mkChannels
       (Some "time"%string) None (Some "vel"%string) None None None
       None None None)
    true true (Some (CNum 0%Q)) []
    (Full.HUDGauge.init (Qt.Rgb Byte.x4c Byte.xaf Byte.x50))
    (Full.HUDGauge.init (Qt.Rgb Byte.x21 Byte.x96 Byte.xf3))
    (Full.HUDGauge.init (Qt.Rgb Byte.xe9 Byte.x1e Byte.x63))
    (Full.HUDGauge.init (Qt.Rgb Byte.x00 Byte.xbc Byte.xd4))
    (Full.HUDGauge.init (Qt.Rgb Byte.xff Byte.x98 Byte.x00))
    Full.RocketDashboard.Loaded (Qt.mkSlider 0 1 0) false.

(** ** Tactics *)

(** Split a 3x3 matrix into its nine entries. *)
Ltac destruct_mat A :=
  let a00 := fresh "a00" in let a01 := fresh "a01" in
  let a02 := fresh "a02" in let a10 := fresh "a10" in
  let a11 := fresh "a11" in let a12 := fresh "a12" in
  let a20 := fresh "a20" in let a21 := fresh "a21" in
  let a22 := fresh "a22" in
  destruct A as [[[[a00 a01] a02] [[a10 a11] a12]] [[a20 a21] a22]].

(** Reduce an equation between matrices to its entries and try [ring]
    on each. *)
Ltac mat_eq :=
  cbv beta iota zeta delta
      [Mat3.mmul Mat3.transpose Mat3.det Mat3.dot Mat3.I3
       Mat3.Rx Mat3.Ry Mat3.Rz];
  repeat match goal with
         | |- (_, _) = (_, _) => apply f_equal2
         end; try ring.

(* ================================================================== *)
(** * Facts about the array functions *)
(* ================================================================== *)

Section ArrayFacts.

Import Np.

Lemma Qlt_bool_true (x y : Q) : Qlt_bool x y = true <-> (x < y)%Q.
Proof.
  unfold Qlt_bool. rewrite negb_true_iff. split.
  - intros H. apply Qnot_le_lt. intros Hle.
    apply Qle_bool_iff in Hle. congruence.
  - intros H. destruct (Qle_bool y x) eqn:E; [|reflexivity].
    apply Qle_bool_iff in E. exfalso. exact (Qlt_not_le _ _ H E).
Qed.

Lemma Qlt_bool_false (x y : Q) : Qlt_bool x y = false <-> (y <= x)%Q.
Proof.
  unfold Qlt_bool. rewrite negb_false_iff. apply Qle_bool_iff.
Qed.

Lemma first_true_some (mask : list bool) (i : nat) :
  first_true mask = Some i ->
  (i < List.length mask)%nat /\ nth i mask false = true /\
  forall j, (j < i)%nat -> nth j mask false = false.
Proof.
  revert i; induction mask as [|b rest IH]; intros i H; simpl in H.
  - discriminate.
  - destruct b.
    + injection H as <-. simpl. repeat split; [lia | intros j Hj; lia].
    + destruct (first_true rest) as [k|] eqn:E; [|discriminate].
      injection H as <-. destruct (IH k eq_refl) as (Hlen & Hk & Hlt).
      simpl. repeat split; [lia | exact Hk |].
      intros [|j] Hj; [reflexivity | apply Hlt; lia].
Qed.

Lemma first_true_none (mask : list bool) :
  first_true mask = None -> forall j, nth j mask false = false.
Proof.
  induction mask as [|b rest IH]; intros H j; simpl in H.
  - destruct j; reflexivity.
  - destruct b; [discriminate|].
    destruct (first_true rest) eqn:E; [discriminate|].
    destruct j; [reflexivity | simpl; apply IH; reflexivity].
Qed.

(** [np.argmax] of a non-empty mask returns an index of the mask: the
    first [True], or 0 when every entry is [False]. *)
Lemma argmax_bool_spec (mask : list bool) :
  mask <> [] ->
  exists i, argmax_bool mask = Ok i /\ (i < List.length mask)%nat /\
    ((nth i mask false = true /\
      forall j, (j < i)%nat -> nth j mask false = false)
     \/ (i = O /\ forall j, nth j mask false = false)).
Proof.
  intros Hne. destruct mask as [|b rest]; [congruence|].
  unfold argmax_bool.
  destruct (first_true (b :: rest)) as [i|] eqn:E.
  - exists i. destruct (first_true_some _ _ E) as (H1 & H2 & H3).
    split; [reflexivity|]. split; [exact H1|]. left; split; assumption.
  - exists O. split; [reflexivity|]. split; [simpl; lia|].
    right; split; [reflexivity | apply first_true_none; exact E].
Qed.

Lemma skipn_cons_nth {A} (l : list A) (i : nat) (x d : A) (rest : list A) :
  skipn i l = x :: rest ->
  (i < List.length l)%nat /\ nth i l d = x /\ skipn (S i) l = rest.
Proof.
  revert i; induction l as [|a l IH]; intros i H.
  - destruct i; discriminate.
  - destruct i as [|i].
    + simpl in H. injection H as -> ->. simpl. repeat split; lia.
    + simpl in H. destruct (IH i H) as (H1 & H2 & H3).
      simpl. repeat split; [lia | exact H2 | exact H3].
Qed.

Lemma skipn_nil_length {A} (l : list A) (i : nat) :
  skipn i l = [] -> (List.length l <= i)%nat.
Proof.
  revert i; induction l as [|a l IH]; intros i H; simpl; [lia|].
  destruct i; [discriminate|]. simpl in H. apply IH in H. lia.
Qed.

(** The scan keeps, at every step, the first index holding the largest
    sample seen so far. *)
Lemma argmax_from_inv (l : list Q) :
  forall (a : list Q) (i best_i : nat) (best : Q),
    a = skipn i l -> (i <= List.length l)%nat ->
    (best_i < i)%nat -> best = nth best_i l 0%Q ->
    (forall j, (j < i)%nat -> (nth j l 0 <= best)%Q) ->
    (forall j, (j < best_i)%nat -> (nth j l 0 < best)%Q) ->
    let r := argmax_from best_i best i a in
    (r < List.length l)%nat /\
    (forall j, (j < List.length l)%nat -> (nth j l 0 <= nth r l 0)%Q) /\
    (forall j, (j < r)%nat -> (nth j l 0 < nth r l 0)%Q).
Proof.
  induction a as [|x rest IH]; intros i best_i best Ha Hi Hb Hbest Hle Hlt.
  - simpl. symmetry in Ha. apply skipn_nil_length in Ha.
    assert (i = List.length l) by lia. subst i. subst best.
    repeat split; [lia | exact Hle | exact Hlt].
  - symmetry in Ha.
    destruct (skipn_cons_nth l i x 0%Q rest Ha) as (Hil & Hx & Hrest).
    simpl. destruct (Qlt_bool best x) eqn:E.
    + apply Qlt_bool_true in E.
      apply (IH (S i) i x); try lia; try (symmetry; assumption).
      * intros j Hj. destruct (Nat.eq_dec j i) as [->|Hne].
        -- rewrite Hx. apply Qle_refl.
        -- apply Qle_trans with best; [apply Hle; lia | apply Qlt_le_weak; exact E].
      * intros j Hj. apply Qle_lt_trans with best; [apply Hle; exact Hj | exact E].
    + apply Qlt_bool_false in E.
      apply (IH (S i) best_i best); try lia; try assumption;
        try (symmetry; assumption).
      intros j Hj. destruct (Nat.eq_dec j i) as [->|Hne].
      * rewrite Hx. exact E.
      * apply Hle; lia.
Qed.

(** [np.argmax] of a non-empty array: an index holding the maximum, and
    the first one that does. *)
Lemma argmax_spec (a : list Q) :
  a <> [] ->
  exists i, argmax a = Ok i /\ (i < List.length a)%nat /\
    (forall j, (j < List.length a)%nat -> (nth j a 0 <= nth i a 0)%Q) /\
    (forall j, (j < i)%nat -> (nth j a 0 < nth i a 0)%Q).
Proof.
  intros Hne. destruct a as [|x rest]; [congruence|].
  exists (argmax_from 0 x 1 rest). split; [reflexivity|].
  apply (argmax_from_inv (x :: rest) rest 1%nat 0%nat x).
  - reflexivity.
  - simpl; lia.
  - lia.
  - reflexivity.
  - intros j Hj. assert (j = 0%nat) by lia. subst j. simpl. apply Qle_refl.
  - intros j Hj. lia.
Qed.

Lemma amin_ok (a : list Q) : a <> [] -> exists m, amin a = Ok m.
Proof. destruct a; [congruence | intros _; eexists; reflexivity]. Qed.

Lemma diff_length (x : list Q) : List.length (diff x) = (List.length x - 1)%nat.
Proof.
  unfold diff. rewrite length_map, length_combine.
  destruct x as [|a r]; [reflexivity|].
  cbn [tl List.length]. rewrite Nat.min_r by lia. lia.
Qed.

(** [np.gradient] returns, and returns one rate per sample, exactly when
    the two arrays have one length, at least 2. *)
Lemma gradient_ok (f x : list Q) :
  List.length x = List.length f -> (2 <= List.length f)%nat ->
  exists vel, gradient f x = Ok vel /\ List.length vel = List.length f.
Proof.
  intros Hlen H2. unfold gradient.
  rewrite Hlen, Nat.eqb_refl. simpl.
  destruct (diff x) as [|d0 ds] eqn:E.
  - pose proof (diff_length x) as Hd. rewrite E in Hd. simpl in Hd. lia.
  - destruct (Nat.ltb_spec (List.length f) 2); [lia|].
    eexists. split; [reflexivity|].
    rewrite length_map, length_seq. reflexivity.
Qed.

Lemma gradient_mismatch (f x : list Q) :
  List.length x <> List.length f -> gradient f x = Raise ValueError.
Proof.
  intros H. unfold gradient.
  apply Nat.eqb_neq in H. rewrite H. reflexivity.
Qed.

Lemma gradient_short (f x : list Q) :
  List.length x = List.length f -> (List.length f < 2)%nat ->
  gradient f x = Raise IndexError.
Proof.
  intros Hlen H2. unfold gradient.
  rewrite Hlen, Nat.eqb_refl. simpl.
  destruct (diff x) as [|d0 ds] eqn:E; [reflexivity|].
  pose proof (diff_length x) as Hd. rewrite E in Hd. simpl in Hd. lia.
Qed.

End ArrayFacts.

Section PhaseDetection.

Import V9.RocketDashboard.

Lemma nth_skipn_add {A} (l : list A) (a j : nat) (d : A) :
  nth j (skipn a l) d = nth (a + j) l d.
Proof.
  revert a; induction l as [|x l IH]; intros a.
  - rewrite skipn_nil. destruct j, a; reflexivity.
  - destruct a; [reflexivity | simpl; apply IH].
Qed.

Lemma nth_mask_above (vel : list Q) (i : nat) :
  nth i (map (fun v => Np.Qlt_bool 5%Q v) vel) false = rate_above vel i.
Proof.
  unfold rate_above.
  change false with ((fun v => Np.Qlt_bool 5%Q v) 0%Q) at 1.
  apply map_nth.
Qed.

Lemma nth_mask_below (vel : list Q) (i : nat) :
  nth i (map (fun v => Np.Qlt_bool v (-2)%Q) vel) false = rate_below vel i.
Proof.
  unfold rate_below.
  change false with ((fun v => Np.Qlt_bool v (-2)%Q) 0%Q) at 1.
  apply map_nth.
Qed.

Lemma rate_below_skipn (vel : list Q) (a j : nat) :
  rate_below (skipn a vel) j = rate_below vel (a + j).
Proof. unfold rate_below. rewrite nth_skipn_add. reflexivity. Qed.

(** What [phase_indices] computes on two series of one length, at least
    2: it returns, and each index is the one the algorithm names. *)
Lemma phase_indices_spec (time altitude : list Q) :
  List.length time = List.length altitude ->
  (2 <= List.length time)%nat ->
  exists vel p,
    Np.gradient altitude time = Ok vel /\
    List.length vel = List.length altitude /\
    phase_indices time altitude = Ok p /\
    (* Boost *)
    (boost p < List.length time)%nat /\
    ((rate_above vel (boost p) = true /\
      forall j, (j < boost p)%nat -> rate_above vel j = false)
     \/ (boost p = O /\ forall j, rate_above vel j = false)) /\
    (* Apogee *)
    (apogee p < List.length time)%nat /\
    (forall j, (j < List.length altitude)%nat ->
               (nth j altitude 0 <= nth (apogee p) altitude 0)%Q) /\
    (forall j, (j < apogee p)%nat ->
               (nth j altitude 0 < nth (apogee p) altitude 0)%Q) /\
    (* Coast *)
    coast p = ((boost p + apogee p) / 2)%nat /\
    (* Descent *)
    (apogee p <= descent p < List.length time)%nat /\
    ((rate_below vel (descent p) = true /\
      forall j, (apogee p <= j < descent p)%nat -> rate_below vel j = false)
     \/ (descent p = apogee p /\
         forall j, (apogee p <= j)%nat -> rate_below vel j = false)) /\
    (* Landed *)
    (1 <= landed p <= List.length time)%nat.
Proof.
  intros Hlen H2.
  destruct (gradient_ok altitude time Hlen ltac:(lia)) as (vel & Hg & Hvl).
  exists vel. unfold phase_indices. rewrite Hg. cbn [bind].
  assert (Hvne : vel <> []) by (intros ->; simpl in Hvl; lia).
  assert (Hane : altitude <> []) by (intros ->; simpl in Hlen; lia).
  (* boost *)
  destruct (argmax_bool_spec (map (fun v => Np.Qlt_bool 5%Q v) vel))
    as (b & Hb & Hblt & Hbch).
  { destruct vel; [congruence | discriminate]. }
  rewrite Hb. cbn [bind]. rewrite length_map in Hblt.
  (* apogee *)
  destruct (argmax_spec altitude Hane) as (a & Ha & Halt & Hamax & Hafirst).
  rewrite Ha. cbn [bind].
  (* descent *)
  assert (Hsk : List.length (skipn a vel) = (List.length vel - a)%nat)
    by apply length_skipn.
  destruct (argmax_bool_spec
              (map (fun v => Np.Qlt_bool v (-2)%Q) (skipn a vel)))
    as (k & Hk & Hklt & Hkch).
  { intros E. apply (f_equal (@List.length bool)) in E.
    rewrite length_map, Hsk in E. simpl in E. lia. }
  rewrite Hk. cbn [bind]. rewrite length_map, Hsk in Hklt.
  (* landed *)
  destruct (amin_ok altitude Hane) as (lo & Hlo). rewrite Hlo. cbn [bind].
  destruct (argmax_bool_spec
              (map (fun x => Np.Qlt_bool (lo + 2)%Q x) (rev altitude)))
    as (r & Hr & Hrlt & _).
  { intros E. apply (f_equal (@List.length bool)) in E.
    rewrite length_map, length_rev in E. simpl in E.
    destruct altitude; [congruence | discriminate]. }
  rewrite Hr. cbn [bind]. rewrite length_map, length_rev in Hrlt.
  eexists. split; [reflexivity|]. split; [exact Hvl|].
  split; [reflexivity|]. cbn [boost coast apogee descent landed].
  split; [lia|]. split.
  { destruct Hbch as [(Hb1 & Hb2) | (Hb0 & Hball)].
    - left. split.
      + rewrite <- nth_mask_above. exact Hb1.
      + intros j Hj. rewrite <- nth_mask_above. apply Hb2; exact Hj.
    - right. split; [exact Hb0|].
      intros j. rewrite <- nth_mask_above. apply Hball. }
  split; [lia|]. split; [exact Hamax|]. split; [exact Hafirst|].
  split; [reflexivity|]. split; [lia|]. split.
  { destruct Hkch as [(Hk1 & Hk2) | (Hk0 & Hkall)].
    - left. split.
      + rewrite nth_mask_below, rate_below_skipn in Hk1. exact Hk1.
      + intros j Hj. specialize (Hk2 (j - a)%nat ltac:(lia)).
        rewrite nth_mask_below, rate_below_skipn in Hk2.
        replace (a + (j - a))%nat with j in Hk2 by lia. exact Hk2.
    - right. split; [lia|].
      intros j Hj. specialize (Hkall (j - a)%nat).
      rewrite nth_mask_below, rate_below_skipn in Hkall.
      replace (a + (j - a))%nat with j in Hkall by lia. exact Hkall. }
  lia.
Qed.

End PhaseDetection.

Section PhaseClaims.

Import V9.RocketDashboard.

Lemma index_nat_ok {A} (l : list A) (i : nat) (d : A) :
  (i < List.length l)%nat -> index_nat l i = Ok (nth i l d).
Proof.
  intros H. unfold index_nat.
  destruct (nth_error l i) as [x|] eqn:E.
  - rewrite (nth_error_nth _ _ d E). reflexivity.
  - apply nth_error_None in E. lia.
Qed.

Lemma index_ok {A} (l : list A) (i : Z) (d : A) :
  (0 <= i < Z.of_nat (List.length l))%Z ->
  index l i = Ok (nth (Z.to_nat i) l d).
Proof.
  intros H. unfold index.
  destruct (Z.ltb_spec i 0); [lia|].
  destruct (Z.leb_spec 0 i); [|lia].
  destruct (Z.ltb_spec i (Z.of_nat (List.length l))); [|lia].
  cbn [andb].
  destruct (nth_error l (Z.to_nat i)) as [x|] eqn:E.
  - rewrite (nth_error_nth _ _ d E). reflexivity.
  - apply nth_error_None in E. lia.
Qed.

(** On two series of one length, at least 2, [detect_phases] returns
    the time stamps at the five indices. *)
Lemma detect_phases_ok (time altitude : list Q) :
  List.length time = List.length altitude ->
  (2 <= List.length time)%nat ->
  exists p,
    phase_indices time altitude = Ok p /\
    detect_phases time altitude =
      Ok [("Boost"%string, nth (boost p) time 0%Q);
          ("Coast"%string, nth (coast p) time 0%Q);
          ("Apogee"%string, nth (apogee p) time 0%Q);
          ("Descent"%string, nth (descent p) time 0%Q);
          ("Landed"%string, nth (landed p - 1) time 0%Q)].
Proof.
  intros Hlen H2.
  destruct (phase_indices_spec time altitude Hlen H2)
    as (vel & p & _ & _ & Hp & Hb & _ & Ha & _ & _ & Hc & Hd & _ & Hl).
  exists p. split; [exact Hp|].
  unfold detect_phases. rewrite Hp. cbn [bind].
  assert (Hcl : (coast p < List.length time)%nat).
  { rewrite Hc. apply Nat.Div0.div_lt_upper_bound. lia. }
  rewrite (index_nat_ok time (boost p) 0%Q) by lia. cbn [bind].
  rewrite (index_nat_ok time (coast p) 0%Q) by lia. cbn [bind].
  rewrite (index_nat_ok time (apogee p) 0%Q) by lia. cbn [bind].
  rewrite (index_nat_ok time (descent p) 0%Q) by lia. cbn [bind].
  rewrite (index_ok time (Z.of_nat (landed p) - 1) 0%Q) by lia. cbn [bind].
  replace (Z.to_nat (Z.of_nat (landed p) - 1)) with (landed p - 1)%nat by lia.
  reflexivity.
Qed.

(** [np.gradient] is what makes [detect_phases] raise: it returns
    exactly on two series of one length, at least 2. *)
Lemma detect_phases_raised (time altitude : list Q) :
  raised (detect_phases time altitude) =
  negb ((List.length time =? List.length altitude)%nat
        && (2 <=? List.length time)%nat).
Proof.
  destruct (Nat.eqb_spec (List.length time) (List.length altitude)) as [Hlen|Hlen].
  - destruct (Nat.leb_spec 2 (List.length time)) as [H2|H2]; cbn [andb negb].
    + destruct (detect_phases_ok time altitude Hlen H2) as (p & _ & Hd).
      rewrite Hd. reflexivity.
    + unfold detect_phases, phase_indices.
      rewrite (gradient_short altitude time Hlen) by lia. reflexivity.
  - cbn [andb negb].
    unfold detect_phases, phase_indices.
    rewrite (gradient_mismatch altitude time Hlen). reflexivity.
Qed.

(** C1, as the code has it.  On every altitude/time series of one
    length, at least 2, [detect_phases] computes its indices: Boost is
    the first index whose vertical rate is above 5 (0 when there is
    none), Apogee the first index of the maximum altitude, Coast the
    floor of the midpoint of Boost and Apogee, Descent the first index
    at or after Apogee whose rate is below -2 (Apogee when there is
    none).  Apogee <= Descent always holds and Coast lies between Boost
    and Apogee; the whole chain Boost <= Coast <= Apogee <= Descent
    holds exactly when Boost <= Apogee. *)
Theorem C1_phase_order (time altitude : list Q) :
  List.length time = List.length altitude ->
  (2 <= List.length time)%nat ->
  exists vel p,
    Np.gradient altitude time = Ok vel /\
    phase_indices time altitude = Ok p /\
    ((rate_above vel (boost p) = true /\
      forall j, (j < boost p)%nat -> rate_above vel j = false)
     \/ (boost p = O /\ forall j, rate_above vel j = false)) /\
    ((forall j, (j < List.length altitude)%nat ->
                (nth j altitude 0 <= nth (apogee p) altitude 0)%Q) /\
     (forall j, (j < apogee p)%nat ->
                (nth j altitude 0 < nth (apogee p) altitude 0)%Q)) /\
    coast p = ((boost p + apogee p) / 2)%nat /\
    ((rate_below vel (descent p) = true /\
      forall j, (apogee p <= j < descent p)%nat -> rate_below vel j = false)
     \/ (descent p = apogee p /\
         forall j, (apogee p <= j)%nat -> rate_below vel j = false)) /\
    (apogee p <= descent p)%nat /\
    (Nat.min (boost p) (apogee p) <= coast p <= Nat.max (boost p) (apogee p))%nat /\
    ((boost p <= apogee p)%nat <-> phases_ordered p).
Proof.
  intros Hlen H2.
  destruct (phase_indices_spec time altitude Hlen H2)
    as (vel & p & Hg & _ & Hp & _ & Hb & _ & Hmax & Hfirst & Hc & Hd & Hdch & _).
  exists vel, p.
  assert (Hmid : (Nat.min (boost p) (apogee p) <= coast p
                  <= Nat.max (boost p) (apogee p))%nat).
  { rewrite Hc. split.
    - apply Nat.div_le_lower_bound; lia.
    - apply Nat.Div0.div_le_upper_bound; lia. }
  repeat (split; [assumption|]).
  split; [split; assumption|].
  repeat (split; [assumption|]).
  split; [lia|]. split; [exact Hmid|].
  unfold phases_ordered. lia.
Qed.

(** C1's theorem at the flight of the specification's example: there
    Boost = 0 <= Apogee = 4, so the chain holds. *)
Lemma C1_phase_order_witness :
  List.length example_time = List.length example_altitude /\
  (2 <= List.length example_time)%nat /\
  exists p, phase_indices example_time example_altitude = Ok p /\
            phases_ordered p.
Proof.
  split; [reflexivity|]. split; [simpl; lia|].
  destruct (C1_phase_order example_time example_altitude eq_refl)
    as (vel & p & _ & Hp & _ & _ & _ & _ & _ & _ & Hchain).
  - simpl; lia.
  - exists p. split; [exact Hp|].
    apply Hchain.
    assert (E : phase_indices example_time example_altitude
                = Ok (mkPhases 0 2 4 4 7)) by (vm_compute; reflexivity).
    rewrite E in Hp. injection Hp as <-. simpl. lia.
Defined.

(** C1 as stated fails: a series that satisfies the precondition and
    whose first rate above 5 comes after its highest sample gets
    Boost = 5, Coast = 3, Apogee = 2. *)
Lemma C1_counterexample :
  valid_series late_jump_time late_jump_altitude /\
  exists p, phase_indices late_jump_time late_jump_altitude = Ok p /\
            ~ phases_ordered p.
Proof.
  split.
  - unfold valid_series. split; [reflexivity|]. split; [simpl; lia|].
    simpl. repeat split; unfold Qle; simpl; lia.
  - exists (mkPhases 5 3 2 3 6). split; [vm_compute; reflexivity|].
    unfold phases_ordered. simpl. lia.
Qed.

(** C7, as the code has it.  [detect_phases] raises exactly when the
    two series differ in length or have fewer than two samples (the
    exception comes out of [np.gradient]); on every other input it
    returns a phase map, whether or not the time stamps go back. *)
Theorem C7_detect_phases_raises (time altitude : list Q) :
  raised (detect_phases time altitude) =
  negb ((List.length time =? List.length altitude)%nat
        && (2 <=? List.length time)%nat).
Proof. exact (detect_phases_raised time altitude). Qed.

(** C7 as stated fails: on time stamps 0, 2, 1 the call returns a phase
    map instead of an error. *)
Lemma C7_counterexample :
  ~ non_decreasing backward_time /\
  List.length backward_time = List.length backward_altitude /\
  detect_phases backward_time backward_altitude =
    Ok [("Boost"%string, 0%Q); ("Coast"%string, 0%Q);
        ("Apogee"%string, 2%Q); ("Descent"%string, 2%Q);
        ("Landed"%string, 1%Q)].
Proof.
  split; [|split; [reflexivity | vm_compute; reflexivity]].
  simpl. intros (_ & H & _). revert H. unfold Qle. simpl. lia.
Qed.

(** C8.  The Apogee index is the index of the maximum altitude, the
    first one when the maximum occurs several times, and the "Apogee"
    entry of the phase map is the time stamp at that index; on the
    series 0, 10, 40, 90, 95, 60, 20, 2, 1 the index is 4. *)
Theorem C8_apogee_first_maximum :
  (exists p, phase_indices example_time example_altitude = Ok p /\
             apogee p = 4%nat) /\
  forall time altitude : list Q,
    List.length time = List.length altitude ->
    (2 <= List.length time)%nat ->
    exists p phases,
      phase_indices time altitude = Ok p /\
      Np.argmax altitude = Ok (apogee p) /\
      (apogee p < List.length altitude)%nat /\
      (forall j, (j < List.length altitude)%nat ->
                 (nth j altitude 0 <= nth (apogee p) altitude 0)%Q) /\
      (forall j, (j < apogee p)%nat ->
                 (nth j altitude 0 < nth (apogee p) altitude 0)%Q) /\
      detect_phases time altitude = Ok phases /\
      phase_time "Apogee" phases = Some (nth (apogee p) time 0%Q).
Proof.
  split.
  - exists (mkPhases 0 2 4 4 7). split; [vm_compute; reflexivity | reflexivity].
  - intros time altitude Hlen H2.
    destruct (phase_indices_spec time altitude Hlen H2)
      as (vel & p & Hg & _ & Hp & _ & _ & Ha & Hmax & Hfirst & _).
    destruct (detect_phases_ok time altitude Hlen H2) as (p' & Hp' & Hd).
    rewrite Hp in Hp'. injection Hp' as <-.
    exists p. eexists. split; [exact Hp|].
    split.
    { revert Hp. unfold phase_indices. rewrite Hg. cbn [bind].
      destruct (Np.argmax_bool _) as [b|]; cbn [bind]; [|discriminate].
      destruct (Np.argmax altitude) as [a|]; cbn [bind]; [|discriminate].
      destruct (Np.argmax_bool _) as [k|]; cbn [bind]; [|discriminate].
      destruct (Np.amin altitude) as [lo|]; cbn [bind]; [|discriminate].
      destruct (Np.argmax_bool _) as [r|]; cbn [bind]; [|discriminate].
      intros H. injection H as <-. reflexivity. }
    split; [lia|]. split; [exact Hmax|]. split; [exact Hfirst|].
    split; [exact Hd | reflexivity].
Qed.

(** C8's theorem at a series whose maximum occurs twice: the first
    occurrence, index 1, is the Apogee. *)
Lemma C8_apogee_first_maximum_witness :
  List.length (samples [0; 1; 2; 3]%Z) = List.length (samples [1; 7; 7; 3]%Z) /\
  (2 <= List.length (samples [0; 1; 2; 3]%Z))%nat /\
  exists p, phase_indices (samples [0; 1; 2; 3]%Z) (samples [1; 7; 7; 3]%Z)
            = Ok p /\
            apogee p = 1%nat /\
            Np.argmax (samples [1; 7; 7; 3]%Z) = Ok (apogee p).
Proof.
  split; [reflexivity|]. split; [simpl; lia|].
  destruct (proj2 C8_apogee_first_maximum
              (samples [0; 1; 2; 3]%Z) (samples [1; 7; 7; 3]%Z) eq_refl)
    as (p & phases & Hp & Ha & _).
  - simpl; lia.
  - exists p. split; [exact Hp|]. split; [|exact Ha].
    assert (E : Np.argmax (samples [1; 7; 7; 3]%Z) = Ok 1%nat)
      by (vm_compute; reflexivity).
    rewrite E in Ha. injection Ha as <-. reflexivity.
Defined.

End PhaseClaims.

(* ================================================================== *)
(** * Playback *)
(* ================================================================== *)

Section MethodFacts.

Context {S : Type}.

Lemma mbind_ok {A B} (m : M S A) (k : A -> M S B) (s s' : S) (b : B) :
  mbind m k s = (s', Ok b) ->
  exists s1 a, m s = (s1, Ok a) /\ k a s1 = (s', Ok b).
Proof.
  unfold mbind. destruct (m s) as [s1 [a|e]]; intros H.
  - exists s1, a. split; [reflexivity | exact H].
  - discriminate.
Qed.

(** A property of the attributes that every step of a method keeps is
    kept by the method, however it ends. *)
Lemma mbind_keeps {A B} (P : S -> Prop) (m : M S A) (k : A -> M S B) (s : S) :
  P (fst (m s)) -> (forall a s1, P s1 -> P (fst (k a s1))) ->
  P (fst (mbind m k s)).
Proof.
  unfold mbind. destruct (m s) as [s1 [a|e]]; simpl; intros H1 H2.
  - apply H2; exact H1.
  - exact H1.
Qed.

Lemma for_keeps {A} (P : S -> Prop) (xs : list A) (body : A -> M S unit) :
  (forall x s, P s -> P (fst (body x s))) ->
  forall s, P s -> P (fst (for_ xs body s)).
Proof.
  intros Hb. induction xs as [|x rest IH]; intros s Hs; simpl.
  - exact Hs.
  - apply mbind_keeps; [apply Hb; exact Hs | intros _ s1 H1; apply IH; exact H1].
Qed.

End MethodFacts.

Section ObjectLoops.

Context {O : Type}.
Variable method : M O unit.

(** A property of each object that the method keeps holds of all
    objects after the loop. *)
Lemma for_objs_Forall (P : O -> Prop) :
  (forall o, P o -> P (fst (method o))) ->
  forall objs, Forall P objs -> Forall P (fst (for_objs method objs)).
Proof.
  intros Hm. induction objs as [|o rest IH]; intros HF; simpl.
  - constructor.
  - inversion HF as [|? ? Ho Hrest]; subst.
    specialize (Hm o Ho).
    destruct (method o) as [o' [[]|e]]; simpl in Hm.
    + specialize (IH Hrest).
      destruct (for_objs method rest) as [rest' r]. simpl in *.
      constructor; assumption.
    + simpl. constructor; assumption.
Qed.

(** When no object raises, the method has run on every object. *)
Lemma for_objs_all_ok (objs : list O) :
  Forall (fun o => snd (method o) = Ok tt) objs ->
  for_objs method objs = (map (fun o => fst (method o)) objs, Ok tt).
Proof.
  induction objs as [|o rest IH]; intros HF; simpl; [reflexivity|].
  inversion HF as [|? ? Ho Hrest]; subst.
  destruct (method o) as [o' r] eqn:E. simpl in Ho. subst r.
  rewrite (IH Hrest). reflexivity.
Qed.

(** The first object that raises ends the loop: the objects before it
    have been updated, the objects after it have not been touched, and
    the exception is the outcome of the loop. *)
Lemma for_objs_first_raise (before after : list O) (o o' : O) (e : exn) :
  Forall (fun x => snd (method x) = Ok tt) before ->
  method o = (o', Raise e) ->
  for_objs method (before ++ o :: after) =
    (map (fun x => fst (method x)) before ++ o' :: after, Raise e).
Proof.
  intros HF Ho. induction before as [|b rest IH]; simpl.
  - rewrite Ho. reflexivity.
  - inversion HF as [|? ? Hb Hrest]; subst.
    destruct (method b) as [b' r] eqn:E. simpl in Hb. subst r.
    rewrite (IH Hrest). reflexivity.
Qed.

End ObjectLoops.

Section SliderFacts.

(** [setMaximum] on a slider that starts at 0: the range becomes 0..hi. *)
Lemma setMaximum_range (hi : Z) (sl : Qt.QSlider) :
  Qt.minimum sl = 0%Z -> (0 <= hi)%Z ->
  Qt.minimum (fst (Qt.setMaximum hi sl)) = 0%Z /\
  Qt.maximum (fst (Qt.setMaximum hi sl)) = hi.
Proof.
  destruct sl as [lo mx v]. cbn [Qt.minimum]. intros -> Hhi.
  unfold Qt.setMaximum, Qt.setRange, Qt.setValue, Qt.bound.
  cbn [Qt.minimum Qt.maximum Qt.value].
  rewrite (Z.min_l 0 hi) by lia. rewrite (Z.max_r 0 hi) by lia.
  cbn [Z.eqb andb].
  destruct (Z.eqb_spec hi mx) as [->|Hne]; [split; reflexivity|].
  destruct (Z.max 0 (Z.min hi v) =? v)%Z; split; reflexivity.
Qed.

(** The value is re-bounded: it becomes the smaller of the old value
    and the new maximum. *)
Lemma setMaximum_value (hi : Z) (sl : Qt.QSlider) :
  Qt.minimum sl = 0%Z -> (0 <= hi)%Z -> slider_in_range sl ->
  Qt.value (fst (Qt.setMaximum hi sl)) = Z.min (Qt.value sl) hi.
Proof.
  destruct sl as [lo mx v]. unfold slider_in_range.
  cbn [Qt.minimum Qt.maximum Qt.value]. intros -> Hhi Hin.
  unfold Qt.setMaximum, Qt.setRange, Qt.setValue, Qt.bound.
  cbn [Qt.minimum Qt.maximum Qt.value].
  rewrite (Z.min_l 0 hi) by lia. rewrite (Z.max_r 0 hi) by lia.
  cbn [Z.eqb andb].
  destruct (Z.eqb_spec hi mx) as [->|Hne]; [cbn [fst Qt.value]; lia|].
  destruct (Z.eqb_spec (Z.max 0 (Z.min hi v)) v); cbn [fst Qt.value]; lia.
Qed.

(** [setValue(0)] on a range that contains 0. *)
Lemma setValue_zero (sl : Qt.QSlider) :
  Qt.minimum sl = 0%Z -> (0 <= Qt.maximum sl)%Z ->
  Qt.value (fst (Qt.setValue 0 sl)) = 0%Z.
Proof.
  destruct sl as [lo mx v]. cbn [Qt.minimum Qt.maximum]. intros -> Hmx.
  unfold Qt.setValue, Qt.bound. cbn [Qt.minimum Qt.maximum Qt.value].
  rewrite (Z.min_r mx 0) by lia. rewrite Z.max_id.
  destruct (Z.eqb_spec 0 v) as [<-|Hne]; reflexivity.
Qed.

End SliderFacts.

Section V9Playback.

Import V9.RocketDashboard.

(** The slot [update_all] changes cards and the GPS map only. *)
Lemma update_all_frame (i : Z) (s : t) :
  let s' := fst (update_all i s) in
  slider s' = slider s /\ timer_active s' = timer_active s /\
  data s' = data s /\ time s' = time s.
Proof.
  unfold update_all, mbind, get, lift.
  destruct (attr (time s)) as [tm|e]; simpl; [|auto].
  destruct (index tm i) as [tv|e]; simpl; [|auto].
  destruct (for_objs (V9.GraphCard.update_cursor tv i) (cards s)) as [cs [[]|e]];
    simpl; [|auto].
  destruct (gps s) as [g|]; simpl; [|auto].
  destruct (V9.GPSMap.update_cursor i g) as [g' r]; simpl. auto.
Qed.

Lemma with_slider_frame (op : Qt.QSlider -> Qt.QSlider * option Z) (s : t) :
  let s' := fst (with_slider op s) in
  slider s' = fst (op (slider s)) /\ timer_active s' = timer_active s /\
  data s' = data s /\ time s' = time s.
Proof.
  unfold with_slider. destruct (op (slider s)) as [sl [v|]]; simpl.
  - destruct (update_all_frame v (set_slider sl s)) as (H1 & H2 & H3 & H4).
    simpl in *. auto.
  - auto.
Qed.

(** One call of [animate]: the value goes up by one while the next
    value is below the maximum; otherwise the timer is stopped and the
    value stays. *)
Lemma animate_step (s : t) :
  slider_in_range (slider s) ->
  let s' := fst (animate s) in
  Qt.minimum (slider s') = Qt.minimum (slider s) /\
  Qt.maximum (slider s') = Qt.maximum (slider s) /\
  if (Qt.value (slider s) + 1 >=? Qt.maximum (slider s))%Z
  then Qt.value (slider s') = Qt.value (slider s) /\ timer_active s' = false
  else Qt.value (slider s') = (Qt.value (slider s) + 1)%Z /\
       timer_active s' = timer_active s.
Proof.
  intros Hin. unfold slider_in_range in Hin.
  unfold animate, mbind, get. cbn [fst snd].
  destruct (Z.geb_spec (Qt.value (slider s) + 1) (Qt.maximum (slider s))) as [Hge|Hlt].
  - simpl. auto.
  - destruct (with_slider_frame (Qt.setValue (Qt.value (slider s) + 1)) s)
      as (Hs & Ht & _).
    cbv zeta in Hs, Ht. rewrite Hs, Ht.
    unfold Qt.setValue, Qt.bound.
    rewrite Z.min_r by lia. rewrite Z.max_r by lia.
    destruct (Z.eqb_spec (Qt.value (slider s) + 1) (Qt.value (slider s))); [lia|].
    simpl. auto.
Qed.

End V9Playback.

Section PlaybackClaims.

(** One tick of V8b while playing: below the maximum the value goes up
    by one and playback goes on; at the maximum the value stays and
    playback stops. *)
Lemma V8b_tick_step (s : V8b.RocketDashboard.t) :
  slider_in_range (V8b.RocketDashboard.slider s) ->
  V8b.RocketDashboard.timer_active s = true ->
  let s' := V8b.RocketDashboard.tick s in
  Qt.minimum (V8b.RocketDashboard.slider s')
    = Qt.minimum (V8b.RocketDashboard.slider s) /\
  Qt.maximum (V8b.RocketDashboard.slider s')
    = Qt.maximum (V8b.RocketDashboard.slider s) /\
  if (Qt.value (V8b.RocketDashboard.slider s)
      <? Qt.maximum (V8b.RocketDashboard.slider s))%Z
  then Qt.value (V8b.RocketDashboard.slider s')
         = (Qt.value (V8b.RocketDashboard.slider s) + 1)%Z /\
       V8b.RocketDashboard.timer_active s' = true
  else Qt.value (V8b.RocketDashboard.slider s')
         = Qt.value (V8b.RocketDashboard.slider s) /\
       V8b.RocketDashboard.timer_active s' = false.
Proof.
  destruct s as [[lo hi v] act]. unfold slider_in_range. simpl.
  intros Hin ->. unfold V8b.RocketDashboard.tick, V8b.RocketDashboard.animate.
  simpl. destruct (Z.ltb_spec v hi) as [Hlt|Hge].
  - unfold Qt.setValue, Qt.bound. simpl.
    rewrite Z.min_r by lia. rewrite Z.max_r by lia.
    destruct (Z.eqb_spec (v + 1) v); [lia|]. simpl. auto.
  - simpl. auto.
Qed.

(** C2, as the code has it.  In V8b, over ten rows from index 0,
    starting playback and delivering 9 ticks leaves the cursor at index
    9 with playback still on; the 10th tick leaves the index at 9 and
    stops playback, and a further tick changes nothing.  In general, a
    tick of V8b while playing moves the index up by exactly 1 and goes
    on playing when the index is below the last row, and leaves the
    index and stops playback when it is at the last row.  A tick of V9
    while playing moves the index up by exactly 1 and goes on playing
    when the next index is below the last row, and stops playback
    without moving at the last row; every tick either moves the index
    up by exactly 1 or leaves it where it is and stops playback.  In
    both the range stays as it is and the index stays inside it. *)
Theorem C2_playback_ticks
        (s : V8b.RocketDashboard.t) (d : V9.RocketDashboard.t) :
  slider_in_range (V8b.RocketDashboard.slider s) ->
  V8b.RocketDashboard.timer_active s = true ->
  slider_in_range (V9.RocketDashboard.slider d) ->
  V9.RocketDashboard.timer_active d = true ->
  (Nat.iter 9 V8b.RocketDashboard.tick
     (V8b.RocketDashboard.toggle_playback ten_rows_timeline)
   = V8b.RocketDashboard.mk (Qt.mkSlider 0 9 9) true /\
   Nat.iter 10 V8b.RocketDashboard.tick
     (V8b.RocketDashboard.toggle_playback ten_rows_timeline)
   = V8b.RocketDashboard.mk (Qt.mkSlider 0 9 9) false /\
   Nat.iter 11 V8b.RocketDashboard.tick
     (V8b.RocketDashboard.toggle_playback ten_rows_timeline)
   = V8b.RocketDashboard.mk (Qt.mkSlider 0 9 9) false) /\
  (let s' := V8b.RocketDashboard.tick s in
   slider_in_range (V8b.RocketDashboard.slider s') /\
   Qt.minimum (V8b.RocketDashboard.slider s')
     = Qt.minimum (V8b.RocketDashboard.slider s) /\
   Qt.maximum (V8b.RocketDashboard.slider s')
     = Qt.maximum (V8b.RocketDashboard.slider s) /\
   ((Qt.value (V8b.RocketDashboard.slider s)
     < Qt.maximum (V8b.RocketDashboard.slider s))%Z ->
    Qt.value (V8b.RocketDashboard.slider s')
      = (Qt.value (V8b.RocketDashboard.slider s) + 1)%Z /\
    V8b.RocketDashboard.timer_active s' = true) /\
   (Qt.value (V8b.RocketDashboard.slider s)
    = Qt.maximum (V8b.RocketDashboard.slider s) ->
    Qt.value (V8b.RocketDashboard.slider s')
      = Qt.value (V8b.RocketDashboard.slider s) /\
    V8b.RocketDashboard.timer_active s' = false)) /\
  (let d' := fst (V9.RocketDashboard.tick d) in
   slider_in_range (V9.RocketDashboard.slider d') /\
   Qt.minimum (V9.RocketDashboard.slider d')
     = Qt.minimum (V9.RocketDashboard.slider d) /\
   Qt.maximum (V9.RocketDashboard.slider d')
     = Qt.maximum (V9.RocketDashboard.slider d) /\
   ((Qt.value (V9.RocketDashboard.slider d) + 1
     < Qt.maximum (V9.RocketDashboard.slider d))%Z ->
    Qt.value (V9.RocketDashboard.slider d')
      = (Qt.value (V9.RocketDashboard.slider d) + 1)%Z /\
    V9.RocketDashboard.timer_active d' = true) /\
   (Qt.value (V9.RocketDashboard.slider d)
    = Qt.maximum (V9.RocketDashboard.slider d) ->
    Qt.value (V9.RocketDashboard.slider d')
      = Qt.value (V9.RocketDashboard.slider d) /\
    V9.RocketDashboard.timer_active d' = false) /\
   ((Qt.value (V9.RocketDashboard.slider d')
       = (Qt.value (V9.RocketDashboard.slider d) + 1)%Z /\
     V9.RocketDashboard.timer_active d' = true)
    \/ (Qt.value (V9.RocketDashboard.slider d')
          = Qt.value (V9.RocketDashboard.slider d) /\
        V9.RocketDashboard.timer_active d' = false))).
Proof.
  intros Hs Hsa Hd Hda. split; [|split].
  - repeat split; vm_compute; reflexivity.
  - destruct (V8b_tick_step s Hs Hsa) as (Hlo & Hhi & Hstep).
    cbv zeta in *. unfold slider_in_range in *.
    destruct (Z.ltb_spec (Qt.value (V8b.RocketDashboard.slider s))
                         (Qt.maximum (V8b.RocketDashboard.slider s)));
      destruct Hstep as (Hv & Ht);
      (split; [lia|]); (split; [exact Hlo|]); (split; [exact Hhi|]);
      (split; [intros Hlt; first [lia | split; assumption]
              | intros Heq; first [lia | split; assumption]]).
  - unfold V9.RocketDashboard.tick, mbind, get. cbn [fst]. rewrite Hda.
    destruct (animate_step d Hd) as (Hlo & Hhi & Hstep).
    cbv zeta in *. unfold slider_in_range in *.
    destruct (Z.geb_spec (Qt.value (V9.RocketDashboard.slider d) + 1)
                         (Qt.maximum (V9.RocketDashboard.slider d)));
      destruct Hstep as (Hv & Ht);
      (split; [lia|]); (split; [exact Hlo|]); (split; [exact Hhi|]);
      (split; [intros Hlt; first [lia | split; congruence]|]);
      (split; [intros Heq; first [lia | split; congruence]|]);
      [right | left]; split; congruence.
Qed.

(** C2's theorem at a V8b timeline playing at row 3 of ten and at the
    V9 dashboard playing from row 0 of the ten-row table. *)
Lemma C2_playback_ticks_witness :
  Qt.value (V8b.RocketDashboard.slider
              (V8b.RocketDashboard.tick
                 (V8b.RocketDashboard.mk (Qt.mkSlider 0 9 3) true))) = 4%Z /\
  Qt.value (V9.RocketDashboard.slider
              (fst (V9.RocketDashboard.tick
                      (fst (V9.RocketDashboard.play ten_rows_loaded))))) = 1%Z.
Proof.
  destruct (C2_playback_ticks
              (V8b.RocketDashboard.mk (Qt.mkSlider 0 9 3) true)
              (fst (V9.RocketDashboard.play ten_rows_loaded)))
    as (_ & (_ & _ & _ & Hs & _) & (_ & _ & _ & Hd & _)).
  - unfold slider_in_range; simpl; lia.
  - reflexivity.
  - unfold slider_in_range; vm_compute; split; discriminate.
  - reflexivity.
  - split.
    + refine (proj1 (Hs _)). simpl. lia.
    + refine (proj1 (Hd _)). vm_compute. reflexivity.
Defined.

(** C2 as stated fails.  In V9, over the ten-row table from index 0,
    play and 9 ticks leave the cursor at index 8, not 9: the 9th tick
    finds 8 + 1 >= 9 and stops without moving.  In V8b the same run
    reaches index 9 but playback is still on after the 9th tick. *)
Lemma C2_counterexample :
  V9.RocketDashboard.slider ten_rows_loaded = Qt.mkSlider 0 9 0 /\
  V9.RocketDashboard.timer_active ten_rows_loaded = false /\
  Qt.value (V9.RocketDashboard.slider
              (repeat_call 9 V9.RocketDashboard.tick
                 (fst (V9.RocketDashboard.play ten_rows_loaded)))) = 8%Z /\
  V8b.RocketDashboard.timer_active
    (Nat.iter 9 V8b.RocketDashboard.tick
       (V8b.RocketDashboard.toggle_playback ten_rows_timeline)) = true.
Proof. repeat split; vm_compute; reflexivity. Qed.

End PlaybackClaims.

(* ================================================================== *)
(** * Reloading a table *)
(* ================================================================== *)

Section V9Reload.

Import V9.RocketDashboard.

Lemma modify_ok {S} (f : S -> S) (s s' : S) (u : unit) :
  modify f s = (s', Ok u) -> s' = f s.
Proof. unfold modify. intros H. injection H as <- _. reflexivity. Qed.

Lemma lift_ok {S A} (r : result A) (s s' : S) (a : A) :
  lift r s = (s', Ok a) -> s' = s /\ r = Ok a.
Proof. unfold lift. intros H. injection H as <- ->. auto. Qed.

(** [update_cursor] leaves the phase lines of a card alone. *)
Lemma update_cursor_phase_lines (tv : Q) (i : Z) (c : V9.GraphCard.t) :
  V9.GraphCard.phase_lines (fst (V9.GraphCard.update_cursor tv i c))
  = V9.GraphCard.phase_lines c.
Proof.
  unfold V9.GraphCard.update_cursor.
  destruct (V9.GraphCard.data c) as [d|]; [|reflexivity].
  unfold mbind, modify, lift.
  destruct (V9.GraphCard.cursor c); [|reflexivity].
  destruct (V9.GraphCard.dot c); cbn [attr]; [|reflexivity].
  destruct (index d i); reflexivity.
Qed.

Lemma draw_phases_lines (phases : list (string * Q)) (c : V9.GraphCard.t) :
  V9.GraphCard.draw_phases phases c
  = (V9.GraphCard.mk (V9.GraphCard.title c) (V9.GraphCard.data c)
       (V9.GraphCard.time c) (V9.GraphCard.cursor c) (V9.GraphCard.dot c)
       (V9.GraphCard.phase_lines c ++ phases), Ok tt).
Proof.
  unfold V9.GraphCard.draw_phases.
  revert c; induction phases as [|p rest IH]; intros c; simpl.
  - rewrite app_nil_r. destruct c; reflexivity.
  - unfold mbind, modify. rewrite IH. simpl.
    rewrite <- app_assoc. reflexivity.
Qed.

(** A card that [load_csv] has just plotted carries the phase lines of
    the phase map it was given, and nothing else. *)
Lemma new_card_phase_lines (name : string) (tm d : list Q)
      (phases : list (string * Q)) (card : V9.GraphCard.t) :
  mbind (V9.GraphCard.plot tm d) (fun _ => V9.GraphCard.draw_phases phases)
        (V9.GraphCard.init name) = (card, Ok tt) ->
  V9.GraphCard.phase_lines card = phases.
Proof.
  unfold mbind at 1.
  destruct (V9.GraphCard.plot tm d (V9.GraphCard.init name)) as [c [[]|e]] eqn:E;
    [|discriminate].
  rewrite draw_phases_lines. intros H. injection H as <-.
  cbn [V9.GraphCard.phase_lines].
  assert (Hc : V9.GraphCard.phase_lines c = []).
  { revert E. unfold V9.GraphCard.plot, mbind, modify, lift. simpl.
    destruct (index tm 0); [|discriminate].
    destruct (index d 0); [|discriminate].
    intros H. injection H as <-. reflexivity. }
  rewrite Hc. reflexivity.
Qed.

Lemma add_card_inv (tc : option string) (tm : list Q)
      (phases : list (string * Q)) (s0 : t) (col : string * list Q) (s : t) :
  card_loop_inv phases s0 s ->
  card_loop_inv phases s0 (fst (add_card tc tm phases col s)).
Proof.
  intros Hinv. unfold add_card.
  destruct (match tc with Some tc0 => String.eqb (fst col) tc0 | None => false end);
    [exact Hinv|].
  destruct (mbind (V9.GraphCard.plot tm (snd col))
                  (fun _ => V9.GraphCard.draw_phases phases)
                  (V9.GraphCard.init (fst col))) as [card [[]|e]] eqn:E;
    [|exact Hinv].
  destruct Hinv as (H1 & H2 & H3 & H4 & H5 & H6).
  unfold card_loop_inv. simpl. repeat (split; [assumption|]).
  apply Forall_app. split; [exact H6|].
  constructor; [|constructor].
  apply (new_card_phase_lines _ _ _ _ _ E).
Qed.

Lemma update_all_cards (P : V9.GraphCard.t -> Prop) (i : Z) (s : t) :
  (forall tv c, P c -> P (fst (V9.GraphCard.update_cursor tv i c))) ->
  Forall P (cards s) -> Forall P (cards (fst (update_all i s))).
Proof.
  intros HP HF. unfold update_all, mbind, get, lift.
  destruct (attr (time s)) as [tm|e]; simpl; [|exact HF].
  destruct (index tm i) as [tv|e]; simpl; [|exact HF].
  pose proof (for_objs_Forall (V9.GraphCard.update_cursor tv i) P (HP tv)
                              (cards s) HF) as HF'.
  destruct (for_objs (V9.GraphCard.update_cursor tv i) (cards s)) as [cs [[]|e]];
    simpl in *; [|exact HF'].
  destruct (gps s) as [g|]; simpl; [|exact HF'].
  destruct (V9.GPSMap.update_cursor i g) as [g' r]; simpl. exact HF'.
Qed.

(** A load that returns: the new table is in place, every card carries
    the phase lines computed from the new table and no other, the
    slider has the new maximum with its value re-bounded, and the timer
    is as it was. *)
Lemma load_csv_returns (df : DataFrame) (s s' : t) :
  load_csv df s = (s', Ok tt) ->
  exists tm al phases,
    getitem df (detect_scan (columns df) ["time"%string]) = Ok (Numeric tm) /\
    getitem df (detect_scan (columns df) ["alt"%string]) = Ok (Numeric al) /\
    detect_phases tm al = Ok phases /\
    data s' = Some df /\ time s' = Some tm /\
    Forall (fun c => V9.GraphCard.phase_lines c = phases) (cards s') /\
    slider s' = fst (Qt.setMaximum (Z.of_nat (List.length tm) - 1) (slider s)) /\
    timer_active s' = timer_active s.
Proof.
  unfold load_csv. intros H.
  apply mbind_ok in H. destruct H as (s1 & [] & E1 & H).
  apply modify_ok in E1. subst s1.
  apply mbind_ok in H. destruct H as (s2 & time_col & E2 & H).
  unfold detect in E2. simpl in E2. injection E2 as <- <-.
  apply mbind_ok in H. destruct H as (s3 & alt_col & E3 & H).
  unfold detect in E3. simpl in E3. injection E3 as <- <-.
  apply mbind_ok in H. destruct H as (s4 & time_v & E4 & H).
  apply lift_ok in E4. destruct E4 as (-> & E4).
  apply mbind_ok in H. destruct H as (s5 & alt_v & E5 & H).
  apply lift_ok in E5. destruct E5 as (-> & E5).
  apply mbind_ok in H. destruct H as (s6 & phases & E6 & H).
  apply lift_ok in E6. destruct E6 as (-> & E6).
  apply mbind_ok in H. destruct H as (s7 & tm & E7 & H).
  apply lift_ok in E7. destruct E7 as (-> & E7).
  destruct time_v as [tm'|]; [|discriminate]. injection E7 as ->.
  destruct alt_v as [al|].
  2:{ simpl in E6. destruct (negb _); [discriminate|].
      destruct (_ <? _)%nat; discriminate. }
  simpl in E6.
  exists tm, al, phases.
  split; [exact E4|]. split; [exact E5|]. split; [exact E6|].
  apply mbind_ok in H. destruct H as (s8 & [] & E8 & H).
  apply modify_ok in E8. subst s8.
  apply mbind_ok in H. destruct H as (s9 & [] & E9 & H).
  set (s8 := set_cards [] (set_data (Some df) s)) in *.
  assert (Hinv9 : card_loop_inv phases s8 s9).
  { replace s9 with (fst (for_ (select_number df)
                               (add_card (detect_scan (columns df) ["time"%string])
                                         tm phases) s8))
      by (rewrite E9; reflexivity).
    apply for_keeps.
    - intros x st Hst. apply add_card_inv. exact Hst.
    - unfold card_loop_inv. simpl.
      repeat (split; [reflexivity|]). constructor. }
  clear E9.
  apply mbind_ok in H. destruct H as (s10 & lat & E10 & H).
  apply mbind_ok in H. destruct H as (s11 & lon & E11 & H).
  assert (Hd9 : data s9 = Some df).
  { destruct Hinv9 as (_ & _ & Hd & _). rewrite Hd. reflexivity. }
  unfold detect in E10. rewrite Hd9 in E10. injection E10 as <- <-.
  unfold detect in E11. rewrite Hd9 in E11. injection E11 as <- <-.
  apply mbind_ok in H. destruct H as (s12 & [] & E12 & H).
  assert (Hinv12 : slider s12 = slider s9 /\ timer_active s12 = timer_active s9 /\
                   data s12 = data s9 /\ cards s12 = cards s9).
  { revert E12.
    destruct (detect_scan (columns df) ["lat"%string]) as [la|];
      [destruct (detect_scan (columns df) ["lon"%string]) as [lo|]|];
      try (intros E; injection E as <-; auto).
    intros E.
    apply mbind_ok in E. destruct E as (sa & [] & Ea & E).
    apply modify_ok in Ea.
    apply mbind_ok in E. destruct E as (sb & lav & Eb & E).
    apply lift_ok in Eb. destruct Eb as (-> & _).
    apply mbind_ok in E. destruct E as (sc & lov & Ec & E).
    apply lift_ok in Ec. destruct Ec as (-> & _).
    rewrite Ea in E.
    destruct (V9.GPSMap.plot (cells lav) (cells lov) V9.GPSMap.init) as [g' r].
    injection E as <- _. simpl. auto. }
  apply mbind_ok in H. destruct H as (s13 & [] & E13 & H).
  apply modify_ok in E13.
  destruct Hinv9 as (I1 & I2 & I3 & _ & _ & I6).
  destruct Hinv12 as (J1 & J2 & J3 & J4).
  destruct (with_slider_frame
              (Qt.setMaximum (Z.of_nat (List.length tm) - 1)) s13)
    as (K1 & K2 & K3 & K4).
  rewrite H in K1, K2, K3, K4. cbn [fst] in K1, K2, K3, K4.
  split.
  { rewrite K3, E13. simpl. rewrite J3. exact Hd9. }
  split.
  { rewrite K4, E13. reflexivity. }
  split.
  { assert (HF13 : Forall (fun c => V9.GraphCard.phase_lines c = phases)
                          (cards s13)).
    { rewrite E13. simpl. rewrite J4. exact I6. }
    revert H. unfold with_slider.
    destruct (Qt.setMaximum _ (slider s13)) as [sl [v|]]; intros H.
    - replace s' with (fst (update_all v (set_slider sl s13)))
        by (rewrite H; reflexivity).
      apply update_all_cards.
      + intros tv c Hc. rewrite update_cursor_phase_lines. exact Hc.
      + simpl. exact HF13.
    - injection H as <-. simpl. exact HF13. }
  split.
  { rewrite K1, E13. simpl. rewrite J1, I1. reflexivity. }
  rewrite K2, E13. simpl. rewrite J2, I2. reflexivity.
Qed.

End V9Reload.

Section ReloadClaims.

(** The slot of V1 leaves the slider alone. *)
Lemma V1_update_metrics_slider (i : Z) (s : V1.RocketDashboard.t) :
  V1.RocketDashboard.slider (fst (V1.RocketDashboard.update_metrics i s))
  = V1.RocketDashboard.slider s.
Proof.
  unfold V1.RocketDashboard.update_metrics.
  destruct (V1.RocketDashboard.data s) as [df|]; [|reflexivity].
  unfold mbind, lift, modify.
  destruct (iloc df i) as [r|]; [|reflexivity].
  destruct (V1.RocketDashboard.field r "time"); [|reflexivity].
  destruct (V1.RocketDashboard.field r "altitude"); [|reflexivity].
  destruct (V1.RocketDashboard.field r "velocity"); [|reflexivity].
  destruct (V1.RocketDashboard.field r "pitch"); [|reflexivity].
  destruct (V1.RocketDashboard.field r "roll"); reflexivity.
Qed.

Lemma V1_with_slider_slider (op : Qt.QSlider -> Qt.QSlider * option Z)
      (s : V1.RocketDashboard.t) :
  V1.RocketDashboard.slider (fst (V1.RocketDashboard.with_slider op s))
  = fst (op (V1.RocketDashboard.slider s)).
Proof.
  unfold V1.RocketDashboard.with_slider.
  destruct (op (V1.RocketDashboard.slider s)) as [sl [v|]]; [|reflexivity].
  rewrite V1_update_metrics_slider. reflexivity.
Qed.

(** A load of V1 that returns has put the slider on row 0. *)
Lemma V1_load_data_returns (df : DataFrame) (s s' : V1.RocketDashboard.t) :
  V1.RocketDashboard.load_data df s = (s', Ok tt) ->
  Qt.minimum (V1.RocketDashboard.slider s) = 0%Z ->
  (1 <= len df)%nat ->
  Qt.value (V1.RocketDashboard.slider s') = 0%Z.
Proof.
  unfold V1.RocketDashboard.load_data. intros H Hmin Hlen.
  apply mbind_ok in H. destruct H as (s1 & [] & E1 & H).
  apply modify_ok in E1. subst s1.
  apply mbind_ok in H. destruct H as (s2 & [] & E2 & H).
  assert (Hs2 : V1.RocketDashboard.slider s2 = V1.RocketDashboard.slider s).
  { replace s2 with (fst (for_ V1.RocketDashboard.required
      (fun col => if negb (has_column df col) then raise ValueError else ret tt)
      (V1.RocketDashboard.set_data (Some df) s)))
      by (rewrite E2; reflexivity).
    apply (for_keeps (fun st => V1.RocketDashboard.slider st
                                = V1.RocketDashboard.slider s)).
    - intros x st Hst. destruct (negb (has_column df x)); exact Hst.
    - reflexivity. }
  apply mbind_ok in H. destruct H as (s3 & [] & E3 & H).
  pose proof (V1_with_slider_slider
                (Qt.setMaximum (Z.of_nat (len df) - 1)) s2) as H3.
  rewrite E3 in H3. cbn [fst] in H3.
  pose proof (V1_with_slider_slider (Qt.setValue 0) s3) as H4.
  rewrite H in H4. cbn [fst] in H4.
  rewrite H4, H3, Hs2.
  destruct (setMaximum_range (Z.of_nat (len df) - 1)
                             (V1.RocketDashboard.slider s) Hmin ltac:(lia))
    as (Hlo & Hhi).
  apply setValue_zero; [exact Hlo | rewrite Hhi; lia].
Qed.

(** C3, as the code has it.  When V9's [load_csv] returns, the new
    table is in place, every card carries the phase lines computed from
    the new table's time and altitude columns and no other, the slider's
    maximum is the last row and the cursor index is the earlier index
    bounded by it (it is not put back to 0), and the playback timer is
    as it was.  When V1's [load_data] returns on a table with rows, the
    cursor index is 0. *)
Theorem C3_reload (df : DataFrame) (s s' : V9.RocketDashboard.t)
        (df1 : DataFrame) (m m' : V1.RocketDashboard.t) :
  V9.RocketDashboard.load_csv df s = (s', Ok tt) ->
  Qt.minimum (V9.RocketDashboard.slider s) = 0%Z ->
  slider_in_range (V9.RocketDashboard.slider s) ->
  V1.RocketDashboard.load_data df1 m = (m', Ok tt) ->
  Qt.minimum (V1.RocketDashboard.slider m) = 0%Z ->
  (1 <= len df1)%nat ->
  (exists tm al phases,
      getitem df (V9.RocketDashboard.detect_scan (columns df) ["time"%string])
        = Ok (Numeric tm) /\
      getitem df (V9.RocketDashboard.detect_scan (columns df) ["alt"%string])
        = Ok (Numeric al) /\
      V9.RocketDashboard.detect_phases tm al = Ok phases /\
      V9.RocketDashboard.data s' = Some df /\
      Forall (fun c => V9.GraphCard.phase_lines c = phases)
             (V9.RocketDashboard.cards s') /\
      Qt.maximum (V9.RocketDashboard.slider s')
        = (Z.of_nat (List.length tm) - 1)%Z /\
      Qt.value (V9.RocketDashboard.slider s')
        = Z.min (Qt.value (V9.RocketDashboard.slider s))
                (Z.of_nat (List.length tm) - 1) /\
      V9.RocketDashboard.timer_active s'
        = V9.RocketDashboard.timer_active s) /\
  Qt.value (V1.RocketDashboard.slider m') = 0%Z.
Proof.
  intros H9 Hmin Hval H1 Hmin1 Hlen1.
  split; [|exact (V1_load_data_returns df1 m m' H1 Hmin1 Hlen1)].
  destruct (load_csv_returns df s s' H9)
    as (tm & al & phases & Ht & Ha & Hp & Hd & _ & Hc & Hs & Hact).
  exists tm, al, phases.
  repeat (split; [assumption|]).
  assert (H2 : (2 <= List.length tm)%nat).
  { pose proof (detect_phases_raised tm al) as Hr. rewrite Hp in Hr.
    cbn [raised] in Hr. symmetry in Hr. apply negb_false_iff in Hr.
    apply andb_prop in Hr. destruct Hr as (_ & Hr).
    apply Nat.leb_le in Hr. exact Hr. }
  rewrite Hs.
  destruct (setMaximum_range (Z.of_nat (List.length tm) - 1)
                             (V9.RocketDashboard.slider s) Hmin ltac:(lia))
    as (_ & Hhi).
  split; [exact Hhi|]. split; [|exact Hact].
  apply setMaximum_value; [exact Hmin | lia | exact Hval].
Qed.

(** C3's theorem at a reload of the second flight while the ten-row
    table is playing at row 5, and at V1 loading its first table. *)
Lemma C3_reload_witness :
  Qt.value (V9.RocketDashboard.slider
              (fst (V9.RocketDashboard.load_csv second_flight playing_at_5)))
    = Z.min 5 7 /\
  Qt.value (V1.RocketDashboard.slider
              (fst (V1.RocketDashboard.load_data v1_flight
                      V1.RocketDashboard.init))) = 0%Z.
Proof.
  destruct (C3_reload second_flight playing_at_5
              (fst (V9.RocketDashboard.load_csv second_flight playing_at_5))
              v1_flight V1.RocketDashboard.init
              (fst (V1.RocketDashboard.load_data v1_flight
                      V1.RocketDashboard.init)))
    as ((tm & al & phases & Ht & _ & _ & _ & _ & _ & Hv & _) & H1).
  - vm_compute. reflexivity.
  - vm_compute. reflexivity.
  - unfold slider_in_range. vm_compute. split; discriminate.
  - vm_compute. reflexivity.
  - reflexivity.
  - simpl. lia.
  - split; [|exact H1].
    rewrite Hv.
    assert (E : tm = samples [0; 1; 2; 3; 4; 5; 6; 7]%Z).
    { vm_compute in Ht. injection Ht as <-. reflexivity. }
    rewrite E. vm_compute. reflexivity.
Defined.

(** C3 as stated fails.  Reloading a complete table while the ten-row
    table plays at row 5 leaves the cursor at row 5 and the timer
    running.  Reloading a table without an altitude column raises
    [KeyError] before the old cards are cleared: they still show the
    phase lines of the ten-row table. *)
Lemma C3_counterexample :
  snd (V9.RocketDashboard.load_csv second_flight playing_at_5) = Ok tt /\
  Qt.value (V9.RocketDashboard.slider
              (fst (V9.RocketDashboard.load_csv second_flight playing_at_5)))
    = 5%Z /\
  V9.RocketDashboard.timer_active
    (fst (V9.RocketDashboard.load_csv second_flight playing_at_5)) = true /\
  snd (V9.RocketDashboard.load_csv no_altitude playing_at_5) = Raise KeyError /\
  map V9.GraphCard.phase_lines
      (V9.RocketDashboard.cards
         (fst (V9.RocketDashboard.load_csv no_altitude playing_at_5)))
    = [[("Boost"%string, 0%Q); ("Coast"%string, 2%Q); ("Apogee"%string, 4%Q);
        ("Descent"%string, 4%Q); ("Landed"%string, 6%Q)]].
Proof. repeat split; vm_compute; reflexivity. Qed.

End ReloadClaims.

(* ================================================================== *)
(** * Column classification *)
(* ================================================================== *)

Section Classification.

Lemma any_in_time (name : string) :
  any_in ["time"%string] name = str_in "time" name.
Proof. unfold any_in. simpl. apply orb_false_r. Qed.

(** V9's [detect] returns the first matching column. *)
Lemma detect_scan_first (before after : list string) (c : string) :
  Forall (fun x => is_time_name x = false) before ->
  is_time_name c = true ->
  V9.RocketDashboard.detect_scan (before ++ c :: after) ["time"%string]
  = Some c.
Proof.
  intros HF Hc.
  induction before as [|b rest IH]; cbn [app V9.RocketDashboard.detect_scan].
  - rewrite any_in_time. unfold is_time_name in Hc. rewrite Hc. reflexivity.
  - inversion HF as [|? ? Hb Hrest]; subst.
    rewrite any_in_time. unfold is_time_name in Hb. rewrite Hb.
    apply IH. exact Hrest.
Qed.

Lemma classify_column_time (c : string) (ch : Full.RocketDashboard.channels) :
  Full.RocketDashboard.time_col (Full.RocketDashboard.classify_column c ch)
  = if is_time_name c then Some c else Full.RocketDashboard.time_col ch.
Proof.
  unfold Full.RocketDashboard.classify_column, is_time_name.
  assert (Hacc : forall low x ch0,
             Full.RocketDashboard.time_col
               (Full.RocketDashboard.assign_acc low x ch0)
             = Full.RocketDashboard.time_col ch0).
  { intros low x ch0. unfold Full.RocketDashboard.assign_acc.
    destruct (_ || _); [|reflexivity].
    destruct (str_in "x" low); [reflexivity|].
    destruct (str_in "y" low); [reflexivity|].
    destruct (str_in "z" low); reflexivity. }
  rewrite Hacc. unfold Full.RocketDashboard.role_of.
  destruct (str_in "time" (lower c)); [reflexivity|].
  destruct (str_in "alt" (lower c)); [reflexivity|].
  destruct (str_in "vel" (lower c)); [reflexivity|].
  destruct (_ && _); [reflexivity|].
  destruct (_ || _); [reflexivity|].
  destruct (_ || _); reflexivity.
Qed.

(** The column loop of the full dashboard keeps the last matching
    column as the time column. *)
Lemma load_csv_columns_last (before after : DataFrame) (c : string)
      (v : series) (ch : Full.RocketDashboard.channels) (vl : list string) :
  is_time_name c = true ->
  Forall (fun p => is_time_name (fst p) = false) after ->
  Full.RocketDashboard.time_col
    (fst (Full.RocketDashboard.load_csv_columns
            (before ++ (c, v) :: after) ch vl)) = Some c.
Proof.
  intros Hc HF. revert ch vl.
  induction before as [|[b w] rest IH]; intros ch vl.
  - cbn [app Full.RocketDashboard.load_csv_columns].
    set (ch' := Full.RocketDashboard.classify_column c ch).
    assert (Hch : Full.RocketDashboard.time_col ch' = Some c).
    { unfold ch'. rewrite classify_column_time, Hc. reflexivity. }
    generalize (if is_numeric_dtype v
                   && negb match Full.RocketDashboard.time_col ch' with
                           | Some tc => (c =? tc)%string
                           | None => false
                           end
                then (vl ++ [c])%list else vl).
    clearbody ch'. clear ch vl.
    revert ch' Hch. induction after as [|[a u] more IHa]; intros ch' Hch vl.
    + exact Hch.
    + inversion HF as [|? ? Ha Hmore]; subst.
      cbn [Full.RocketDashboard.load_csv_columns].
      apply IHa; [exact Hmore|].
      rewrite classify_column_time. simpl in Ha. rewrite Ha. exact Hch.
  - cbn [app Full.RocketDashboard.load_csv_columns]. apply IH.
Qed.

(** So does the time loop of V8. *)
Lemma scan_time_last (before after : list string) (c : string)
      (s : V8.RocketDashboard.t) :
  is_time_name c = true ->
  Forall (fun x => is_time_name x = false) after ->
  V8.RocketDashboard.time_col
    (fst (V8.RocketDashboard.scan_time (before ++ c :: after) s)) = Some c.
Proof.
  intros Hc HF. unfold V8.RocketDashboard.scan_time. revert s.
  induction before as [|b rest IH]; intros s.
  - cbn [app for_]. unfold mbind. unfold is_time_name in Hc. rewrite Hc.
    cbn [modify].
    set (s1 := V8.RocketDashboard.set_time_col (Some c) s).
    assert (H1 : V8.RocketDashboard.time_col s1 = Some c) by reflexivity.
    clearbody s1. revert s1 H1.
    induction after as [|a more IHa]; intros s1 H1.
    + exact H1.
    + inversion HF as [|? ? Ha Hmore]; subst.
      cbn [for_]. unfold mbind. unfold is_time_name in Ha. rewrite Ha.
      cbn [ret]. apply IHa; assumption.
  - cbn [app for_]. unfold mbind.
    destruct (str_in "time" (lower b)); cbn [modify ret]; apply IH.
Qed.

(** C4, as the code has it.  Among several columns whose lower-cased
    name contains ["time"], V9's [detect] takes the first in table
    order and no later one; the column loops of the full dashboard and
    of V8 assign the time column at every match, so there the last
    matching column is the time column. *)
Theorem C4_time_column (before middle after : DataFrame) (c1 c2 : string)
        (v1 v2 : series) (ch : Full.RocketDashboard.channels)
        (vl : list string) (s : V8.RocketDashboard.t) :
  is_time_name c1 = true ->
  is_time_name c2 = true ->
  Forall (fun p => is_time_name (fst p) = false) before ->
  Forall (fun p => is_time_name (fst p) = false) after ->
  let df := (before ++ (c1, v1) :: middle ++ (c2, v2) :: after)%list in
  V9.RocketDashboard.detect_scan (columns df) ["time"%string] = Some c1 /\
  Full.RocketDashboard.time_col
    (fst (Full.RocketDashboard.load_csv_columns df ch vl)) = Some c2 /\
  V8.RocketDashboard.time_col
    (fst (V8.RocketDashboard.scan_time (columns df) s)) = Some c2.
Proof.
  intros H1 H2 Hb Ha df. unfold df, columns.
  split; [|split].
  - rewrite map_app. cbn [map fst]. apply detect_scan_first; [|exact H1].
    apply Forall_map. exact Hb.
  - replace (before ++ (c1, v1) :: middle ++ (c2, v2) :: after)%list
      with ((before ++ (c1, v1) :: middle) ++ (c2, v2) :: after)%list
      by (rewrite <- app_assoc; reflexivity).
    apply load_csv_columns_last; assumption.
  - replace (before ++ (c1, v1) :: middle ++ (c2, v2) :: after)%list
      with ((before ++ (c1, v1) :: middle) ++ (c2, v2) :: after)%list
      by (rewrite <- app_assoc; reflexivity).
    rewrite map_app. cbn [map fst]. apply scan_time_last; [exact H2|].
    apply Forall_map. exact Ha.
Qed.

End Classification.

Section ClassificationClaims.

(** C4's theorem at the table with two clocks. *)
Lemma C4_time_column_witness :
  V9.RocketDashboard.detect_scan (columns two_clocks) ["time"%string]
    = Some "time"%string /\
  Full.RocketDashboard.time_col
    (fst (Full.RocketDashboard.load_csv_columns
            two_clocks Full.RocketDashboard.no_channels []))
    = Some "gps_time"%string /\
  V8.RocketDashboard.time_col
    (fst (V8.RocketDashboard.scan_time (columns two_clocks)
            V8.RocketDashboard.init)) = Some "gps_time"%string.
Proof.
  apply (C4_time_column
           [] [("alt"%string, Numeric (samples [0; 10; 5]%Z))]
           [("vel"%string, Numeric (samples [0; 10; -5]%Z))]
           "time"%string "gps_time"%string
           (Numeric (samples [0; 1; 2]%Z))
           (Numeric (samples [100; 101; 102]%Z))
           Full.RocketDashboard.no_channels [] V8.RocketDashboard.init).
  - reflexivity.
  - reflexivity.
  - constructor.
  - constructor; [reflexivity | constructor].
Defined.

(** C4 as stated fails: in the full dashboard the later of two matching
    columns ends up as the time column, and V3 puts both into its Time
    category. *)
Lemma C4_counterexample :
  is_time_name "time" = true /\ is_time_name "gps_time" = true /\
  Full.RocketDashboard.time_col
    (fst (Full.RocketDashboard.load_csv_columns
            two_clocks Full.RocketDashboard.no_channels []))
    = Some "gps_time"%string /\
  V3.RocketDashboard.category "Time"
    (V3.RocketDashboard.detected_categories
       (V3.RocketDashboard.detect_columns two_clocks
          (V3.RocketDashboard.mk None [])))
    = ["time"; "gps_time"]%string.
Proof. repeat split; vm_compute; reflexivity. Qed.

(** C5, as the code has it.  In the full dashboard a column whose
    lower-cased name contains ["yaw"] and ["set"] or ["sp"] is never
    taken for the yaw channel: the yaw test comes first in the chain but
    excludes such names.  It is taken for the yaw setpoint when its name
    contains none of ["time"], ["alt"] and ["vel"], which are tested
    before; ["yaw_setpoint"] is.  In V3, where the orientation test
    precedes the setpoint test, such a name never reaches the Setpoint
    category. *)
Theorem C5_yaw_setpoint (low : string) (numeric : bool) :
  str_in "yaw" low = true ->
  str_in "set" low || str_in "sp" low = true ->
  Full.RocketDashboard.role_of low <> Some Full.RocketDashboard.Yaw /\
  (str_in "time" low = false -> str_in "alt" low = false ->
   str_in "vel" low = false ->
   Full.RocketDashboard.role_of low = Some Full.RocketDashboard.YawSetpoint) /\
  Full.RocketDashboard.role_of (lower "yaw_setpoint")
    = Some Full.RocketDashboard.YawSetpoint /\
  V3.RocketDashboard.category_of low numeric <> Some "Setpoint"%string.
Proof.
  intros Hyaw Hset. split; [|split; [|split]].
  - unfold Full.RocketDashboard.role_of.
    destruct (str_in "time" low); [discriminate|].
    destruct (str_in "alt" low); [discriminate|].
    destruct (str_in "vel" low); [discriminate|].
    rewrite Hyaw, Hset.
    destruct (str_in "set" low), (str_in "sp" low); simpl in *;
      try discriminate.
  - intros H1 H2 H3. unfold Full.RocketDashboard.role_of.
    rewrite H1, H2, H3, Hyaw, Hset.
    destruct (str_in "set" low), (str_in "sp" low); simpl in *;
      try discriminate; reflexivity.
  - vm_compute. reflexivity.
  - unfold V3.RocketDashboard.category_of. rewrite Hyaw. cbn [orb].
    destruct (str_in "time" low || (low =? "t")%string); [discriminate|].
    destruct (str_in "alt" low || str_in "height" low); [discriminate|].
    destruct (str_in "vel" low || str_in "speed" low); discriminate.
Qed.

(** C5's theorem at ["yaw_sp"]. *)
Lemma C5_yaw_setpoint_witness :
  Full.RocketDashboard.role_of "yaw_sp"
    = Some Full.RocketDashboard.YawSetpoint.
Proof.
  destruct (C5_yaw_setpoint "yaw_sp" true) as (_ & H & _).
  - reflexivity.
  - reflexivity.
  - apply H; reflexivity.
Defined.

(** C5 as stated fails.  In V3 ["yaw_setpoint"] is taken by the
    yaw/pitch/roll test and lands in Orientation; in the full dashboard
    a name that also contains ["vel"] is taken for the velocity
    channel.  On the specification's five example columns the full
    dashboard finds time, altitude, velocity and yaw setpoint and has no
    channel for roll. *)
Lemma C5_counterexample :
  V3.RocketDashboard.category_of (lower "yaw_setpoint") true
    = Some "Orientation"%string /\
  str_in "yaw" (lower "yaw_vel_setpoint") = true /\
  str_in "set" (lower "yaw_vel_setpoint") = true /\
  Full.RocketDashboard.role_of (lower "yaw_vel_setpoint")
    = Some Full.RocketDashboard.Velocity /\
  map (fun c => Full.RocketDashboard.role_of (lower c)) example_columns
    = [Some Full.RocketDashboard.Time; Some Full.RocketDashboard.Altitude;
       Some Full.RocketDashboard.Velocity;
       Some Full.RocketDashboard.YawSetpoint; None].
Proof. repeat split; vm_compute; reflexivity. Qed.

End ClassificationClaims.

(* ================================================================== *)
(** * The attitude rotation *)
(* ================================================================== *)

Section Rotation.

Import Mat3.
Local Open Scope R_scope.

Lemma mmul_assoc (A B C : mat) : mmul (mmul A B) C = mmul A (mmul B C).
Proof. destruct_mat A; destruct_mat B; destruct_mat C. mat_eq. Qed.

Lemma transpose_mmul (A B : mat) :
  transpose (mmul A B) = mmul (transpose B) (transpose A).
Proof. destruct_mat A; destruct_mat B. mat_eq. Qed.

Lemma mmul_I3_l (A : mat) : mmul I3 A = A.
Proof. destruct_mat A. mat_eq. Qed.

Lemma det_mmul (A B : mat) : det (mmul A B) = det A * det B.
Proof. destruct_mat A; destruct_mat B. mat_eq. Qed.

Lemma cos2_sin2 (a : R) : cos a * cos a + sin a * sin a = 1.
Proof. pose proof (sin2_cos2 a) as H. unfold Rsqr in H. lra. Qed.

Lemma is_rotation_mmul (A B : mat) :
  is_rotation A -> is_rotation B -> is_rotation (mmul A B).
Proof.
  intros (HA & HdA) (HB & HdB). split.
  - rewrite transpose_mmul, mmul_assoc.
    rewrite <- (mmul_assoc (transpose A) A B), HA, mmul_I3_l. exact HB.
  - rewrite det_mmul, HdA, HdB. ring.
Qed.

Lemma is_rotation_Rx (a : R) : is_rotation (Rx a).
Proof.
  pose proof (cos2_sin2 a) as H.
  split; mat_eq; lra.
Qed.

Lemma is_rotation_Ry (a : R) : is_rotation (Ry a).
Proof.
  pose proof (cos2_sin2 a) as H.
  split; mat_eq; lra.
Qed.

Lemma is_rotation_Rz (a : R) : is_rotation (Rz a).
Proof.
  pose proof (cos2_sin2 a) as H.
  split; mat_eq; lra.
Qed.

(** C6.  With exact real arithmetic, the matrix the attitude solver
    returns is the composition Rz(yaw) Ry(pitch) Rx(roll) of the three
    elementary rotations (V10 converts its arguments from degrees
    first), and it is a rotation: its transpose times itself is the
    identity and its determinant is 1. *)
Theorem C6_rotation_matrix (roll pitch yaw : R) :
  V10.Rocket3D.rotation_matrix roll pitch yaw
    = mmul (mmul (Rz (radians yaw)) (Ry (radians pitch))) (Rx (radians roll)) /\
  V10.Rocket3D.rotation_matrix roll pitch yaw
    = mmul (Rz (radians yaw)) (mmul (Ry (radians pitch)) (Rx (radians roll))) /\
  mmul (transpose (V10.Rocket3D.rotation_matrix roll pitch yaw))
       (V10.Rocket3D.rotation_matrix roll pitch yaw) = I3 /\
  det (V10.Rocket3D.rotation_matrix roll pitch yaw) = 1 /\
  V12b.AttitudeViewer.update_R pitch roll yaw
    = mmul (mmul (Rz yaw) (Ry pitch)) (Rx roll) /\
  mmul (transpose (V12b.AttitudeViewer.update_R pitch roll yaw))
       (V12b.AttitudeViewer.update_R pitch roll yaw) = I3 /\
  det (V12b.AttitudeViewer.update_R pitch roll yaw) = 1.
Proof.
  assert (H10 : V10.Rocket3D.rotation_matrix roll pitch yaw
                = mmul (mmul (Rz (radians yaw)) (Ry (radians pitch)))
                       (Rx (radians roll))) by reflexivity.
  assert (H12 : V12b.AttitudeViewer.update_R pitch roll yaw
                = mmul (mmul (Rz yaw) (Ry pitch)) (Rx roll)) by reflexivity.
  assert (R10 : is_rotation (V10.Rocket3D.rotation_matrix roll pitch yaw)).
  { rewrite H10. repeat apply is_rotation_mmul.
    - apply is_rotation_Rz.
    - apply is_rotation_Ry.
    - apply is_rotation_Rx. }
  assert (R12 : is_rotation (V12b.AttitudeViewer.update_R pitch roll yaw)).
  { rewrite H12. repeat apply is_rotation_mmul.
    - apply is_rotation_Rz.
    - apply is_rotation_Ry.
    - apply is_rotation_Rx. }
  destruct R10 as (O10 & D10). destruct R12 as (O12 & D12).
  split; [exact H10|].
  split; [rewrite H10; apply mmul_assoc|].
  repeat (split; [assumption|]). exact D12.
Qed.

End Rotation.

(* ================================================================== *)
(** * Cursor fan-out *)
(* ================================================================== *)

Section FanOut.

(** The handler of the full dashboard swallows every exception. *)
Lemma slider_moved_returns (i : Z) (s : Full.RocketDashboard.t) :
  snd (Full.RocketDashboard.slider_moved i s) = Ok tt.
Proof.
  unfold Full.RocketDashboard.slider_moved.
  destruct (Full.RocketDashboard.data s) as [df|]; [|reflexivity].
  destruct (negb (Full.RocketDashboard.current_ax s)); [reflexivity|].
  unfold try_pass.
  destruct (Full.RocketDashboard.slider_moved_body i df s) as [s' [[]|e]];
    reflexivity.
Qed.

(** The dot loop stops at the first dot whose column the row lacks. *)
Lemma move_dots_first_raise (r : row) (t_val : cell)
      (before after : list (string * option (cell * cell)))
      (c : string) (d : option (cell * cell)) (e : exn) :
  Forall (fun p => raised (row_getitem r (Some (fst p))) = false) before ->
  row_getitem r (Some c) = Raise e ->
  snd (Full.RocketDashboard.move_dots r t_val (before ++ (c, d) :: after))
    = Raise e /\
  skipn (List.length before)
        (fst (Full.RocketDashboard.move_dots r t_val
                (before ++ (c, d) :: after)))
    = (c, d) :: after.
Proof.
  intros HF Hc. induction before as [|[b x] rest IH].
  - cbn [app Full.RocketDashboard.move_dots]. rewrite Hc. split; reflexivity.
  - inversion HF as [|? ? Hb Hrest]; subst. simpl in Hb.
    cbn [app Full.RocketDashboard.move_dots].
    destruct (row_getitem r (Some b)) as [y|]; [|discriminate].
    destruct (IH Hrest) as (I1 & I2).
    destruct (Full.RocketDashboard.move_dots r t_val (rest ++ (c, d) :: after))
      as [rest' res]. simpl in *. split; assumption.
Qed.

(** [update_all] once the time stamp of the row has been read. *)
Lemma V12b_update_all_cards (s : V12b.RocketDashboard.t) (df : DataFrame)
      (i : Z) (tcol : string) (col : series) (tv : cell) :
  V12b.RocketDashboard.data s = Some df ->
  index (filter (fun n => str_in "time" (lower n)) (columns df)) 0 = Ok tcol ->
  getitem df (Some tcol) = Ok col ->
  index (cells col) i = Ok tv ->
  V12b.RocketDashboard.update_all i s =
  match for_objs (V12b.GraphCard.update_cursor tv i)
                 (V12b.RocketDashboard.cards s) with
  | (cs, Ok _) =>
      try_pass (V12b.RocketDashboard.update_attitude df i)
               (V12b.RocketDashboard.set_cards cs s)
  | (cs, Raise e) => (V12b.RocketDashboard.set_cards cs s, Raise e)
  end.
Proof.
  intros Hd Ht Hcol Htv. unfold V12b.RocketDashboard.update_all.
  rewrite Hd. unfold mbind, lift. rewrite Ht, Hcol, Htv.
  destruct (for_objs (V12b.GraphCard.update_cursor tv i)
                     (V12b.RocketDashboard.cards s)) as [cs [[]|e]];
    reflexivity.
Qed.

(** The attitude update changes the attitude viewer only. *)
Lemma V12b_update_attitude_cards (df : DataFrame) (i : Z)
      (s : V12b.RocketDashboard.t) :
  V12b.RocketDashboard.cards
    (fst (V12b.RocketDashboard.update_attitude df i s))
  = V12b.RocketDashboard.cards s.
Proof.
  unfold V12b.RocketDashboard.update_attitude, mbind, lift, get, raise.
  destruct (V12b.RocketDashboard.filter_value df "pitch" i); [|reflexivity].
  destruct (V12b.RocketDashboard.filter_value df "roll" i); [|reflexivity].
  destruct (V12b.RocketDashboard.filter_value df "yaw" i); [|reflexivity].
  destruct (V12b.RocketDashboard.attitude s); [|reflexivity].
  destruct (cell_float _); [|reflexivity].
  destruct (cell_float _); [|reflexivity].
  destruct (cell_float _); reflexivity.
Qed.

(** The [try] block of [slider_moved] when a dot raises: the cursor
    line has moved, the dots are as the loop left them, and nothing
    that comes later in the block has run. *)
Lemma slider_moved_body_dot_raises (i : Z) (df : DataFrame)
      (s : Full.RocketDashboard.t) (r : row) (t_val x : cell)
      (ds : list (string * option (cell * cell))) (e : exn) :
  iloc df i = Ok r ->
  row_getitem r (Full.RocketDashboard.time_col (Full.RocketDashboard.ch s))
    = Ok t_val ->
  Full.RocketDashboard.cursor_line s = Some x ->
  Full.RocketDashboard.move_dots r t_val
    (Full.RocketDashboard.intersection_dots s) = (ds, Raise e) ->
  Full.RocketDashboard.slider_moved_body i df s =
  (Full.RocketDashboard.set_dots ds
     (Full.RocketDashboard.set_cursor_line (Some t_val)
        (Full.RocketDashboard.set_bg_cache true s)), Raise e).
Proof.
  intros Hrow Htval Hcl Hdots.
  unfold Full.RocketDashboard.slider_moved_body.
  unfold mbind at 1. unfold lift at 1. rewrite Hrow.
  unfold mbind at 1. unfold get at 1.
  unfold mbind at 1. unfold lift at 1. rewrite Htval.
  unfold mbind at 1. unfold modify at 1.
  unfold mbind at 1. unfold lift at 1. rewrite Hcl.
  cbn [attr].
  unfold mbind at 1. unfold modify at 1.
  unfold mbind at 1.
  cbn [Full.RocketDashboard.intersection_dots
         Full.RocketDashboard.set_cursor_line
         Full.RocketDashboard.set_bg_cache].
  rewrite Hdots. reflexivity.
Qed.

(** C9, as the code has it.  V12b's [update_all] hands the cursor to
    the cards one after the other, in list order, inside the call.
    When no card raises, every card has been updated and the call
    returns, whatever happens in the attitude update, whose exceptions
    are swallowed.  The first card that raises ends the publish: the
    cards before it have been updated, the cards after it and the
    attitude viewer have not been touched, and the exception leaves
    [update_all].  The full dashboard's [slider_moved] never raises,
    but its one [try] block ends at the first dot whose column is
    missing: that dot, the dots after it, the five gauges and the
    telemetry read-out keep what they showed. *)
Theorem C9_publish
        (s : V12b.RocketDashboard.t) (df : DataFrame) (i : Z)
        (tcol : string) (col : series) (tv : cell)
        (before after : list V12b.GraphCard.t) (c c' : V12b.GraphCard.t)
        (e : exn)
        (fs : Full.RocketDashboard.t) (fdf : DataFrame) (r : row)
        (t_val x : cell)
        (dots_before dots_after : list (string * option (cell * cell)))
        (dc : string) (dd : option (cell * cell)) (de : exn) :
  V12b.RocketDashboard.data s = Some df ->
  index (filter (fun n => str_in "time" (lower n)) (columns df)) 0 = Ok tcol ->
  getitem df (Some tcol) = Ok col ->
  index (cells col) i = Ok tv ->
  Forall (fun k => snd (V12b.GraphCard.update_cursor tv i k) = Ok tt) before ->
  V12b.GraphCard.update_cursor tv i c = (c', Raise e) ->
  Full.RocketDashboard.data fs = Some fdf ->
  Full.RocketDashboard.current_ax fs = true ->
  iloc fdf i = Ok r ->
  row_getitem r (Full.RocketDashboard.time_col (Full.RocketDashboard.ch fs))
    = Ok t_val ->
  Full.RocketDashboard.cursor_line fs = Some x ->
  Full.RocketDashboard.intersection_dots fs
    = (dots_before ++ (dc, dd) :: dots_after)%list ->
  Forall (fun p => raised (row_getitem r (Some (fst p))) = false) dots_before ->
  row_getitem r (Some dc) = Raise de ->
  (* V12b, no card raises *)
  (let s1 := V12b.RocketDashboard.set_cards before s in
   snd (V12b.RocketDashboard.update_all i s1) = Ok tt /\
   V12b.RocketDashboard.cards (fst (V12b.RocketDashboard.update_all i s1))
     = map (fun k => fst (V12b.GraphCard.update_cursor tv i k)) before) /\
  (* V12b, the card after [before] raises *)
  (let s2 := V12b.RocketDashboard.set_cards (before ++ c :: after) s in
   V12b.RocketDashboard.update_all i s2
     = (V12b.RocketDashboard.set_cards
          (map (fun k => fst (V12b.GraphCard.update_cursor tv i k)) before
           ++ c' :: after) s, Raise e)) /\
  (* the full dashboard *)
  (let fs' := fst (Full.RocketDashboard.slider_moved i fs) in
   snd (Full.RocketDashboard.slider_moved i fs) = Ok tt /\
   Full.RocketDashboard.cursor_line fs' = Some t_val /\
   skipn (List.length dots_before) (Full.RocketDashboard.intersection_dots fs')
     = (dc, dd) :: dots_after /\
   Full.RocketDashboard.alt_gauge fs' = Full.RocketDashboard.alt_gauge fs /\
   Full.RocketDashboard.vel_gauge fs' = Full.RocketDashboard.vel_gauge fs /\
   Full.RocketDashboard.servo_gauge fs' = Full.RocketDashboard.servo_gauge fs /\
   Full.RocketDashboard.yaw_gauge fs' = Full.RocketDashboard.yaw_gauge fs /\
   Full.RocketDashboard.yaw_sp_gauge fs' = Full.RocketDashboard.yaw_sp_gauge fs /\
   Full.RocketDashboard.telemetry fs' = Full.RocketDashboard.telemetry fs).
Proof.
  intros Hd Ht Hcol Htv Hbefore Hc Hfd Hax Hrow Htval Hcl Hdots Hdb Hdc.
  split; [|split].
  - cbv zeta.
    rewrite (V12b_update_all_cards
               (V12b.RocketDashboard.set_cards before s)
               df i tcol col tv Hd Ht Hcol Htv).
    cbn [V12b.RocketDashboard.cards V12b.RocketDashboard.set_cards].
    rewrite (for_objs_all_ok _ before Hbefore).
    unfold try_pass.
    pose proof (V12b_update_attitude_cards df i
      (V12b.RocketDashboard.set_cards
         (map (fun k => fst (V12b.GraphCard.update_cursor tv i k)) before)
         (V12b.RocketDashboard.mk (V12b.RocketDashboard.data s) before
            (V12b.RocketDashboard.attitude s) (V12b.RocketDashboard.slider s)
            (V12b.RocketDashboard.timer_active s)))) as Hatt.
    destruct (V12b.RocketDashboard.update_attitude df i _) as [s' [[]|e']];
      cbn [fst snd] in *; split; try reflexivity; exact Hatt.
  - cbv zeta.
    rewrite (V12b_update_all_cards
               (V12b.RocketDashboard.set_cards (before ++ c :: after) s)
               df i tcol col tv Hd Ht Hcol Htv).
    cbn [V12b.RocketDashboard.cards V12b.RocketDashboard.set_cards].
    rewrite (for_objs_first_raise _ before after c c' e Hbefore Hc).
    reflexivity.
  - cbv zeta. split; [apply slider_moved_returns|].
    unfold Full.RocketDashboard.slider_moved. rewrite Hfd, Hax. cbn [negb].
    destruct (move_dots_first_raise r t_val dots_before dots_after dc dd de
                                    Hdb Hdc) as (M1 & M2).
    destruct (Full.RocketDashboard.move_dots r t_val
                (dots_before ++ (dc, dd) :: dots_after)) as [ds res] eqn:E.
    cbn [fst snd] in M1, M2. subst res. rewrite <- Hdots in E.
    unfold try_pass.
    rewrite (slider_moved_body_dot_raises i fdf fs r t_val x ds de
               Hrow Htval Hcl E).
    cbn. repeat split; try reflexivity. exact M2.
Qed.

End FanOut.

Section FanOutClaims.

(** C9's theorem at the V12b dashboard with a one-sample card between
    two full cards, and at the full dashboard with the stale pressure
    dot, both at row 2. *)
Lemma C9_publish_witness :
  snd (V12b.RocketDashboard.update_all 2
         (V12b.RocketDashboard.set_cards
            (V12b.RocketDashboard.cards short_card_dashboard
             ++ V12b.RocketDashboard.cards short_card_dashboard)
            short_card_dashboard)) = Raise IndexError /\
  Full.RocketDashboard.telemetry
    (fst (Full.RocketDashboard.slider_moved 2 stale_dots_dashboard))
    = Full.RocketDashboard.Loaded.
Proof.
  pose (good := fst (V12b.GraphCard.plot (map CNum (samples [0; 1; 2]%Z))
                       (samples [0; 10; 5]%Z) V12b.GraphCard.init)).
  pose (short := fst (V12b.GraphCard.plot (map CNum (samples [0; 1; 2]%Z))
                        (samples [7]%Z) V12b.GraphCard.init)).
  destruct (C9_publish
              short_card_dashboard attitude_flight 2 "time"
              (Numeric (samples [0; 1; 2]%Z)) (CNum 2%Q)
              [] [good; short; good] short
              (fst (V12b.GraphCard.update_cursor (CNum 2%Q) 2 short))
              IndexError
              stale_dots_dashboard
              [("time"%string, Numeric (samples [0; 1; 2; 3]%Z));
               ("alt"%string, Numeric (samples [0; 20; 50; 30]%Z))]
              [("time"%string, CNum 2%Q); ("alt"%string, CNum 50%Q)]
              (CNum 2%Q) (CNum 0%Q)
              [] [] "pressure" (Some (CNum 0%Q, CNum 1013%Q)) KeyError)
    as (_ & H12 & HF).
  - reflexivity.
  - reflexivity.
  - reflexivity.
  - reflexivity.
  - constructor.
  - vm_compute. reflexivity.
  - reflexivity.
  - reflexivity.
  - vm_compute. reflexivity.
  - reflexivity.
  - reflexivity.
  - reflexivity.
  - constructor.
  - reflexivity.
  - split.
    + cbv zeta in H12. cbn [app] in H12.
      change (V12b.RocketDashboard.cards short_card_dashboard
              ++ V12b.RocketDashboard.cards short_card_dashboard)%list
        with [short; good; short; good].
      rewrite H12. reflexivity.
    + destruct HF as (_ & _ & _ & _ & _ & _ & _ & _ & HT). exact HT.
Defined.

(** C9 as stated fails.  In the full dashboard at row 2, the dot whose
    column the new table lacks raises [KeyError]: the cursor line has
    moved to the time of row 2, but the altitude gauge and the telemetry
    read-out, which come after the dots, still show what they showed;
    without that dot they show row 2.  In V12b the first card raises
    [IndexError]: the exception leaves [update_all], and the second card
    and the attitude viewer are not updated; without the first card
    they are. *)
Lemma C9_counterexample :
  (let s' := fst (Full.RocketDashboard.slider_moved 2 stale_dots_dashboard) in
   Full.RocketDashboard.cursor_line s' = Some (CNum 2%Q) /\
   Full.HUDGauge.value (Full.RocketDashboard.alt_gauge s') = CNum 0%Q /\
   Full.RocketDashboard.telemetry s' = Full.RocketDashboard.Loaded) /\
  (let s' := fst (Full.RocketDashboard.slider_moved 2
                    (Full.RocketDashboard.set_dots [] stale_dots_dashboard)) in
   Full.HUDGauge.value (Full.RocketDashboard.alt_gauge s') = CNum 50%Q /\
   Full.RocketDashboard.telemetry s'
     = Full.RocketDashboard.Readout 2%Q 50%Q) /\
  (let s' := fst (V12b.RocketDashboard.update_all 2 short_card_dashboard) in
   snd (V12b.RocketDashboard.update_all 2 short_card_dashboard)
     = Raise IndexError /\
   map V12b.GraphCard.cursor (V12b.RocketDashboard.cards s')
     = [Some (CNum 2%Q); Some (CNum 0%Q)] /\
   V12b.RocketDashboard.attitude s' = Some (V12b.AttitudeViewer.mk None)) /\
  (let s' := fst (V12b.RocketDashboard.update_all 2
                    (V12b.RocketDashboard.set_cards
                       (tl (V12b.RocketDashboard.cards short_card_dashboard))
                       short_card_dashboard)) in
   map V12b.GraphCard.cursor (V12b.RocketDashboard.cards s')
     = [Some (CNum 2%Q)] /\
   V12b.RocketDashboard.attitude s'
     = Some (V12b.AttitudeViewer.mk (Some (10%Q, 2%Q, 92%Q)))).
Proof. repeat split; vm_compute; reflexivity. Qed.

(** C10.  Cursor notifications before a load.  The handlers that start
    with the data-is-None guard return at once, raise nothing and change
    nothing: a V9 card that has not been plotted, and the slider slots
    of V8 and V7 before a table is loaded.  The slot of V9's own slider
    has no such guard: it reads [self.time] first, which only [load_csv]
    creates.  Before a load it raises [AttributeError] at every index,
    and so does every move of the slider that changes its value and the
    timer tick that makes such a move. *)
Theorem C10_preload_notification
        (c : V9.GraphCard.t) (s8 : V8.RocketDashboard.t)
        (s7 : V7.RocketDashboard.t) (s9 : V9.RocketDashboard.t)
        (t : Q) (i : Z) :
  V9.GraphCard.data c = None ->
  V8.RocketDashboard.data s8 = None ->
  V7.RocketDashboard.data s7 = None ->
  V9.RocketDashboard.time s9 = None ->
  V9.GraphCard.update_cursor t i c = (c, Ok tt) /\
  V8.RocketDashboard.update_all i s8 = (s8, Ok tt) /\
  V7.RocketDashboard.slider_update i s7 = (s7, Ok tt) /\
  V9.RocketDashboard.update_all i s9 = (s9, Raise AttributeError) /\
  (forall v,
     snd (Qt.setValue v (V9.RocketDashboard.slider s9)) <> None ->
     snd (V9.RocketDashboard.with_slider (Qt.setValue v) s9)
     = Raise AttributeError) /\
  (V9.RocketDashboard.timer_active s9 = true ->
   slider_in_range (V9.RocketDashboard.slider s9) ->
   (Qt.value (V9.RocketDashboard.slider s9) + 1
    < Qt.maximum (V9.RocketDashboard.slider s9))%Z ->
   snd (V9.RocketDashboard.tick s9) = Raise AttributeError).
Proof.
  intros H9 H8 H7 Ht.
  assert (Hslot : forall j sl,
            V9.RocketDashboard.update_all j (V9.RocketDashboard.set_slider sl s9)
            = (V9.RocketDashboard.set_slider sl s9, Raise AttributeError)).
  { intros j sl.
    unfold V9.RocketDashboard.update_all, mbind, get, lift.
    cbn [V9.RocketDashboard.time V9.RocketDashboard.set_slider].
    rewrite Ht. reflexivity. }
  assert (Hmove : forall v,
            snd (Qt.setValue v (V9.RocketDashboard.slider s9)) <> None ->
            snd (V9.RocketDashboard.with_slider (Qt.setValue v) s9)
            = Raise AttributeError).
  { intros v Hsig. unfold V9.RocketDashboard.with_slider.
    destruct (Qt.setValue v (V9.RocketDashboard.slider s9)) as [sl [w|]];
      cbn [snd] in Hsig; [|congruence].
    rewrite Hslot. reflexivity. }
  split.
  { unfold V9.GraphCard.update_cursor. rewrite H9. reflexivity. }
  split.
  { unfold V8.RocketDashboard.update_all. rewrite H8. reflexivity. }
  split.
  { unfold V7.RocketDashboard.slider_update. rewrite H7. reflexivity. }
  split.
  { unfold V9.RocketDashboard.update_all, mbind, get, lift.
    rewrite Ht. reflexivity. }
  split; [exact Hmove|].
  intros Hact Hin Hlt. unfold slider_in_range in Hin.
  unfold V9.RocketDashboard.tick, mbind, get. rewrite Hact.
  unfold V9.RocketDashboard.animate, mbind, get.
  destruct (Z.geb_spec (Qt.value (V9.RocketDashboard.slider s9) + 1)
                       (Qt.maximum (V9.RocketDashboard.slider s9)));
    [lia|].
  apply Hmove.
  unfold Qt.setValue, Qt.bound.
  rewrite Z.min_r by lia. rewrite Z.max_r by lia.
  destruct (Z.eqb_spec (Qt.value (V9.RocketDashboard.slider s9) + 1)
                       (Qt.value (V9.RocketDashboard.slider s9)));
    [lia | discriminate].
Qed.

(** C10's theorem at a V9 dashboard that has just been started: the
    slider is dragged to row 3, or Play is pressed and the timer ticks;
    and at a fresh card and fresh V8 and V7 dashboards. *)
Lemma C10_preload_notification_witness :
  V9.GraphCard.update_cursor 3%Q 3 (V9.GraphCard.init "alt")
    = (V9.GraphCard.init "alt", Ok tt) /\
  V9.RocketDashboard.update_all 3 V9.RocketDashboard.init
    = (V9.RocketDashboard.init, Raise AttributeError) /\
  snd (V9.RocketDashboard.with_slider (Qt.setValue 3) V9.RocketDashboard.init)
    = Raise AttributeError /\
  snd (V9.RocketDashboard.tick
         (fst (V9.RocketDashboard.play V9.RocketDashboard.init)))
    = Raise AttributeError.
Proof.
  destruct (C10_preload_notification
              (V9.GraphCard.init "alt") V8.RocketDashboard.init
              V7.RocketDashboard.init V9.RocketDashboard.init 3%Q 3
              eq_refl eq_refl eq_refl eq_refl)
    as (Hc & _ & _ & Hu & Hm & _).
  destruct (C10_preload_notification
              (V9.GraphCard.init "alt") V8.RocketDashboard.init
              V7.RocketDashboard.init
              (fst (V9.RocketDashboard.play V9.RocketDashboard.init)) 3%Q 3
              eq_refl eq_refl eq_refl eq_refl)
    as (_ & _ & _ & _ & _ & Ht).
  split; [exact Hc|]. split; [exact Hu|].
  split; [apply Hm; discriminate|].
  apply Ht.
  - reflexivity.
  - unfold slider_in_range. simpl. lia.
  - simpl. lia.
Defined.

End FanOutClaims.

(* ================================================================== *)
(** * Further properties of the phase map (V9) *)
(* ================================================================== *)

Section LandedFacts.

Import V9.RocketDashboard.

Lemma fold_Qmin_spec (rest : list Q) :
  forall x : Q,
    let m := fold_left Np.Qmin_b rest x in
    In m (x :: rest) /\ forall y, In y (x :: rest) -> (m <= y)%Q.
Proof.
  induction rest as [|a rest IH]; intros x; cbn [fold_left].
  - split; [left; reflexivity|].
    intros y [<-|[]]. apply Qle_refl.
  - destruct (IH (Np.Qmin_b x a)) as (Hin & Hle).
    unfold Np.Qmin_b in *.
    destruct (Qle_bool x a) eqn:E.
    + apply Qle_bool_iff in E. split.
      * destruct Hin as [H|H]; [left; exact H | right; right; exact H].
      * intros y [<-|[<-|H]].
        -- apply Hle. left; reflexivity.
        -- eapply Qle_trans; [apply Hle; left; reflexivity | exact E].
        -- apply Hle. right; exact H.
    + assert (Hax : (a <= x)%Q).
      { destruct (Qlt_le_dec a x) as [H|H]; [apply Qlt_le_weak; exact H|].
        apply Qle_bool_iff in H. congruence. }
      split.
      * destruct Hin as [H|H]; [right; left; exact H | right; right; exact H].
      * intros y [<-|[<-|H]].
        -- eapply Qle_trans; [apply Hle; left; reflexivity | exact Hax].
        -- apply Hle. left; reflexivity.
        -- apply Hle. right; exact H.
Qed.

(** [a.min()] is a sample of the array and a lower bound of it. *)
Lemma amin_spec (a : list Q) (lo : Q) :
  Np.amin a = Ok lo -> In lo a /\ forall y, In y a -> (lo <= y)%Q.
Proof.
  destruct a as [|x rest]; [discriminate|].
  cbn [Np.amin]. intros H. injection H as <-.
  apply fold_Qmin_spec.
Qed.

Lemma nth_mask_ground (lo : Q) (l : list Q) (i : nat) :
  nth i (map (fun a => Np.Qlt_bool (lo + 2)%Q a) l) false
  = Np.Qlt_bool (lo + 2)%Q (nth i l (lo + 2)%Q).
Proof.
  assert (E : false = (fun a => Np.Qlt_bool (lo + 2)%Q a) (lo + 2)%Q).
  { symmetry. apply Qlt_bool_false. apply Qle_refl. }
  rewrite E at 1. apply map_nth.
Qed.

(** The indices [phase_indices] returns are the ones its lines compute. *)
Lemma phase_indices_parts (time altitude : list Q) (p : phase_index) :
  phase_indices time altitude = Ok p ->
  exists lo r,
    Np.amin altitude = Ok lo /\
    Np.argmax_bool (map (fun a => Np.Qlt_bool (lo + 2)%Q a) (rev altitude))
      = Ok r /\
    landed p = (List.length altitude - r)%nat.
Proof.
  unfold phase_indices.
  destruct (Np.gradient altitude time) as [vel|]; cbn [bind]; [|discriminate].
  destruct (Np.argmax_bool _) as [b|]; cbn [bind]; [|discriminate].
  destruct (Np.argmax altitude) as [a|]; cbn [bind]; [|discriminate].
  destruct (Np.argmax_bool _) as [k|]; cbn [bind]; [|discriminate].
  destruct (Np.amin altitude) as [lo|]; cbn [bind]; [|discriminate].
  destruct (Np.argmax_bool _) as [r|] eqn:Er; cbn [bind]; [|discriminate].
  intros H. injection H as <-. exists lo, r. repeat split. exact Er.
Qed.

(** The Landed index: the row after the last one that is more than 2
    above the lowest sample, and the number of rows when no row is. *)
Lemma landed_spec (time altitude : list Q) (p : phase_index) :
  phase_indices time altitude = Ok p ->
  exists lo,
    Np.amin altitude = Ok lo /\
    (1 <= landed p <= List.length altitude)%nat /\
    (((lo + 2 < nth (landed p - 1) altitude 0)%Q /\
      forall j, (landed p <= j < List.length altitude)%nat ->
                (nth j altitude 0 <= lo + 2)%Q)
     \/ (landed p = List.length altitude /\
         forall j, (j < List.length altitude)%nat ->
                   (nth j altitude 0 <= lo + 2)%Q)).
Proof.
  intros Hp.
  destruct (phase_indices_parts time altitude p Hp) as (lo & r & Hlo & Hr & Hl).
  exists lo. split; [exact Hlo|].
  assert (Hne : altitude <> []) by (intros ->; discriminate Hlo).
  assert (Hn : (1 <= List.length altitude)%nat).
  { destruct altitude; [congruence | simpl; lia]. }
  destruct (argmax_bool_spec
              (map (fun a => Np.Qlt_bool (lo + 2)%Q a) (rev altitude)))
    as (r' & Hr' & Hrlt & Hch).
  { intros E. apply (f_equal (@List.length bool)) in E.
    rewrite length_map, length_rev in E. simpl in E. lia. }
  rewrite Hr in Hr'. injection Hr' as <-.
  rewrite length_map, length_rev in Hrlt.
  assert (Hnth : forall j, (j < List.length altitude)%nat ->
            nth j (map (fun a => Np.Qlt_bool (lo + 2)%Q a) (rev altitude)) false
            = Np.Qlt_bool (lo + 2)%Q
                (nth (List.length altitude - S j) altitude 0%Q)).
  { intros j Hj. rewrite nth_mask_ground.
    rewrite (nth_indep _ _ 0%Q) by (rewrite length_rev; exact Hj).
    rewrite rev_nth by exact Hj. reflexivity. }
  split; [lia|].
  destruct Hch as [(H1 & H2) | (H0 & Hall)].
  - left. split.
    + rewrite Hnth in H1 by exact Hrlt. apply Qlt_bool_true in H1.
      replace (landed p - 1)%nat with (List.length altitude - S r)%nat by lia.
      exact H1.
    + intros j Hj.
      specialize (H2 (List.length altitude - S j)%nat ltac:(lia)).
      rewrite Hnth in H2 by lia. apply Qlt_bool_false in H2.
      replace (List.length altitude - S (List.length altitude - S j))%nat
        with j in H2 by lia.
      exact H2.
  - right. split; [lia|].
    intros j Hj.
    specialize (Hall (List.length altitude - S j)%nat).
    rewrite Hnth in Hall by lia. apply Qlt_bool_false in Hall.
    replace (List.length altitude - S (List.length altitude - S j))%nat
      with j in Hall by lia.
    exact Hall.
Qed.

(** The Apogee row is never after the row of the Landed entry. *)
Lemma apogee_le_landed (time altitude : list Q) :
  List.length time = List.length altitude ->
  (2 <= List.length time)%nat ->
  exists p, phase_indices time altitude = Ok p /\
            (apogee p <= landed p - 1)%nat /\
            (landed p - 1 < List.length time)%nat.
Proof.
  intros Hlen H2.
  destruct (phase_indices_spec time altitude Hlen H2)
    as (vel & p & _ & _ & Hp & _ & _ & Ha & Hmax & _ & _ & _ & _ & Hl).
  exists p. split; [exact Hp|]. split; [|lia].
  destruct (landed_spec time altitude p Hp) as (lo & Hlo & Hr & [(H1 & H2')|(H0 & Hall)]).
  - destruct (Nat.le_gt_cases (apogee p) (landed p - 1)) as [H|H]; [exact H|].
    exfalso.
    specialize (H2' (apogee p) ltac:(lia)).
    specialize (Hmax (landed p - 1)%nat ltac:(lia)).
    apply (Qlt_irrefl (lo + 2)%Q).
    eapply Qlt_le_trans; [exact H1|].
    eapply Qle_trans; [exact Hmax | exact H2'].
  - lia.
Qed.

Lemma non_decreasing_nth (l : list Q) :
  non_decreasing l ->
  forall i j, (i <= j < List.length l)%nat -> (nth i l 0 <= nth j l 0)%Q.
Proof.
  induction l as [|a l IH]; intros Hnd i j Hij; [simpl in Hij; lia|].
  assert (Hhead : forall k, (k < List.length l)%nat -> (a <= nth k l 0)%Q).
  { destruct l as [|b l']; [simpl; intros k Hk; lia|].
    destruct Hnd as (Hab & Hrest).
    intros k Hk. eapply Qle_trans; [exact Hab|].
    apply (IH Hrest 0%nat k). simpl in *. lia. }
  assert (Htail : non_decreasing l).
  { destruct l as [|b l']; [exact I | exact (proj2 Hnd)]. }
  destruct i as [|i], j as [|j]; simpl in *.
  - apply Qle_refl.
  - apply Hhead. lia.
  - lia.
  - apply IH; [exact Htail | lia].
Qed.

End LandedFacts.

Section LandedProperties.

Import V9.RocketDashboard.

(** X1.  The Landed entry of V9's phase map.  [detect_phases] takes the
    last row whose altitude is more than 2 above the lowest sample of the
    flight and reports its time stamp as Landed; when no row is that high
    it reports the last time stamp of the table.  That row is never before
    the Apogee row. *)
Theorem landed_last_row_above_floor (time altitude : list Q) :
  List.length time = List.length altitude ->
  (2 <= List.length time)%nat ->
  exists p lo phases,
    phase_indices time altitude = Ok p /\
    Np.amin altitude = Ok lo /\
    In lo altitude /\
    (forall y, In y altitude -> (lo <= y)%Q) /\
    (((lo + 2 < nth (landed p - 1) altitude 0)%Q /\
      forall j, (landed p - 1 < j < List.length altitude)%nat ->
                (nth j altitude 0 <= lo + 2)%Q)
     \/ (landed p - 1 = List.length altitude - 1 /\
         forall j, (j < List.length altitude)%nat ->
                   (nth j altitude 0 <= lo + 2)%Q))%nat /\
    (apogee p <= landed p - 1 < List.length altitude)%nat /\
    detect_phases time altitude = Ok phases /\
    phase_time "Landed" phases = Some (nth (landed p - 1) time 0%Q).
Proof.
  intros Hlen H2.
  destruct (apogee_le_landed time altitude Hlen H2) as (p & Hp & Hal & Hlt).
  destruct (landed_spec time altitude p Hp) as (lo & Hlo & Hr & Hch).
  destruct (amin_spec altitude lo Hlo) as (Hin & Hmin).
  destruct (detect_phases_ok time altitude Hlen H2) as (p' & Hp' & Hd).
  rewrite Hp in Hp'. injection Hp' as <-.
  exists p, lo. eexists.
  split; [exact Hp|]. split; [exact Hlo|]. split; [exact Hin|].
  split; [exact Hmin|]. split.
  { destruct Hch as [(H1 & H3)|(H0 & Hall)].
    - left. split; [exact H1|]. intros j Hj. apply H3. lia.
    - right. split; [lia | exact Hall]. }
  split; [lia|]. split; [exact Hd | reflexivity].
Qed.

Lemma landed_last_row_above_floor_witness :
  exists p, phase_indices example_time example_altitude = Ok p /\
            landed p = 7%nat /\ (apogee p <= 6)%nat.
Proof.
  destruct (landed_last_row_above_floor example_time example_altitude eq_refl)
    as (p & lo & phases & Hp & _ & _ & _ & _ & Ha & _).
  - simpl; lia.
  - exists p. split; [exact Hp|].
    assert (E : phase_indices example_time example_altitude
                = Ok (mkPhases 0 2 4 4 7)) by (vm_compute; reflexivity).
    rewrite E in Hp. injection Hp as <-. simpl in *. split; [reflexivity | lia].
Defined.

End LandedProperties.

Section PhaseTimeProperties.

Import V9.RocketDashboard.

(** X2.  The markers of V9's phase map on a table whose time stamps
    never go back.  [detect_phases] returns the five entries Boost,
    Coast, Apogee, Descent, Landed in this order; each is a time stamp of
    the table; the Apogee marker is never to the right of the Descent
    marker or of the Landed marker, and the Coast marker lies between
    the Boost and the Apogee marker, whichever of the two comes first. *)
Theorem phase_markers_ordered_in_time (time altitude : list Q) :
  valid_series time altitude ->
  exists t_boost t_coast t_apogee t_descent t_landed,
    detect_phases time altitude =
      Ok [("Boost"%string, t_boost); ("Coast"%string, t_coast);
          ("Apogee"%string, t_apogee); ("Descent"%string, t_descent);
          ("Landed"%string, t_landed)] /\
    (In t_boost time /\ In t_coast time /\ In t_apogee time /\
     In t_descent time /\ In t_landed time) /\
    (t_apogee <= t_descent)%Q /\
    (t_apogee <= t_landed)%Q /\
    ((t_boost <= t_coast /\ t_coast <= t_apogee)%Q \/
     (t_apogee <= t_coast /\ t_coast <= t_boost)%Q).
Proof.
  intros (Hlen & H2 & Hnd).
  destruct (phase_indices_spec time altitude Hlen H2)
    as (vel & p & _ & _ & Hp & Hb & _ & Ha & _ & _ & Hc & Hd & _ & Hl).
  destruct (detect_phases_ok time altitude Hlen H2) as (p1 & Hp1 & Hdp).
  rewrite Hp in Hp1. injection Hp1 as <-.
  destruct (apogee_le_landed time altitude Hlen H2) as (p2 & Hp2 & Hal & Hlt).
  rewrite Hp in Hp2. injection Hp2 as <-.
  assert (Hmid : (Nat.min (boost p) (apogee p) <= coast p
                  <= Nat.max (boost p) (apogee p))%nat).
  { rewrite Hc. split.
    - apply Nat.div_le_lower_bound; lia.
    - apply Nat.Div0.div_le_upper_bound; lia. }
  pose proof (non_decreasing_nth time Hnd) as Hmono.
  exists (nth (boost p) time 0%Q), (nth (coast p) time 0%Q),
    (nth (apogee p) time 0%Q), (nth (descent p) time 0%Q),
    (nth (landed p - 1) time 0%Q).
  split; [exact Hdp|]. split.
  { repeat split; apply nth_In; lia. }
  split; [apply Hmono; lia|]. split; [apply Hmono; lia|].
  destruct (Nat.le_gt_cases (boost p) (apogee p)) as [Hle|Hgt].
  - left. split; apply Hmono; lia.
  - right. split; apply Hmono; lia.
Qed.

(** X2's theorem at the flight of the specification's example. *)
Lemma phase_markers_ordered_in_time_witness :
  valid_series example_time example_altitude /\
  exists t_apogee t_landed,
    phase_time "Apogee"
      (match detect_phases example_time example_altitude with
       | Ok m => m | Raise _ => [] end) = Some t_apogee /\
    phase_time "Landed"
      (match detect_phases example_time example_altitude with
       | Ok m => m | Raise _ => [] end) = Some t_landed /\
    (t_apogee <= t_landed)%Q.
Proof.
  assert (Hv : valid_series example_time example_altitude).
  { unfold valid_series. split; [reflexivity|]. split; [simpl; lia|].
    simpl. repeat split; unfold Qle; simpl; lia. }
  split; [exact Hv|].
  destruct (phase_markers_ordered_in_time example_time example_altitude Hv)
    as (tb & tc & ta & td & tl & Hd & _ & _ & Hal & _).
  exists ta, tl. rewrite Hd. repeat split. exact Hal.
Defined.

End PhaseTimeProperties.

(* ================================================================== *)
(** * Column detection, loading and the events of V9 *)
(* ================================================================== *)

Section DetectProperties.

Import V9.RocketDashboard.

Lemma lookup_in (df : DataFrame) (c : string) :
  In c (columns df) -> exists v, lookup df c = Some v.
Proof.
  induction df as [|[n v] rest IH]; simpl; [intros []|].
  intros [->|H].
  - rewrite String.eqb_refl. eexists; reflexivity.
  - destruct (String.eqb n c); [eexists; reflexivity | apply IH; exact H].
Qed.

(** The scan of [detect] stops at the first column that matches. *)
Lemma detect_scan_some (cols keywords : list string) (c : string) :
  detect_scan cols keywords = Some c <->
  exists before after,
    cols = (before ++ c :: after)%list /\
    Forall (fun x => matches keywords x = false) before /\
    matches keywords c = true.
Proof.
  unfold matches. split.
  - induction cols as [|x rest IH]; cbn [detect_scan]; [discriminate|].
    destruct (any_in keywords (lower x)) eqn:E.
    + intros H. injection H as <-. exists [], rest. repeat split; [constructor | exact E].
    + intros H. destruct (IH H) as (before & after & -> & HF & Hc).
      exists (x :: before), after. repeat split; [constructor; assumption | exact Hc].
  - intros (before & after & -> & HF & Hc).
    induction before as [|b rest IH]; cbn [app detect_scan].
    + rewrite Hc. reflexivity.
    + inversion HF as [|? ? Hb Hrest]; subst. rewrite Hb. apply IH. exact Hrest.
Qed.

Lemma detect_scan_none (cols keywords : list string) :
  detect_scan cols keywords = None <->
  Forall (fun x => matches keywords x = false) cols.
Proof.
  unfold matches. induction cols as [|x rest IH]; cbn [detect_scan].
  - split; [constructor | reflexivity].
  - destruct (any_in keywords (lower x)) eqn:E.
    + split; [discriminate|]. intros H. inversion H; congruence.
    + rewrite IH. split.
      * intros H. constructor; assumption.
      * intros H. inversion H; assumption.
Qed.

(** A detected column is a column of the table. *)
Lemma detect_scan_getitem (df : DataFrame) (keywords : list string) (c : string) :
  detect_scan (columns df) keywords = Some c ->
  exists v, lookup df c = Some v /\ getitem df (Some c) = Ok v.
Proof.
  intros H. apply detect_scan_some in H.
  destruct H as (before & after & Hcols & _ & _).
  destruct (lookup_in df c) as (v & Hv).
  { rewrite Hcols. apply in_or_app. right. left. reflexivity. }
  exists v. split; [exact Hv|]. unfold getitem. rewrite Hv. reflexivity.
Qed.

(** X3.  [detect(keywords)] (V9, and the same method of V8b, V10 and
    V11) on a loaded table returns without changing the dashboard.  Its
    result is the first column, in table order, whose lower-cased name
    contains any one of the keywords: no column before it matches, and
    the order of the keywords plays no part.  It is [None] exactly when
    no column matches.  A column it returns can be read from the
    table. *)
Theorem detect_first_matching_column
        (df : DataFrame) (keywords : list string) (s : t) :
  data s = Some df ->
  exists r,
    detect keywords s = (s, Ok r) /\
    (forall c, r = Some c <->
       exists before after,
         columns df = (before ++ c :: after)%list /\
         Forall (fun x => matches keywords x = false) before /\
         matches keywords c = true) /\
    (r = None <-> Forall (fun x => matches keywords x = false) (columns df)) /\
    (forall c, r = Some c -> exists v, getitem df (Some c) = Ok v).
Proof.
  intros Hd. exists (detect_scan (columns df) keywords).
  split; [unfold detect; rewrite Hd; reflexivity|].
  split; [intros c; apply detect_scan_some|].
  split; [apply detect_scan_none|].
  intros c Hc. destruct (detect_scan_getitem df keywords c Hc) as (v & _ & Hv).
  exists v. exact Hv.
Qed.

(** X3's theorem at V8b's keywords for the x acceleration: the column
    "max_q" comes first in the table and contains "ax", so it is
    returned, although "accelx" matches the first keyword. *)
Lemma detect_first_matching_column_witness :
  detect ["accelx"; "ax"]%string (set_data (Some accel_flight) init)
  = (set_data (Some accel_flight) init, Ok (Some "max_q"%string)).
Proof.
  destruct (detect_first_matching_column accel_flight
              ["accelx"; "ax"]%string (set_data (Some accel_flight) init)
              eq_refl) as (r & Hr & _).
  rewrite Hr. vm_compute in Hr. injection Hr as <-. reflexivity.
Defined.

End DetectProperties.

Section SliderSignals.

(** [setValue]: the range stays, the value is the bounded request, and
    the signal, when there is one, carries the new value. *)
Lemma setValue_spec (v : Z) (sl : Qt.QSlider) :
  (Qt.minimum sl <= Qt.maximum sl)%Z ->
  let sl' := fst (Qt.setValue v sl) in
  Qt.minimum sl' = Qt.minimum sl /\ Qt.maximum sl' = Qt.maximum sl /\
  Qt.value sl' = Qt.bound sl v /\ slider_in_range sl' /\
  (snd (Qt.setValue v sl) = None \/
   snd (Qt.setValue v sl) = Some (Qt.value sl')).
Proof.
  intros Hr. unfold Qt.setValue, slider_in_range.
  assert (Hb : (Qt.minimum sl <= Qt.bound sl v <= Qt.maximum sl)%Z)
    by (unfold Qt.bound; lia).
  destruct (Z.eqb_spec (Qt.bound sl v) (Qt.value sl)) as [E|E];
    cbn [fst snd Qt.minimum Qt.maximum Qt.value].
  - repeat split; try lia. left; reflexivity.
  - repeat split; try lia. right; reflexivity.
Qed.

(** [setMaximum] on a slider that starts at 0. *)
Lemma setMaximum_spec (hi : Z) (sl : Qt.QSlider) :
  Qt.minimum sl = 0%Z -> (0 <= hi)%Z -> slider_in_range sl ->
  let sl' := fst (Qt.setMaximum hi sl) in
  Qt.minimum sl' = 0%Z /\ Qt.maximum sl' = hi /\
  Qt.value sl' = Z.min (Qt.value sl) hi /\ slider_in_range sl' /\
  (snd (Qt.setMaximum hi sl) = None \/
   snd (Qt.setMaximum hi sl) = Some (Qt.value sl')).
Proof.
  intros Hmin Hhi Hin. cbv zeta.
  destruct (setMaximum_range hi sl Hmin Hhi) as (Hlo & Hmx).
  pose proof (setMaximum_value hi sl Hmin Hhi Hin) as Hv.
  split; [exact Hlo|]. split; [exact Hmx|]. split; [exact Hv|].
  split; [unfold slider_in_range in *; rewrite Hlo, Hmx, Hv; lia|].
  destruct sl as [lo mx v]. cbn [Qt.minimum] in Hmin. subst lo.
  unfold Qt.setMaximum, Qt.setRange, Qt.setValue, Qt.bound.
  cbn [Qt.minimum Qt.maximum Qt.value].
  rewrite (Z.min_l 0 hi) by lia. rewrite (Z.max_r 0 hi) by lia.
  cbn [Z.eqb andb].
  destruct (Z.eqb_spec hi mx) as [->|Hne]; [left; reflexivity|].
  destruct (Z.eqb_spec (Z.max 0 (Z.min hi v)) v);
    [left; reflexivity | right; reflexivity].
Qed.

End SliderSignals.

Section V9Ready.

Import V9.RocketDashboard.

(** A plotted card takes every row of its flight. *)
Lemma card_ready_update (n : nat) (tv : Q) (i : Z) (c : V9.GraphCard.t) :
  card_ready n c -> (0 <= i < Z.of_nat n)%Z ->
  snd (V9.GraphCard.update_cursor tv i c) = Ok tt /\
  card_ready n (fst (V9.GraphCard.update_cursor tv i c)).
Proof.
  intros ((d & Hd & Hlen) & Hc & Hdot) Hi.
  unfold V9.GraphCard.update_cursor. rewrite Hd.
  unfold mbind, lift, modify.
  destruct (V9.GraphCard.cursor c) as [x|] eqn:Ec; [|congruence].
  destruct (V9.GraphCard.dot c) as [y|] eqn:Ed; [|congruence].
  cbn [attr].
  rewrite (index_ok d i 0%Q) by lia.
  cbn [fst snd]. split; [reflexivity|].
  unfold card_ready. cbn. rewrite Hd.
  split; [exists d; auto | split; discriminate].
Qed.

(** So does a plotted map. *)
Lemma map_ready_update (n : nat) (i : Z) (g : V9.GPSMap.t) :
  map_ready n g -> (0 <= i < Z.of_nat n)%Z ->
  snd (V9.GPSMap.update_cursor i g) = Ok tt /\
  map_ready n (fst (V9.GPSMap.update_cursor i g)).
Proof.
  intros (Hc & (la & Hla & Hlal) & (lo & Hlo & Hlol)) Hi.
  unfold V9.GPSMap.update_cursor, mbind, lift, modify.
  destruct (V9.GPSMap.cursor g) as [x|] eqn:Ec; [|congruence].
  cbn [attr]. rewrite Hlo. cbn [attr].
  rewrite (index_ok lo i (CNum 0%Q)) by lia.
  rewrite Hla. cbn [attr].
  rewrite (index_ok la i (CNum 0%Q)) by lia.
  cbn [fst snd]. split; [reflexivity|].
  unfold map_ready. cbn.
  split; [discriminate|]. split; [exists la | exists lo]; auto.
Qed.

(** The slot [update_all] on a dashboard whose views hold [n] rows. *)
Lemma update_all_ready (n : nat) (i : Z) (s : t) :
  (exists tm, time s = Some tm /\ List.length tm = n) ->
  Forall (card_ready n) (cards s) ->
  match gps s with Some g => map_ready n g | None => True end ->
  (0 <= i < Z.of_nat n)%Z ->
  let s' := fst (update_all i s) in
  snd (update_all i s) = Ok tt /\
  time s' = time s /\ slider s' = slider s /\
  timer_active s' = timer_active s /\ data s' = data s /\
  Forall (card_ready n) (cards s') /\
  match gps s' with Some g => map_ready n g | None => True end.
Proof.
  intros (tm & Htm & Hlen) Hcards Hgps Hi. cbv zeta.
  unfold update_all, mbind, get, lift. rewrite Htm. cbn [attr].
  rewrite (index_ok tm i 0%Q) by lia.
  set (tv := nth (Z.to_nat i) tm 0%Q).
  assert (Hall : Forall (fun c => snd (V9.GraphCard.update_cursor tv i c) = Ok tt)
                        (cards s)).
  { eapply Forall_impl; [|exact Hcards].
    intros c Hc. apply (card_ready_update n tv i c Hc Hi). }
  rewrite (for_objs_all_ok _ (cards s) Hall).
  assert (Hcards' : Forall (card_ready n)
            (map (fun c => fst (V9.GraphCard.update_cursor tv i c)) (cards s))).
  { apply Forall_map. eapply Forall_impl; [|exact Hcards].
    intros c Hc. apply (card_ready_update n tv i c Hc Hi). }
  cbn [gps set_cards].
  destruct (gps s) as [g|] eqn:Eg.
  - destruct (map_ready_update n i g Hgps Hi) as (Hok & Hg').
    destruct (V9.GPSMap.update_cursor i g) as [g' r]. cbn [fst snd] in *.
    subst r. cbn.
    repeat (split; [first [reflexivity | assumption]|]). exact Hg'.
  - cbn. rewrite Eg.
    repeat (split; [first [reflexivity | assumption]|]). exact I.
Qed.

(** A slider call on a dashboard whose views hold [n] rows, when the
    call leaves the slider on the range 0 .. n-1 and signals its new
    value. *)
Lemma with_slider_ready (n : nat) (op : Qt.QSlider -> Qt.QSlider * option Z)
      (s : t) :
  (exists tm, time s = Some tm /\ List.length tm = n) ->
  Forall (card_ready n) (cards s) ->
  match gps s with Some g => map_ready n g | None => True end ->
  Qt.minimum (fst (op (slider s))) = 0%Z ->
  Qt.maximum (fst (op (slider s))) = (Z.of_nat n - 1)%Z ->
  slider_in_range (fst (op (slider s))) ->
  (snd (op (slider s)) = None \/
   snd (op (slider s)) = Some (Qt.value (fst (op (slider s))))) ->
  snd (with_slider op s) = Ok tt /\
  dashboard_ready n (fst (with_slider op s)) /\
  timer_active (fst (with_slider op s)) = timer_active s /\
  data (fst (with_slider op s)) = data s /\
  slider (fst (with_slider op s)) = fst (op (slider s)).
Proof.
  intros Htm Hcards Hgps Hlo Hhi Hin Hsig.
  unfold with_slider.
  destruct (op (slider s)) as [sl sig]. cbn [fst snd] in *.
  destruct Hsig as [-> | ->].
  - cbn [fst snd]. split; [reflexivity|].
    split; [|repeat split].
    unfold dashboard_ready. cbn. repeat split; try assumption; apply Hin.
  - destruct (update_all_ready n (Qt.value sl) (set_slider sl s))
      as (Hok & Ht & Hs & Ha & Hd & Hc & Hg); try assumption.
    { unfold slider_in_range in Hin. lia. }
    split; [exact Hok|].
    split; [|repeat split; assumption].
    unfold dashboard_ready. rewrite Ht, Hs. cbn [set_slider time slider].
    repeat split; try assumption; apply Hin.
Qed.

(** The slider moved to any requested position. *)
Lemma slide_ready (n : nat) (v : Z) (s : t) :
  dashboard_ready n s ->
  snd (with_slider (Qt.setValue v) s) = Ok tt /\
  dashboard_ready n (fst (with_slider (Qt.setValue v) s)) /\
  timer_active (fst (with_slider (Qt.setValue v) s)) = timer_active s /\
  slider (fst (with_slider (Qt.setValue v) s)) = fst (Qt.setValue v (slider s)).
Proof.
  intros (Htm & Hcards & Hgps & Hlo & Hhi & Hin).
  destruct (setValue_spec v (slider s)) as (S1 & S2 & _ & S4 & S5).
  { unfold slider_in_range in Hin. lia. }
  destruct (with_slider_ready n (Qt.setValue v) s) as (Hok & Hr & Ha & _ & Hs);
    try assumption; try congruence.
  repeat (split; [assumption|]). exact Hs.
Qed.

(** A change of the timer alone. *)
Lemma set_timer_ready (n : nat) (b : bool) (s : t) :
  dashboard_ready n s -> dashboard_ready n (set_timer b s).
Proof.
  intros (Htm & Hcards & Hgps & Hlo & Hhi & Hin).
  unfold dashboard_ready. cbn [set_timer time cards gps slider].
  repeat (split; [assumption|]). exact Hin.
Qed.

(** A timer tick. *)
Lemma tick_ready (n : nat) (s : t) :
  dashboard_ready n s ->
  snd (tick s) = Ok tt /\ dashboard_ready n (fst (tick s)).
Proof.
  intros Hr. unfold tick, mbind, get.
  destruct (timer_active s); [|split; [reflexivity | exact Hr]].
  unfold animate, mbind, get.
  destruct (Qt.value (slider s) + 1 >=? Qt.maximum (slider s))%Z.
  - split; [reflexivity | apply set_timer_ready; exact Hr].
  - destruct (slide_ready n (Qt.value (slider s) + 1) s Hr) as (H1 & H2 & _).
    split; assumption.
Qed.

End V9Ready.

Section V9ReadyProperties.

Import V9.RocketDashboard.

(** X5.  Once V9's dashboard shows a flight of [n] rows, no event makes
    a handler raise, and the dashboard keeps showing [n] rows: the slot
    [update_all] at any row of the flight, the slider moved to any
    requested position (Qt bounds the request to the range), a timer
    tick, and the play and pause buttons. *)
Theorem ready_dashboard_handles_every_event (n : nat) (s : t) :
  dashboard_ready n s ->
  (forall i, (0 <= i < Z.of_nat n)%Z ->
     snd (update_all i s) = Ok tt /\ dashboard_ready n (fst (update_all i s))) /\
  (forall v,
     snd (with_slider (Qt.setValue v) s) = Ok tt /\
     dashboard_ready n (fst (with_slider (Qt.setValue v) s))) /\
  (snd (tick s) = Ok tt /\ dashboard_ready n (fst (tick s))) /\
  (snd (play s) = Ok tt /\ dashboard_ready n (fst (play s))) /\
  (snd (pause s) = Ok tt /\ dashboard_ready n (fst (pause s))).
Proof.
  intros Hr.
  split; [|split; [|split; [|split]]].
  - intros i Hi.
    destruct Hr as (Htm & Hcards & Hgps & Hlo & Hhi & Hin).
    destruct (update_all_ready n i s Htm Hcards Hgps Hi)
      as (Hok & Ht & Hs & _ & _ & Hc & Hg).
    split; [exact Hok|].
    unfold dashboard_ready. rewrite Ht, Hs.
    repeat (split; [assumption|]). exact Hin.
  - intros v. destruct (slide_ready n v s Hr) as (H1 & H2 & _).
    split; assumption.
  - exact (tick_ready n s Hr).
  - split; [reflexivity | exact (set_timer_ready n true s Hr)].
  - split; [reflexivity | exact (set_timer_ready n false s Hr)].
Qed.

End V9ReadyProperties.

Section V9ReadyWitness.
Import V9.RocketDashboard.
(** X5's theorem at the ten-row flight after its load: the slider is
    dragged far past the end, and a timer tick arrives. *)
Lemma ready_dashboard_handles_every_event_witness :
  dashboard_ready 10 ten_rows_loaded /\
  snd (with_slider (Qt.setValue 1000) ten_rows_loaded) = Ok tt /\
  snd (tick (fst (play ten_rows_loaded))) = Ok tt.
Proof.
  assert (R : dashboard_ready 10 ten_rows_loaded).
  { unfold dashboard_ready. vm_compute.
    split; [eexists; split; reflexivity|].
    split.
    { constructor; [|constructor].
      split; [eexists; split; reflexivity|]. split; discriminate. }
    split; [exact I|]. split; [reflexivity|]. split; [reflexivity|].
    split; discriminate. }
  split; [exact R|].
  destruct (ready_dashboard_handles_every_event 10 ten_rows_loaded R)
    as (_ & Hs & _ & (_ & Hp) & _).
  split; [exact (proj1 (Hs 1000%Z))|].
  destruct (ready_dashboard_handles_every_event 10
              (fst (play ten_rows_loaded)) Hp) as (_ & _ & (Ht & _) & _).
  exact Ht.
Defined.

End V9ReadyWitness.

Section V9Load.

Import V9.RocketDashboard.

Lemma lookup_rows (n : nat) (df : DataFrame) (c : string) (v : series) :
  table_rows n df -> lookup df c = Some v -> series_len v = n.
Proof.
  unfold table_rows. induction df as [|[k w] rest IH]; simpl; [discriminate|].
  intros HF. apply Forall_cons_iff in HF. destruct HF as (Hw & Hrest).
  destruct (String.eqb k c).
  - intros H. injection H as <-. exact Hw.
  - apply IH. exact Hrest.
Qed.

Lemma select_number_rows (n : nat) (df : DataFrame) :
  table_rows n df ->
  Forall (fun col => List.length (snd col) = n) (select_number df).
Proof.
  unfold table_rows, select_number.
  induction df as [|[k w] rest IH]; intros HF; simpl; [constructor|].
  apply Forall_cons_iff in HF. destruct HF as (Hw & Hrest).
  destruct w as [v|v]; simpl.
  - constructor; [exact Hw | apply IH; exact Hrest].
  - apply IH; exact Hrest.
Qed.

Lemma cells_length (v : series) : List.length (cells v) = series_len v.
Proof. destruct v; simpl; apply length_map. Qed.

(** The card loop of [load_csv] on columns that have a first sample:
    one card per numeric column other than the time column, in table
    order, appended to the cards. *)
Lemma add_cards_loaded (tc : string) (tm : list Q)
      (phases : list (string * Q)) :
  (1 <= List.length tm)%nat ->
  forall (cols : list (string * list Q)) (s : t),
    Forall (fun col => (1 <= List.length (snd col))%nat) cols ->
    for_ cols (add_card (Some tc) tm phases) s =
    (set_cards
       (cards s ++ map (loaded_card tm phases)
                       (filter (fun col => negb (String.eqb (fst col) tc)) cols))
       s, Ok tt).
Proof.
  intros Htm. induction cols as [|[name d] rest IH]; intros s HF.
  - cbn [for_ filter map]. rewrite app_nil_r. destruct s; reflexivity.
  - inversion HF as [|? ? Hd Hrest]; subst. cbn [snd] in Hd.
    cbn [for_ filter fst]. unfold mbind at 1. unfold add_card at 1.
    cbn [fst snd].
    destruct (String.eqb name tc); cbn [negb].
    + unfold ret. apply IH. exact Hrest.
    + assert (Hcard : mbind (V9.GraphCard.plot tm d)
                        (fun _ => V9.GraphCard.draw_phases phases)
                        (V9.GraphCard.init name)
                      = (loaded_card tm phases (name, d), Ok tt)).
      { unfold mbind at 1.
        assert (Hplot : V9.GraphCard.plot tm d (V9.GraphCard.init name)
                        = (V9.GraphCard.mk name (Some d) (Some tm)
                             (Some (nth 0 tm 0%Q))
                             (Some (nth 0 tm 0%Q, nth 0 d 0%Q)) [], Ok tt)).
        { unfold V9.GraphCard.plot, mbind, modify, lift.
          rewrite (index_ok tm 0 0%Q) by lia.
          rewrite (index_ok d 0 0%Q) by lia.
          reflexivity. }
        rewrite Hplot. rewrite draw_phases_lines. reflexivity. }
      rewrite Hcard. rewrite (IH _ Hrest).
      cbn [cards set_cards map]. rewrite <- app_assoc. reflexivity.
Qed.

(** [update_cursor] changes the cursor and the dot of a card only. *)
Lemma update_cursor_keeps (tv : Q) (i : Z) (c : V9.GraphCard.t) :
  let c' := fst (V9.GraphCard.update_cursor tv i c) in
  V9.GraphCard.title c' = V9.GraphCard.title c /\
  V9.GraphCard.data c' = V9.GraphCard.data c /\
  V9.GraphCard.time c' = V9.GraphCard.time c /\
  V9.GraphCard.phase_lines c' = V9.GraphCard.phase_lines c.
Proof.
  cbv zeta. unfold V9.GraphCard.update_cursor.
  destruct (V9.GraphCard.data c) as [d|] eqn:Ed; [|cbn; rewrite ?Ed; auto].
  unfold mbind, modify, lift.
  destruct (V9.GraphCard.cursor c); [|cbn; rewrite ?Ed; auto].
  destruct (V9.GraphCard.dot c); cbn [attr]; [|cbn; rewrite ?Ed; auto].
  destruct (index d i); cbn; rewrite ?Ed; auto.
Qed.

(** What a card shows apart from its cursor. *)
Lemma for_objs_keeps {O A} (method : M O unit) (f : O -> A) :
  (forall o, f (fst (method o)) = f o) ->
  forall objs, map f (fst (for_objs method objs)) = map f objs.
Proof.
  intros Hf. induction objs as [|o rest IH]; [reflexivity|].
  cbn [for_objs]. specialize (Hf o).
  destruct (method o) as [o' [[]|e]]; cbn [fst] in Hf.
  - destruct (for_objs method rest) as [rest' r]. cbn [fst map] in *.
    rewrite Hf, IH. reflexivity.
  - cbn [fst map]. rewrite Hf. reflexivity.
Qed.

Lemma update_all_keeps {A} (f : V9.GraphCard.t -> A) (i : Z) (s : t) :
  (forall tv c, f (fst (V9.GraphCard.update_cursor tv i c)) = f c) ->
  map f (cards (fst (update_all i s))) = map f (cards s).
Proof.
  intros Hf. unfold update_all, mbind, get, lift.
  destruct (attr (time s)) as [tm|e]; cbn [fst]; [|reflexivity].
  destruct (index tm i) as [tv|e]; cbn [fst]; [|reflexivity].
  pose proof (for_objs_keeps (V9.GraphCard.update_cursor tv i) f (Hf tv) (cards s))
    as Hk.
  destruct (for_objs (V9.GraphCard.update_cursor tv i) (cards s)) as [cs [[]|e]];
    cbn [fst] in *; [|exact Hk].
  cbn [gps set_cards].
  destruct (gps s) as [g|]; [|exact Hk].
  destruct (V9.GPSMap.update_cursor i g) as [g' r]. exact Hk.
Qed.

(** The slot moves the cursor of the GPS map and leaves its path. *)
Lemma update_all_track (i : Z) (s : t) :
  map_track (gps (fst (update_all i s))) = map_track (gps s).
Proof.
  unfold update_all, mbind, get, lift.
  destruct (attr (time s)) as [tm|e]; cbn [fst]; [|reflexivity].
  destruct (index tm i) as [tv|e]; cbn [fst]; [|reflexivity].
  destruct (for_objs (V9.GraphCard.update_cursor tv i) (cards s)) as [cs [[]|e]];
    cbn [fst]; [|reflexivity].
  cbn [gps set_cards].
  destruct (gps s) as [g|] eqn:Eg; [|cbn; rewrite Eg; reflexivity].
  unfold V9.GPSMap.update_cursor, mbind, lift, modify.
  destruct (attr (V9.GPSMap.cursor g)); [|reflexivity].
  destruct (attr (V9.GPSMap.lon g)) as [lo|]; [|reflexivity].
  destruct (index lo i); [|reflexivity].
  destruct (attr (V9.GPSMap.lat g)) as [la|]; [|reflexivity].
  destruct (index la i); reflexivity.
Qed.

End V9Load.

Section V9LoadProperties.

Import V9.RocketDashboard.

(** X4.  V9's [load_csv] on a table in which no column name contains
    "time", or none contains "alt": the call raises [KeyError], and all
    it has done by then is to replace the table.  The cards, the time
    stamps, the GPS map, the slider and the timer are still those of the
    flight shown before. *)
Theorem load_csv_without_time_or_altitude (df : DataFrame) (s : t) :
  detect_scan (columns df) ["time"%string] = None \/
  detect_scan (columns df) ["alt"%string] = None ->
  load_csv df s = (set_data (Some df) s, Raise KeyError) /\
  let s' := fst (load_csv df s) in
  data s' = Some df /\ cards s' = cards s /\ time s' = time s /\
  gps s' = gps s /\ slider s' = slider s /\ timer_active s' = timer_active s.
Proof.
  intros H.
  assert (E : load_csv df s = (set_data (Some df) s, Raise KeyError)).
  { unfold load_csv, mbind, modify, detect, lift. cbn [data set_data].
    destruct (detect_scan (columns df) ["time"%string]) as [tc|] eqn:Et.
    - destruct H as [H|H]; [discriminate|]. rewrite H.
      destruct (detect_scan_getitem df ["time"%string] tc Et) as (v & _ & Hv).
      rewrite Hv. reflexivity.
    - reflexivity. }
  split; [exact E|]. rewrite E. cbn. repeat split.
Qed.

(** X4's theorem at the table without an altitude column, loaded while
    the ten-row flight is shown. *)
Lemma load_csv_without_time_or_altitude_witness :
  snd (load_csv no_altitude ten_rows_loaded) = Raise KeyError /\
  data (fst (load_csv no_altitude ten_rows_loaded)) = Some no_altitude /\
  time (fst (load_csv no_altitude ten_rows_loaded)) = time ten_rows_loaded.
Proof.
  destruct (load_csv_without_time_or_altitude no_altitude ten_rows_loaded)
    as (E & Hd & _ & Ht & _).
  - right. reflexivity.
  - rewrite E at 1. split; [reflexivity|]. split; [exact Hd | exact Ht].
Defined.

(** X6.  V9's [load_csv] on a well-formed table: every column has the
    same number [n] of rows, at least 2, and the detected time and
    altitude columns are numeric; the slider runs on a range from 0.
    The table, the time stamps and the cards are then those of the new
    flight: one card per numeric column other than the time column, in
    table order, holding that column and the phase lines of the new
    flight; the slider runs to the last row.  The GPS map shows the
    "lat" and "lon" columns of the new table when it has both;
    otherwise the map of the earlier flight stays, with its path.  The
    call returns and leaves a dashboard on which no later event raises
    provided the table has both GPS columns, or there was no map, or
    the map that stays holds at least [n] positions: a load alone does
    not give that. *)
Theorem load_csv_shows_the_flight
        (df : DataFrame) (s : t) (n : nat) (tc ac : string) (tm al : list Q) :
  table_rows n df -> (2 <= n)%nat ->
  detect_scan (columns df) ["time"%string] = Some tc ->
  lookup df tc = Some (Numeric tm) ->
  detect_scan (columns df) ["alt"%string] = Some ac ->
  lookup df ac = Some (Numeric al) ->
  Qt.minimum (slider s) = 0%Z -> slider_in_range (slider s) ->
  let s' := fst (load_csv df s) in
  exists phases,
    detect_phases tm al = Ok phases /\
    data s' = Some df /\
    time s' = Some tm /\
    timer_active s' = timer_active s /\
    map (fun c => (V9.GraphCard.title c, V9.GraphCard.data c,
                   V9.GraphCard.phase_lines c)) (cards s')
    = map (fun col => (fst col, Some (snd col), phases))
          (filter (fun col => negb (String.eqb (fst col) tc))
                  (select_number df)) /\
    map_track (gps s')
    = match detect_scan (columns df) ["lat"%string],
            detect_scan (columns df) ["lon"%string] with
      | Some la, Some lo =>
          Some (Some (column_cells df la), Some (column_cells df lo))
      | _, _ => map_track (gps s)
      end /\
    slider s' = fst (Qt.setMaximum (Z.of_nat n - 1) (slider s)) /\
    Qt.maximum (slider s') = (Z.of_nat n - 1)%Z /\
    (((detect_scan (columns df) ["lat"%string] <> None /\
       detect_scan (columns df) ["lon"%string] <> None) \/
      match gps s with Some g => map_ready n g | None => True end) ->
     snd (load_csv df s) = Ok tt /\ dashboard_ready n s').
Proof.
  intros Hrows H2 Ht Htm Ha Hal Hmin Hin. cbv zeta.
  assert (Ltm : List.length tm = n) by exact (lookup_rows n df tc _ Hrows Htm).
  assert (Lal : List.length al = n) by exact (lookup_rows n df ac _ Hrows Hal).
  destruct (detect_phases_ok tm al) as (p & _ & Hph); [lia | lia |].
  eexists. split; [exact Hph|].
  match type of Hph with _ = Ok ?m => set (phases := m) in * end.
  set (cards1 := map (loaded_card tm phases)
                     (filter (fun col => negb (String.eqb (fst col) tc))
                             (select_number df))).
  assert (Hcards1 : Forall (card_ready n) cards1).
  { unfold cards1. apply Forall_map. apply Forall_forall.
    intros col Hcol. apply filter_In in Hcol. destruct Hcol as (Hcol & _).
    pose proof (select_number_rows n df Hrows) as HF.
    rewrite Forall_forall in HF. specialize (HF col Hcol).
    unfold card_ready, loaded_card. cbn.
    split; [exists (snd col); auto | split; discriminate]. }
  (* the GPS map *)
  set (s2 := mk (Some df) cards1 (gps s) (time s) (slider s) (timer_active s)).
  set (track := match detect_scan (columns df) ["lat"%string],
                      detect_scan (columns df) ["lon"%string] with
                | Some la, Some lo =>
                    Some (Some (column_cells df la), Some (column_cells df lo))
                | _, _ => map_track (gps s)
                end).
  set (kept := (detect_scan (columns df) ["lat"%string] <> None /\
                detect_scan (columns df) ["lon"%string] <> None) \/
               match gps s with Some g => map_ready n g | None => True end).
  assert (Hmap : exists s3,
    match detect_scan (columns df) ["lat"%string],
          detect_scan (columns df) ["lon"%string] with
    | Some _, Some _ =>
        mbind (modify (set_gps (Some V9.GPSMap.init))) (fun _ =>
        mbind (lift (getitem df (detect_scan (columns df) ["lat"%string])))
          (fun la =>
        mbind (lift (getitem df (detect_scan (columns df) ["lon"%string])))
          (fun lo =>
           fun s0 => let (g', r) := V9.GPSMap.plot (cells la) (cells lo)
                                                   V9.GPSMap.init
                     in (set_gps (Some g') s0, r))))
    | _, _ => ret tt
    end s2 = (s3, Ok tt) /\
    data s3 = Some df /\ cards s3 = cards1 /\ time s3 = time s /\
    slider s3 = slider s /\ timer_active s3 = timer_active s /\
    map_track (gps s3) = track /\
    (kept -> match gps s3 with Some g => map_ready n g | None => True end)).
  { unfold track, kept.
    destruct (detect_scan (columns df) ["lat"%string]) as [lac|] eqn:Ela;
      [destruct (detect_scan (columns df) ["lon"%string]) as [loc|] eqn:Elo|].
    - destruct (detect_scan_getitem df _ lac Ela) as (la & Hla & Gla).
      destruct (detect_scan_getitem df _ loc Elo) as (lo & Hlo & Glo).
      pose proof (lookup_rows n df lac la Hrows Hla) as Lla.
      pose proof (lookup_rows n df loc lo Hrows Hlo) as Llo.
      unfold mbind, modify, lift. rewrite Gla, Glo.
      unfold V9.GPSMap.plot, mbind, modify, lift.
      rewrite (index_ok (cells lo) 0 (CNum 0%Q)) by (rewrite cells_length; lia).
      rewrite (index_ok (cells la) 0 (CNum 0%Q)) by (rewrite cells_length; lia).
      eexists. split; [reflexivity|]. cbn.
      repeat (split; [reflexivity|]).
      split; [unfold column_cells; rewrite Hla, Hlo; reflexivity|].
      intros _. unfold map_ready. cbn. split; [discriminate|].
      split; eexists; (split; [reflexivity | rewrite cells_length; lia]).
    - exists s2. split; [reflexivity|]. cbn.
      repeat (split; [reflexivity|]).
      intros [(_ & Hc)|Hg]; [congruence | exact Hg].
    - exists s2. split; [reflexivity|]. cbn.
      repeat (split; [reflexivity|]).
      intros [(Hc & _)|Hg]; [congruence | exact Hg]. }
  fold track. fold kept.
  destruct Hmap as (s3 & E3 & D3 & C3 & T3 & S3 & A3 & K3 & G3).
  set (s4 := set_time (Some tm) s3).
  assert (E : load_csv df s
              = with_slider (Qt.setMaximum (Z.of_nat (List.length tm) - 1)) s4).
  { unfold load_csv.
    unfold mbind at 1. unfold modify at 1.
    unfold mbind at 1. unfold detect at 1. cbn [data set_data]. rewrite Ht.
    unfold mbind at 1. unfold detect at 1. cbn [data set_data]. rewrite Ha.
    unfold mbind at 1. unfold lift at 1. unfold getitem at 1. rewrite Htm.
    unfold mbind at 1. unfold lift at 1. unfold getitem at 1. rewrite Hal.
    unfold mbind at 1. unfold lift at 1. cbn [detect_phases_values].
    rewrite Hph.
    unfold mbind at 1. unfold lift at 1. cbn [as_float].
    unfold mbind at 1. unfold modify at 1.
    unfold mbind at 1.
    rewrite (add_cards_loaded tc tm phases ltac:(lia)).
    2:{ eapply Forall_impl; [|exact (select_number_rows n df Hrows)].
        cbv beta. intros col Hc. lia. }
    cbn [cards set_cards app]. fold cards1.
    unfold mbind at 1. unfold detect at 1. cbn [data set_data set_cards].
    unfold mbind at 1. unfold detect at 1. cbn [data set_data set_cards].
    unfold mbind at 1.
    change (set_cards cards1 (set_cards [] (set_data (Some df) s))) with s2.
    rewrite E3.
    unfold mbind at 1. unfold modify at 1. reflexivity. }
  rewrite E. clear E. rewrite Ltm.
  set (op := Qt.setMaximum (Z.of_nat n - 1)).
  (* what the slot cannot change *)
  destruct (with_slider_frame op s4) as (F1 & F2 & F3 & F4).
  cbv zeta in F1, F2, F3, F4.
  destruct (setMaximum_spec (Z.of_nat n - 1) (slider s)
              Hmin ltac:(lia) Hin) as (M1 & M2 & _ & M4 & M5).
  split; [rewrite F3; unfold s4; cbn; exact D3|].
  split; [rewrite F4; reflexivity|].
  split; [rewrite F2; unfold s4; cbn; exact A3|].
  split.
  { (* the cards keep title, data and phase lines through the slot *)
    assert (Hkeep : map (fun c => (V9.GraphCard.title c, V9.GraphCard.data c,
                                   V9.GraphCard.phase_lines c))
                        (cards (fst (with_slider op s4)))
                    = map (fun c => (V9.GraphCard.title c, V9.GraphCard.data c,
                                     V9.GraphCard.phase_lines c)) cards1).
    { unfold with_slider.
      destruct (op (slider s4)) as [sl [v|]].
      - rewrite update_all_keeps.
        + unfold s4. cbn. rewrite C3. reflexivity.
        + intros tv c.
          destruct (update_cursor_keeps tv v c) as (K1 & K2 & _ & K4).
          cbv zeta in *. rewrite K1, K2, K4. reflexivity.
      - unfold s4. cbn. rewrite C3. reflexivity. }
    rewrite Hkeep. unfold cards1. rewrite map_map. reflexivity. }
  split.
  { (* the path of the map *)
    rewrite <- K3. unfold with_slider.
    destruct (op (slider s4)) as [sl [v|]].
    - rewrite update_all_track. reflexivity.
    - reflexivity. }
  split; [rewrite F1; unfold s4; cbn; rewrite S3; reflexivity|].
  split; [rewrite F1; unfold s4; cbn; rewrite S3; exact M2|].
  (* with a map that fits, the call returns and the dashboard is ready *)
  intros Hkept. specialize (G3 Hkept).
  destruct (with_slider_ready n op s4) as (Hok & Hready & _).
  { exists tm. split; [reflexivity | exact Ltm]. }
  { unfold s4. cbn. rewrite C3. exact Hcards1. }
  { unfold s4. cbn. exact G3. }
  { unfold s4. cbn. rewrite S3. exact M1. }
  { unfold s4. cbn. rewrite S3. exact M2. }
  { unfold s4. cbn. rewrite S3. exact M4. }
  { unfold s4. cbn. rewrite S3. exact M5. }
  split; [exact Hok | exact Hready].
Qed.

(** X6's theorem at a reload of the second flight (8 rows) while the
    ten-row flight plays at row 5. *)
Lemma load_csv_shows_the_flight_witness :
  snd (load_csv second_flight playing_at_5) = Ok tt /\
  dashboard_ready 8 (fst (load_csv second_flight playing_at_5)) /\
  map V9.GraphCard.title (cards (fst (load_csv second_flight playing_at_5)))
    = ["alt"%string].
Proof.
  destruct (load_csv_shows_the_flight second_flight playing_at_5 8
              "time" "alt"
              (samples [0; 1; 2; 3; 4; 5; 6; 7]%Z)
              (samples [0; 20; 50; 30; 10; 3; 1; 0]%Z))
    as (phases & _ & _ & _ & _ & Hc & _ & _ & _ & Hr).
  - unfold table_rows. repeat constructor.
  - lia.
  - reflexivity.
  - reflexivity.
  - reflexivity.
  - reflexivity.
  - vm_compute. reflexivity.
  - unfold slider_in_range. vm_compute. split; discriminate.
  - destruct Hr as (Hok & Hready); [right; vm_compute; exact I|].
    split; [exact Hok|]. split; [exact Hready|].
    apply (f_equal (map (fun x => fst (fst x)))) in Hc.
    rewrite !map_map in Hc. cbn [fst] in Hc. exact Hc.
Defined.

End V9LoadProperties.

(* ================================================================== *)
(** * Playback runs *)
(* ================================================================== *)

Section PlaybackRuns.

Import V9.RocketDashboard.

(** One tick of V9 while playing, on a dashboard that shows a flight. *)
Lemma tick_playing (n : nat) (s : t) :
  dashboard_ready n s -> timer_active s = true ->
  let s' := fst (tick s) in
  dashboard_ready n s' /\
  if (Qt.value (slider s) + 1 >=? Z.of_nat n - 1)%Z
  then Qt.value (slider s') = Qt.value (slider s) /\ timer_active s' = false
  else Qt.value (slider s') = (Qt.value (slider s) + 1)%Z /\
       timer_active s' = true.
Proof.
  intros Hr Hact. cbv zeta.
  split; [exact (proj2 (tick_ready n s Hr))|].
  destruct Hr as (_ & _ & _ & _ & Hhi & Hin).
  unfold tick, mbind, get. cbn [fst]. rewrite Hact.
  destruct (animate_step s Hin) as (_ & _ & Hstep).
  cbv zeta in Hstep. rewrite Hhi in Hstep.
  destruct (Qt.value (slider s) + 1 >=? Z.of_nat n - 1)%Z.
  - exact Hstep.
  - destruct Hstep as (Hv & Ht). split; congruence.
Qed.

(** Ticks change nothing once the timer is stopped. *)
Lemma repeat_tick_stopped (k : nat) (s : t) :
  timer_active s = false -> repeat_call k tick s = s.
Proof.
  intros Hact. induction k as [|k IH]; [reflexivity|].
  cbn [repeat_call]. unfold tick at 2, mbind, get. rewrite Hact.
  cbn [fst ret]. exact IH.
Qed.

End PlaybackRuns.

Section PlaybackRunProperties.

Import V9.RocketDashboard.

(** X7.  A playback run of V9 (V7, V8, V10, V11 and V12b have the same
    [animate]).  On a dashboard that shows a flight of [n] rows, playing
    from row [v]: each of the first ticks moves the cursor one row up,
    as long as the row reached is at most [n-2]; the tick after that
    stops the timer without moving, and later ticks change nothing.  The
    run ends on row [n-2] (or on [v], if it started beyond): playback
    never shows the last row.  The dashboard keeps showing the flight
    throughout. *)
Theorem playback_stops_before_last_row (n k : nat) (s : t) :
  dashboard_ready n s -> timer_active s = true ->
  let v := Qt.value (slider s) in
  let s' := repeat_call k tick s in
  dashboard_ready n s' /\
  ((v + Z.of_nat k <= Z.of_nat n - 2)%Z ->
   Qt.value (slider s') = (v + Z.of_nat k)%Z /\ timer_active s' = true) /\
  ((v + Z.of_nat k > Z.of_nat n - 2)%Z -> (1 <= k)%nat ->
   Qt.value (slider s') = Z.max v (Z.of_nat n - 2) /\
   timer_active s' = false).
Proof.
  cbv zeta. revert s. induction k as [|k IH]; intros s Hr Hact.
  - cbn [repeat_call]. split; [exact Hr|]. split.
    + intros _. split; [lia | exact Hact].
    + intros _ H. lia.
  - cbn [repeat_call].
    destruct (tick_playing n s Hr Hact) as (Hr1 & Hstep). cbv zeta in Hstep.
    destruct (Z.geb_spec (Qt.value (slider s) + 1) (Z.of_nat n - 1)) as [Hge|Hlt];
      destruct Hstep as (Hv & Ht).
    + rewrite (repeat_tick_stopped k _ Ht).
      split; [exact Hr1|]. split.
      * intros H. lia.
      * intros _ _. split; [lia | exact Ht].
    + destruct (IH (fst (tick s)) Hr1 Ht) as (Hr' & Hrun & Hstop).
      rewrite Hv in Hrun, Hstop.
      split; [exact Hr'|]. split.
      * intros H. destruct Hrun as (H1 & H2); [lia|].
        split; [lia | exact H2].
      * intros H _. destruct Hstop as (H1 & H2); [lia | |].
        -- destruct k; [lia | lia].
        -- split; [lia | exact H2].
Qed.

(** X7's theorem at the ten-row flight played from row 0: nine ticks end
    on row 8 with the timer stopped. *)
Lemma playback_stops_before_last_row_witness :
  Qt.value (slider (repeat_call 9 tick (fst (play ten_rows_loaded)))) = 8%Z /\
  timer_active (repeat_call 9 tick (fst (play ten_rows_loaded))) = false.
Proof.
  assert (R : dashboard_ready 10 (fst (play ten_rows_loaded))).
  { unfold dashboard_ready. vm_compute.
    split; [eexists; split; reflexivity|].
    split.
    { constructor; [|constructor].
      split; [eexists; split; reflexivity|]. split; discriminate. }
    split; [exact I|]. split; [reflexivity|]. split; [reflexivity|].
    split; discriminate. }
  destruct (playback_stops_before_last_row 10 9 (fst (play ten_rows_loaded)) R
              eq_refl) as (_ & _ & Hstop).
  destruct Hstop as (Hv & Ht).
  - vm_compute. reflexivity.
  - lia.
  - split; [exact Hv | exact Ht].
Defined.

(** X8.  A playback run of V8b.  Playing from row [v] of a slider in
    its range: each tick moves the cursor one row up until the last row
    (the slider's maximum) is shown, with the timer still running; the
    tick after that stops the timer and leaves the cursor on the last
    row; the range never changes. *)
Theorem V8b_playback_reaches_last_row (k : nat) (s : V8b.RocketDashboard.t) :
  slider_in_range (V8b.RocketDashboard.slider s) ->
  V8b.RocketDashboard.timer_active s = true ->
  let v := Qt.value (V8b.RocketDashboard.slider s) in
  let m := Qt.maximum (V8b.RocketDashboard.slider s) in
  let s' := Nat.iter k V8b.RocketDashboard.tick s in
  Qt.minimum (V8b.RocketDashboard.slider s')
    = Qt.minimum (V8b.RocketDashboard.slider s) /\
  Qt.maximum (V8b.RocketDashboard.slider s') = m /\
  ((v + Z.of_nat k <= m)%Z ->
   Qt.value (V8b.RocketDashboard.slider s') = (v + Z.of_nat k)%Z /\
   V8b.RocketDashboard.timer_active s' = true) /\
  ((v + Z.of_nat k > m)%Z ->
   Qt.value (V8b.RocketDashboard.slider s') = m /\
   V8b.RocketDashboard.timer_active s' = false).
Proof.
  intros Hin Hact. cbv zeta.
  induction k as [|k IH].
  - change (Nat.iter 0 V8b.RocketDashboard.tick s) with s.
    unfold slider_in_range in Hin.
    split; [reflexivity|]. split; [reflexivity|]. split.
    + intros _. split; [lia | exact Hact].
    + intros H. lia.
  - rewrite Nat.iter_succ.
    set (sk := Nat.iter k V8b.RocketDashboard.tick s) in *.
    destruct IH as (Hlo & Hhi & Hrun & Hstop).
    destruct (Z.le_gt_cases (Qt.value (V8b.RocketDashboard.slider s)
                             + Z.of_nat k)
                            (Qt.maximum (V8b.RocketDashboard.slider s)))
      as [Hle|Hgt].
    + destruct (Hrun Hle) as (Hv & Ht).
      destruct (V8b_tick_step sk) as (S1 & S2 & S3).
      { unfold slider_in_range in *. lia. }
      { exact Ht. }
      cbv zeta in S1, S2, S3. rewrite Hhi, Hv in S3.
      split; [congruence|]. split; [congruence|].
      destruct (Z.ltb_spec (Qt.value (V8b.RocketDashboard.slider s)
                            + Z.of_nat k)
                           (Qt.maximum (V8b.RocketDashboard.slider s)));
        destruct S3 as (S3 & S4); split; intros H'; try lia;
        (split; [lia | exact S4]).
    + destruct (Hstop ltac:(lia)) as (Hv & Ht).
      assert (E : V8b.RocketDashboard.tick sk = sk).
      { unfold V8b.RocketDashboard.tick. rewrite Ht. reflexivity. }
      rewrite E.
      split; [exact Hlo|]. split; [exact Hhi|].
      split; intros H'; [lia | split; assumption].
Qed.

(** X8's theorem at a ten-row timeline played from row 3. *)
Lemma V8b_playback_reaches_last_row_witness :
  Nat.iter 7 V8b.RocketDashboard.tick
    (V8b.RocketDashboard.mk (Qt.mkSlider 0 9 3) true)
  = V8b.RocketDashboard.mk (Qt.mkSlider 0 9 9) false.
Proof.
  destruct (V8b_playback_reaches_last_row 7
              (V8b.RocketDashboard.mk (Qt.mkSlider 0 9 3) true))
    as (Hlo & Hhi & _ & Hstop).
  - unfold slider_in_range. simpl. lia.
  - reflexivity.
  - destruct Hstop as (Hv & Ht); [simpl; lia|].
    destruct (Nat.iter 7 V8b.RocketDashboard.tick _) as [[lo hi v] act].
    simpl in *. congruence.
Defined.

End PlaybackRunProperties.

Section FullPlayback.

Import Full.RocketDashboard.

Lemma gauge_update_keeps (P : t -> Prop) (col : option string) (r : row)
      (ratio : Q) (proj : t -> Full.HUDGauge.t)
      (upd : Full.HUDGauge.t -> t -> t) (st : t) :
  (forall g st0, P st0 -> P (upd g st0)) ->
  P st -> P (fst (gauge_update col r ratio proj upd st)).
Proof.
  intros Hupd Hst. unfold gauge_update.
  destruct col as [c|]; [|exact Hst].
  apply mbind_keeps; [exact Hst|].
  intros v s1 H1. unfold on_attr.
  destruct (Full.HUDGauge.set_value v ratio (proj s1)) as [g' res].
  apply Hupd. exact H1.
Qed.

(** The [try] block of [slider_moved] changes the views only. *)
Lemma slider_moved_body_keeps (P : t -> Prop) (i : Z) (df : DataFrame)
      (s : t) :
  views_only P -> P s -> P (fst (slider_moved_body i df s)).
Proof.
  intros (Hbg & Hcl & Hdots & Halt & Hvel & Hservo & Hyaw & Hsp & Htel) Hs.
  unfold slider_moved_body.
  apply mbind_keeps; [exact Hs|]. intros r s1 H1.
  apply mbind_keeps; [exact H1|]. intros s0 s2 H2.
  apply mbind_keeps; [exact H2|]. intros t_val s3 H3.
  apply mbind_keeps; [apply Hbg; exact H3|]. intros _ s4 H4.
  apply mbind_keeps; [exact H4|]. intros _ s5 H5.
  apply mbind_keeps; [apply Hcl; exact H5|]. intros _ s6 H6.
  apply mbind_keeps.
  { destruct (move_dots r t_val (intersection_dots s6)) as [ds res].
    apply Hdots. exact H6. }
  intros _ s7 H7.
  apply mbind_keeps.
  { destruct (vel_col (ch s0)); [|exact H7].
    apply mbind_keeps; [exact H7|]. intros col sa Ha.
    destruct col; exact Ha. }
  intros v_max s8 H8.
  apply mbind_keeps.
  { destruct (vel_col (ch s0)); [|exact H8].
    destruct (negb (Qeq_bool v_max 0)); [|exact H8].
    apply mbind_keeps; [exact H8|]. intros c sa Ha.
    apply mbind_keeps; [exact Ha|]. intros x sb Hb. exact Hb. }
  intros v_ratio s9 H9.
  apply mbind_keeps; [apply gauge_update_keeps; assumption|]. intros _ s10 H10.
  apply mbind_keeps; [apply gauge_update_keeps; assumption|]. intros _ s11 H11.
  apply mbind_keeps; [apply gauge_update_keeps; assumption|]. intros _ s12 H12.
  apply mbind_keeps; [apply gauge_update_keeps; assumption|]. intros _ s13 H13.
  apply mbind_keeps; [apply gauge_update_keeps; assumption|]. intros _ s14 H14.
  apply mbind_keeps; [exact H14|]. intros tv s15 H15.
  apply mbind_keeps; [exact H15|]. intros alt s16 H16.
  apply Htel. exact H16.
Qed.

(** The slot [slider_moved] leaves the slider, the timer, the table and
    the channels alone. *)
Lemma slider_moved_frame (i : Z) (s : t) :
  let s' := fst (slider_moved i s) in
  slider s' = slider s /\ timer_active s' = timer_active s /\
  data s' = data s /\ ch s' = ch s.
Proof.
  cbv zeta. unfold slider_moved.
  destruct (data s) as [df|] eqn:Ed; [|cbn; rewrite Ed; auto].
  destruct (negb (current_ax s)); [cbn; rewrite Ed; auto|].
  assert (H : (fun st => slider st = slider s /\ timer_active st = timer_active s
                         /\ data st = Some df /\ ch st = ch s)
                (fst (slider_moved_body i df s))).
  { apply slider_moved_body_keeps; [|auto].
    unfold views_only.
    repeat (split; [intros x st (H1 & H2 & H3 & H4); cbn; auto|]).
    intros x st (H1 & H2 & H3 & H4); cbn; auto. }
  cbv beta in H. unfold try_pass.
  destruct (slider_moved_body i df s) as [s' [[]|e]]; exact H.
Qed.

(** One step of the timer slot: the value goes up by one below the
    maximum; at the maximum the playback is toggled.  The call
    returns. *)
Lemma step_forward_step (s : t) :
  slider_in_range (slider s) ->
  snd (step_forward s) = Ok tt /\
  Qt.minimum (slider (fst (step_forward s))) = Qt.minimum (slider s) /\
  Qt.maximum (slider (fst (step_forward s))) = Qt.maximum (slider s) /\
  if (Qt.value (slider s) <? Qt.maximum (slider s))%Z
  then Qt.value (slider (fst (step_forward s))) = (Qt.value (slider s) + 1)%Z /\
       timer_active (fst (step_forward s)) = timer_active s
  else Qt.value (slider (fst (step_forward s))) = Qt.value (slider s) /\
       timer_active (fst (step_forward s)) = negb (timer_active s).
Proof.
  intros Hin. unfold slider_in_range in Hin.
  unfold step_forward, mbind, get.
  destruct (Z.ltb_spec (Qt.value (slider s)) (Qt.maximum (slider s))) as [Hlt|Hge].
  - unfold with_slider.
    destruct (setValue_spec (Qt.value (slider s) + 1) (slider s) ltac:(lia))
      as (S1 & S2 & S3 & _ & _).
    cbv zeta in S1, S2, S3. unfold Qt.bound in S3.
    destruct (Qt.setValue (Qt.value (slider s) + 1) (slider s)) as [sl [v|]];
      cbn [fst snd] in *.
    + destruct (slider_moved_frame v (set_slider sl s)) as (F1 & F2 & _).
      cbv zeta in F1, F2. rewrite F1, F2.
      split; [apply slider_moved_returns|].
      cbn [set_slider slider timer_active].
      repeat split; try assumption; lia.
    + split; [reflexivity|]. cbn [set_slider slider timer_active].
      repeat split; try assumption; lia.
  - unfold toggle_playback, mbind, get.
    destruct (timer_active s); cbn; auto.
Qed.

End FullPlayback.

Section FullPlaybackProperties.

Import Full.RocketDashboard.

(** X13.  A playback run of the full dashboard.  Playing from row [v]
    of a slider in its range, every tick returns, whatever the views do
    with the row (the slot swallows their exceptions).  Each tick moves
    the cursor one row up until the last row (the slider's maximum) is
    shown, with the timer still running; the tick after that stops the
    timer and leaves the cursor on the last row; later ticks change
    nothing of the slider and the timer. *)
Theorem full_playback_reaches_last_row (k : nat) (s : t) :
  slider_in_range (slider s) -> timer_active s = true ->
  let v := Qt.value (slider s) in
  let m := Qt.maximum (slider s) in
  let s' := repeat_call k tick s in
  snd (tick s') = Ok tt /\
  Qt.minimum (slider s') = Qt.minimum (slider s) /\
  Qt.maximum (slider s') = m /\
  ((v + Z.of_nat k <= m)%Z ->
   Qt.value (slider s') = (v + Z.of_nat k)%Z /\ timer_active s' = true) /\
  ((v + Z.of_nat k > m)%Z ->
   Qt.value (slider s') = m /\ timer_active s' = false).
Proof.
  cbv zeta. revert s. induction k as [|k IH]; intros s Hin Hact.
  - cbn [repeat_call].
    split.
    { unfold tick, mbind, get. rewrite Hact.
      exact (proj1 (step_forward_step s Hin)). }
    unfold slider_in_range in Hin.
    split; [reflexivity|]. split; [reflexivity|]. split.
    + intros _. split; [lia | exact Hact].
    + intros H. lia.
  - cbn [repeat_call].
    assert (Et : fst (tick s) = fst (step_forward s)).
    { unfold tick, mbind, get. rewrite Hact. reflexivity. }
    rewrite Et.
    destruct (step_forward_step s Hin) as (_ & S1 & S2 & S3).
    rewrite Hact in S3. cbn [negb] in S3.
    set (s1 := fst (step_forward s)) in *.
    assert (Hin1 : slider_in_range (slider s1)).
    { unfold slider_in_range in *. rewrite S1, S2.
      destruct (Z.ltb_spec (Qt.value (slider s)) (Qt.maximum (slider s)));
        destruct S3 as (S3 & _); lia. }
    destruct (Z.ltb_spec (Qt.value (slider s)) (Qt.maximum (slider s)))
      as [Hlt|Hge]; destruct S3 as (Hv & Ht).
    + destruct (IH s1 Hin1 Ht) as (I0 & I1 & I2 & I3 & I4).
      rewrite S1, S2, Hv in *.
      split; [exact I0|]. split; [exact I1|]. split; [exact I2|].
      split; intros H.
      * destruct I3 as (H1 & H2); [lia|]. split; [lia | exact H2].
      * destruct I4 as (H1 & H2); [lia|]. split; [exact H1 | exact H2].
    + assert (Eidle : forall j, repeat_call j tick s1 = s1).
      { induction j as [|j IHj]; [reflexivity|].
        cbn [repeat_call]. unfold tick at 2, mbind, get. rewrite Ht.
        cbn [fst ret]. exact IHj. }
      rewrite Eidle.
      split.
      { unfold tick, mbind, get. rewrite Ht. reflexivity. }
      unfold slider_in_range in Hin.
      split; [exact S1|]. split; [exact S2|].
      split; intros H; [lia | split; [lia | exact Ht]].
Qed.

(** X13's theorem at the dashboard with the stale pressure dot, whose
    slot fails at every row: played from row 0 of its four rows, the
    cursor is on the last row after three ticks and the timer is off
    after the fourth. *)
Lemma full_playback_reaches_last_row_witness :
  Qt.value (slider (repeat_call 3 tick (set_timer true stale_dots_dashboard)))
    = 3%Z /\
  timer_active (repeat_call 4 tick (set_timer true stale_dots_dashboard))
    = false.
Proof.
  split.
  - destruct (full_playback_reaches_last_row 3
                (set_timer true stale_dots_dashboard))
      as (_ & _ & _ & Hrun & _).
    + unfold slider_in_range. simpl. lia.
    + reflexivity.
    + destruct Hrun as (Hv & _); [simpl; lia | exact Hv].
  - destruct (full_playback_reaches_last_row 4
                (set_timer true stale_dots_dashboard))
      as (_ & _ & _ & _ & Hstop).
    + unfold slider_in_range. simpl. lia.
    + reflexivity.
    + destruct Hstop as (_ & Ht); [simpl; lia | exact Ht].
Defined.

End FullPlaybackProperties.

(* ================================================================== *)
(** * Loaders and column classification (V1, V3, V6, the full dashboard) *)
(* ================================================================== *)

Section LoaderFacts.

Lemma find_app_last {A} (p : A -> bool) (l : list A) (x : A) :
  find p (l ++ [x]) =
  match find p l with
  | Some a => Some a
  | None => if p x then Some x else None
  end.
Proof.
  induction l as [|a l IH]; cbn [app find].
  - reflexivity.
  - destruct (p a); [reflexivity | exact IH].
Qed.

(** The last match of a list with one more element in front. *)
Lemma last_match_cons {A} (p : A -> bool) (x : A) (l : list A) :
  last_match p (x :: l) =
  match last_match p l with
  | Some a => Some a
  | None => if p x then Some x else None
  end.
Proof. unfold last_match. cbn [rev]. apply find_app_last. Qed.

Lemma last_match_some {A} (p : A -> bool) (l : list A) (c : A) :
  last_match p l = Some c ->
  p c = true /\
  exists before after, l = (before ++ c :: after)%list /\
                       Forall (fun x => p x = false) after.
Proof.
  induction l as [|x l IH]; [discriminate|].
  rewrite last_match_cons.
  destruct (last_match p l) as [a|] eqn:E.
  - intros H. injection H as ->.
    destruct (IH eq_refl) as (Hp & before & after & -> & HF).
    split; [exact Hp|]. exists (x :: before), after. split; [reflexivity | exact HF].
  - destruct (p x) eqn:Ex; [|discriminate].
    intros H. injection H as <-. split; [exact Ex|].
    exists [], l. split; [reflexivity|].
    clear IH. unfold last_match in E.
    apply Forall_forall. intros y Hy.
    destruct (p y) eqn:Ey; [|reflexivity].
    pose proof (find_none p (rev l) E y) as Hn.
    rewrite <- in_rev in Hn. specialize (Hn Hy). congruence.
Qed.

Lemma last_match_none {A} (p : A -> bool) (l : list A) :
  last_match p l = None <-> Forall (fun x => p x = false) l.
Proof.
  unfold last_match. split.
  - intros E. apply Forall_forall. intros y Hy.
    apply (find_none p (rev l) E y). rewrite <- in_rev. exact Hy.
  - intros HF. destruct (find p (rev l)) as [a|] eqn:E; [|reflexivity].
    apply find_some in E. destruct E as (Hin & Hp).
    rewrite <- in_rev in Hin. rewrite Forall_forall in HF.
    rewrite (HF a Hin) in Hp. discriminate.
Qed.

Lemma time_name_not_empty (c : string) :
  is_time_name c = true -> String.eqb c "" = false.
Proof. destruct c; [discriminate | reflexivity]. Qed.

Lemma time_name_differs (c tc : string) :
  is_time_name c = false -> is_time_name tc = true -> String.eqb c tc = false.
Proof.
  intros Hc Ht. destruct (String.eqb_spec c tc) as [->|]; [congruence | reflexivity].
Qed.

End LoaderFacts.

Section V1Load.

(** The column check of V1's [load_data]. *)
Lemma required_check (df : DataFrame) (cols : list string)
      (s : V1.RocketDashboard.t) :
  for_ cols (fun col => if negb (has_column df col)
                        then raise ValueError else ret tt) s
  = (s, if forallb (has_column df) cols then Ok tt else Raise ValueError).
Proof.
  induction cols as [|c rest IH]; cbn [for_ forallb]; [reflexivity|].
  unfold mbind at 1.
  destruct (has_column df c); cbn [negb andb]; [exact IH | reflexivity].
Qed.

(** X9.  V1's [load_data] and its required columns.  When one of
    "time", "pitch", "roll", "yaw", "altitude", "velocity" is not a
    column of the table, the call raises [ValueError]; by then it has
    replaced the table and nothing else: the slider keeps the range and
    the position of the earlier flight.  When all six are there, the
    check passes and the call goes on to the slider, starting with its
    maximum. *)
Theorem load_data_requires_six_columns
        (df : DataFrame) (s : V1.RocketDashboard.t) :
  (forall c, In c V1.RocketDashboard.required -> has_column df c = false ->
     V1.RocketDashboard.load_data df s
     = (V1.RocketDashboard.set_data (Some df) s, Raise ValueError)) /\
  (Forall (fun c => has_column df c = true) V1.RocketDashboard.required ->
   V1.RocketDashboard.load_data df s
   = mbind (V1.RocketDashboard.with_slider
              (Qt.setMaximum (Z.of_nat (len df) - 1)))
           (fun _ => V1.RocketDashboard.with_slider (Qt.setValue 0))
           (V1.RocketDashboard.set_data (Some df) s)).
Proof.
  split.
  - intros c Hin Hc.
    unfold V1.RocketDashboard.load_data.
    unfold mbind at 1. unfold modify at 1.
    unfold mbind at 1. rewrite required_check.
    assert (E : forallb (has_column df) V1.RocketDashboard.required = false).
    { destruct (forallb (has_column df) V1.RocketDashboard.required) eqn:E;
        [|reflexivity].
      rewrite forallb_forall in E. rewrite (E c Hin) in Hc. discriminate. }
    rewrite E. reflexivity.
  - intros HF.
    unfold V1.RocketDashboard.load_data.
    unfold mbind at 1. unfold modify at 1.
    unfold mbind at 1. rewrite required_check.
    assert (E : forallb (has_column df) V1.RocketDashboard.required = true).
    { apply forallb_forall. rewrite Forall_forall in HF. exact HF. }
    rewrite E. reflexivity.
Qed.

(** X9's theorem at a table that lacks only the yaw column, which no
    label of V1 shows. *)
Lemma load_data_requires_six_columns_witness :
  V1.RocketDashboard.load_data (filter (fun p => negb (String.eqb (fst p) "yaw"))
                                       v1_flight)
    V1.RocketDashboard.init
  = (V1.RocketDashboard.set_data
       (Some (filter (fun p => negb (String.eqb (fst p) "yaw")) v1_flight))
       V1.RocketDashboard.init, Raise ValueError).
Proof.
  apply (proj1 (load_data_requires_six_columns _ V1.RocketDashboard.init)
               "yaw"%string).
  - simpl. auto.
  - reflexivity.
Defined.

End V1Load.

Section FullVariableList.

(** X10.  The plot list of the full dashboard.  The column loop of
    [load_csv] adds a column to the list exactly when it is numeric and
    its lower-cased name does not contain "time": every time-named
    column is left out, not only the one that ends up as the time
    column.  (The time column carried over from an earlier load is
    time-named too, which is all the loop needs.) *)
Theorem variable_list_leaves_out_time_columns
        (df : DataFrame) (ch : Full.RocketDashboard.channels)
        (vl : list string) :
  match Full.RocketDashboard.time_col ch with
  | Some tc => is_time_name tc = true
  | None => True
  end ->
  snd (Full.RocketDashboard.load_csv_columns df ch vl)
  = (vl ++ map fst (filter (fun p => is_numeric_dtype (snd p)
                                     && negb (is_time_name (fst p))) df))%list.
Proof.
  revert ch vl. induction df as [|[c v] rest IH]; intros ch vl Hch.
  - cbn. rewrite app_nil_r. reflexivity.
  - cbn [Full.RocketDashboard.load_csv_columns filter fst snd].
    pose proof (classify_column_time c ch) as Ht.
    destruct (is_time_name c) eqn:Ec.
    + rewrite Ht, String.eqb_refl. cbn [negb andb].
      rewrite andb_false_r. apply IH. rewrite Ht. exact Ec.
    + rewrite Ht.
      assert (Hneq : match Full.RocketDashboard.time_col ch with
                     | Some tc => String.eqb c tc
                     | None => false
                     end = false).
      { destruct (Full.RocketDashboard.time_col ch) as [tc|]; [|reflexivity].
        apply time_name_differs; assumption. }
      rewrite Hneq. cbn [negb]. rewrite !andb_true_r.
      destruct (is_numeric_dtype v).
      * rewrite IH by (rewrite Ht; exact Hch).
        cbn [map fst]. rewrite <- app_assoc. reflexivity.
      * apply IH. rewrite Ht. exact Hch.
Qed.

(** X10's theorem at the table with two clocks. *)
Lemma variable_list_leaves_out_time_columns_witness :
  snd (Full.RocketDashboard.load_csv_columns
         two_clocks Full.RocketDashboard.no_channels [])
  = ["alt"; "vel"]%string.
Proof.
  rewrite (variable_list_leaves_out_time_columns
             two_clocks Full.RocketDashboard.no_channels [] I).
  reflexivity.
Defined.

End FullVariableList.

Section V3Categories.

Import V3.RocketDashboard.

Lemma append_to_keys (key col : string) (cats : categories_t) :
  map fst (append_to key col cats) = map fst cats.
Proof.
  induction cats as [|[k cols] rest IH]; cbn [append_to map fst]; [reflexivity|].
  destruct (String.eqb k key); cbn [map fst]; [reflexivity|].
  rewrite IH. reflexivity.
Qed.

(** Appending to a category that exists changes that category only. *)
Lemma append_to_category (key col k : string) (cats : categories_t) :
  In key (map fst cats) ->
  category k (append_to key col cats)
  = if String.eqb k key then (category k cats ++ [col])%list
    else category k cats.
Proof.
  unfold category.
  induction cats as [|[k0 cols] rest IH]; cbn [map fst In]; [intros []|].
  intros Hin. cbn [append_to].
  destruct (String.eqb_spec k0 key) as [->|Hne].
  - cbn [find fst snd]. rewrite (String.eqb_sym key k).
    destruct (String.eqb k key); reflexivity.
  - cbn [find fst snd].
    destruct (String.eqb_spec k0 k) as [->|Hne'].
    + destruct (String.eqb_spec k key) as [->|]; [congruence | reflexivity].
    + apply IH. destruct Hin as [H|H]; [congruence | exact H].
Qed.

(** The chain names one of the nine categories. *)
Lemma category_of_key (name : string) (numeric : bool) (key : string) :
  category_of name numeric = Some key ->
  In key (map fst empty_categories).
Proof.
  unfold category_of.
  repeat match goal with
         | |- (if ?c then _ else _) = _ -> _ => destruct c
         end;
    intros H; try discriminate; injection H as <-; cbn; tauto.
Qed.

(** The loop of [detect_columns]: every category grows by the columns
    the chain sends to it, in table order; the time column is the last
    column sent to Time. *)
Lemma detect_loop_spec (df : DataFrame) :
  forall (tc : option string) (cats : categories_t),
    map fst cats = map fst empty_categories ->
    map fst (snd (detect_loop df tc cats)) = map fst empty_categories /\
    (forall k, category k (snd (detect_loop df tc cats))
               = (category k cats
                  ++ map fst (filter (in_category k) df))%list) /\
    fst (detect_loop df tc cats)
    = match last_match (in_category "Time") df with
      | Some p => Some (fst p)
      | None => tc
      end.
Proof.
  induction df as [|[col v] rest IH]; intros tc cats Hkeys.
  - cbn [detect_loop fst snd filter map]. split; [exact Hkeys|].
    split; [intros k; rewrite app_nil_r; reflexivity | reflexivity].
  - cbn [detect_loop]. rewrite last_match_cons.
    assert (Hin_cat : forall k, in_category k (col, v)
              = match category_of (lower col) (is_numeric_dtype v) with
                | Some key => String.eqb key k
                | None => false
                end) by reflexivity.
    destruct (category_of (lower col) (is_numeric_dtype v)) as [key|] eqn:Ek.
    + pose proof (category_of_key _ _ _ Ek) as Hin.
      destruct (IH (if String.eqb key "Time" then Some col else tc)
                   (append_to key col cats)) as (I1 & I2 & I3).
      { rewrite append_to_keys. exact Hkeys. }
      split; [exact I1|]. split.
      * intros k. rewrite I2. cbn [filter]. rewrite Hin_cat.
        rewrite append_to_category by (rewrite Hkeys; exact Hin).
        rewrite (String.eqb_sym k key).
        destruct (String.eqb key k); cbn [map fst];
          [rewrite <- app_assoc; reflexivity | reflexivity].
      * rewrite I3. rewrite Hin_cat.
        destruct (last_match (in_category "Time") rest); [reflexivity|].
        destruct (String.eqb key "Time"); reflexivity.
    + destruct (IH tc cats Hkeys) as (I1 & I2 & I3).
      split; [exact I1|]. split.
      * intros k. rewrite I2. cbn [filter]. rewrite Hin_cat. reflexivity.
      * rewrite I3. rewrite Hin_cat.
        destruct (last_match (in_category "Time") rest); reflexivity.
Qed.

End V3Categories.

Section V3Properties.

Import V3.RocketDashboard.

(** X11.  V3's [detect_columns] sorts the columns by the first rule of
    its chain that their lower-cased name meets.  The result has the
    nine categories, in the order of the source; each category holds
    exactly the columns the chain sends to it, in table order, so no
    column is in two categories; every numeric column is in one (a
    text column that meets no rule is in none); and the time column is
    the last column of the Time category, or the one kept from before
    when that category is empty. *)
Theorem detect_columns_sorts_every_column (df : DataFrame) (s : t) :
  let s' := detect_columns df s in
  map fst (detected_categories s')
    = ["Time"; "Altitude"; "Velocity"; "Orientation"; "Control";
       "Setpoint"; "Apogee"; "Status"; "Other"]%string /\
  (forall key, category key (detected_categories s')
               = map fst (filter (in_category key) df)) /\
  (forall p, In p df -> is_numeric_dtype (snd p) = true ->
             exists key, In (fst p) (category key (detected_categories s'))) /\
  time_column s'
  = match last_match (in_category "Time") df with
    | Some p => Some (fst p)
    | None => time_column s
    end.
Proof.
  cbv zeta. unfold detect_columns.
  destruct (detect_loop_spec df (time_column s) empty_categories eq_refl)
    as (H1 & H2 & H3).
  destruct (detect_loop df (time_column s) empty_categories) as [tc cats].
  cbn [fst snd time_column detected_categories] in *.
  split; [exact H1|].
  assert (Hcat : forall key, category key cats
                             = map fst (filter (in_category key) df)).
  { intros key. rewrite H2.
    assert (E : category key empty_categories = []).
    { unfold category.
      destruct (find (fun p => String.eqb (fst p) key) empty_categories)
        as [p|] eqn:Ef; [|reflexivity].
      apply find_some in Ef. destruct Ef as (Hin & _).
      cbn in Hin.
      repeat (destruct Hin as [<-|Hin]; [reflexivity|]). destruct Hin. }
    rewrite E. reflexivity. }
  split; [exact Hcat|]. split; [|exact H3].
  intros p Hin Hnum.
  destruct (category_of (lower (fst p)) (is_numeric_dtype (snd p)))
    as [key|] eqn:Ek.
  - exists key. rewrite Hcat. apply in_map. apply filter_In.
    split; [exact Hin|]. unfold in_category. rewrite Ek.
    apply String.eqb_refl.
  - exfalso. revert Ek. rewrite Hnum. unfold category_of.
    repeat match goal with
           | |- (if ?c then _ else _) = _ -> _ => destruct c
           end; discriminate.
Qed.

End V3Properties.

Section V6Load.

Import V6.RocketDashboard.

(** The loop of [detect_columns]: the last match wins, for each of the
    two attributes on its own. *)
Lemma detect_loop_last (cols : list string) :
  forall s : t,
    for_ cols (fun col =>
      let name := lower col in
      mbind (if str_in "time" name then modify (set_time_column (Some col))
             else ret tt)
        (fun _ => if str_in "alt" name || str_in "height" name
                  then modify (set_altitude_column (Some col))
                  else ret tt)) s
    = (mk (data s)
          (match last_match is_time_name cols with
           | Some c => Some c
           | None => time_column s
           end)
          (match last_match is_altitude_name cols with
           | Some c => Some c
           | None => altitude_column s
           end)
          (current_ax s) (cursor_line s) (selected_columns s)
          (variable_list s) (telemetry_label s) (slider s) (dialogs s),
       Ok tt).
Proof.
  induction cols as [|c rest IH]; intros s.
  - cbn. destruct s; reflexivity.
  - cbn [for_]. rewrite !last_match_cons. unfold mbind at 1.
    cbv zeta. unfold mbind at 1.
    unfold is_time_name at 2, is_altitude_name at 2.
    destruct (str_in "time" (lower c));
      destruct (str_in "alt" (lower c) || str_in "height" (lower c));
      cbn [modify ret]; rewrite IH; cbn;
      destruct (last_match is_time_name rest);
      destruct (last_match is_altitude_name rest); reflexivity.
Qed.

(** The list loop of [load_csv] when a time column is known. *)
Lemma add_items_spec (tc : string) (numeric : list string) :
  forall s : t,
    time_column s = Some tc ->
    add_items numeric s
    = (set_variable_list
         (variable_list s
          ++ filter (fun c => negb (String.eqb c tc)) numeric) s, Ok tt).
Proof.
  unfold add_items.
  induction numeric as [|c rest IH]; intros s Ht.
  - cbn. rewrite app_nil_r. destruct s; reflexivity.
  - cbn [for_ filter]. unfold mbind at 1. unfold mbind at 1. unfold get at 1.
    rewrite Ht.
    destruct (String.eqb c tc); cbn [negb].
    + unfold ret. apply IH. exact Ht.
    + unfold modify. rewrite IH by exact Ht.
      cbn. rewrite <- app_assoc. reflexivity.
Qed.

End V6Load.

Section V6Properties.

Import V6.RocketDashboard.

(** X12.  [load_csv] of V6 never raises and shows one message box.  It
    replaces the table, the time column, the altitude column and the
    plot list by values that depend on the new table alone: the time
    column is the last column whose lower-cased name contains "time",
    the altitude column the last whose name contains "alt" or "height".
    With a time column the box says success and the plot list holds the
    numeric columns other than the time column, in table order; without
    one the box reports the error and the plot list is empty, although
    the table has been replaced.  What the last plot has set up is not
    touched: the axes, the cursor line, the selected columns, the
    telemetry label and the slider with its range stay those of the
    table shown before. *)
Theorem load_csv_replaces_columns_keeps_plot (df : DataFrame) (s : t) :
  load_csv df s =
  (mk (Some df)
      (last_match is_time_name (columns df))
      (last_match is_altitude_name (columns df))
      (current_ax s) (cursor_line s) (selected_columns s)
      (match last_match is_time_name (columns df) with
       | Some tc => filter (fun c => negb (String.eqb c tc))
                           (map fst (select_number df))
       | None => []
       end)
      (telemetry_label s) (slider s)
      (dialogs s ++ [match last_match is_time_name (columns df) with
                     | Some _ => Success
                     | None => Error
                     end]), Ok tt).
Proof.
  unfold load_csv.
  assert (E : mbind (modify (set_data (Some df))) (fun _ =>
              mbind (modify (set_variable_list [])) (fun _ => detect_columns)) s
              = (mk (Some df)
                    (last_match is_time_name (columns df))
                    (last_match is_altitude_name (columns df))
                    (current_ax s) (cursor_line s) (selected_columns s)
                    [] (telemetry_label s) (slider s) (dialogs s), Ok tt)).
  { unfold mbind at 1. unfold modify at 1.
    unfold mbind at 1. unfold modify at 1.
    unfold detect_columns.
    unfold mbind at 1. unfold modify at 1.
    unfold mbind at 1. unfold modify at 1.
    unfold mbind at 1. unfold get at 1.
    unfold mbind at 1. unfold lift at 1. cbn [data set_data set_variable_list
      set_time_column set_altitude_column attr].
    rewrite detect_loop_last. cbn.
    destruct (last_match is_time_name (columns df));
      destruct (last_match is_altitude_name (columns df)); reflexivity. }
  rewrite E. cbn [time_column].
  destruct (last_match is_time_name (columns df)) as [tc|] eqn:Et.
  - destruct (last_match_some _ _ _ Et) as (Htc & _).
    cbn [not_]. rewrite (time_name_not_empty tc Htc).
    unfold mbind. rewrite (add_items_spec tc) by reflexivity.
    reflexivity.
  - reflexivity.
Qed.

End V6Properties.

Section ChannelFacts.

Import Full.RocketDashboard.

Lemma last_or_cons {A} (p : A -> bool) (x : A) (l : list A)
      (before : option A) :
  last_or p (x :: l) before = last_or p l (if p x then Some x else before).
Proof.
  unfold last_or. rewrite last_match_cons.
  destruct (last_match p l); [reflexivity|]. destruct (p x); reflexivity.
Qed.

(** One round of the column loop, channel by channel. *)
Lemma classify_column_channels (c : string) (ch : channels) :
  let ch' := classify_column c ch in
  time_col ch' = (if has_role Time c then Some c else time_col ch) /\
  alt_col ch' = (if has_role Altitude c then Some c else alt_col ch) /\
  vel_col ch' = (if has_role Velocity c then Some c else vel_col ch) /\
  yaw_col ch' = (if has_role Yaw c then Some c else yaw_col ch) /\
  yaw_sp_col ch' = (if has_role YawSetpoint c then Some c else yaw_sp_col ch) /\
  servo_col ch' = (if has_role ServoPosition c then Some c else servo_col ch) /\
  acc_x ch' = (if is_acc_x c then Some c else acc_x ch) /\
  acc_y ch' = (if is_acc_y c then Some c else acc_y ch) /\
  acc_z ch' = (if is_acc_z c then Some c else acc_z ch).
Proof.
  cbv zeta.
  unfold classify_column, has_role, is_acc_x, is_acc_y, is_acc_z, assign_acc.
  destruct (role_of (lower c)) as [[]|];
    destruct (str_in "accel" (lower c) || str_in "acc" (lower c));
    destruct (str_in "x" (lower c));
    destruct (str_in "y" (lower c));
    destruct (str_in "z" (lower c));
    cbn; repeat split.
Qed.

(** The column loop, channel by channel: the last column taken for a
    channel is the one it ends with. *)
Lemma load_csv_columns_channels (df : DataFrame) :
  forall (ch : channels) (vl : list string),
    let ch' := fst (load_csv_columns df ch vl) in
    time_col ch' = last_or (has_role Time) (columns df) (time_col ch) /\
    alt_col ch' = last_or (has_role Altitude) (columns df) (alt_col ch) /\
    vel_col ch' = last_or (has_role Velocity) (columns df) (vel_col ch) /\
    yaw_col ch' = last_or (has_role Yaw) (columns df) (yaw_col ch) /\
    yaw_sp_col ch'
    = last_or (has_role YawSetpoint) (columns df) (yaw_sp_col ch) /\
    servo_col ch'
    = last_or (has_role ServoPosition) (columns df) (servo_col ch) /\
    acc_x ch' = last_or is_acc_x (columns df) (acc_x ch) /\
    acc_y ch' = last_or is_acc_y (columns df) (acc_y ch) /\
    acc_z ch' = last_or is_acc_z (columns df) (acc_z ch).
Proof.
  induction df as [|[c v] rest IH]; intros ch vl; cbv zeta.
  - cbn. repeat split.
  - cbn [load_csv_columns columns map fst]. fold (columns rest).
    rewrite !last_or_cons.
    destruct (classify_column_channels c ch)
      as (C1 & C2 & C3 & C4 & C5 & C6 & C7 & C8 & C9).
    cbv zeta in C1, C2, C3, C4, C5, C6, C7, C8, C9.
    rewrite <- C1, <- C2, <- C3, <- C4, <- C5, <- C6, <- C7, <- C8, <- C9.
    apply IH.
Qed.

End ChannelFacts.

Section ChannelProperties.

Import Full.RocketDashboard.

(** X22.  Which column drives which channel of the full dashboard.
    After the column loop of [load_csv], each of the six channels (time,
    altitude, velocity, yaw, yaw setpoint, servo position) holds the
    last column, in table order, that the [if]/[elif] chain takes for
    it, and each acceleration axis the last column the acceleration
    mapping takes for it.  A channel for which the table has no column
    keeps the column of the table loaded before. *)
Theorem channels_hold_the_last_column_of_their_role
        (df : DataFrame) (ch : channels) (vl : list string) :
  let ch' := fst (load_csv_columns df ch vl) in
  time_col ch' = last_or (has_role Time) (columns df) (time_col ch) /\
  alt_col ch' = last_or (has_role Altitude) (columns df) (alt_col ch) /\
  vel_col ch' = last_or (has_role Velocity) (columns df) (vel_col ch) /\
  yaw_col ch' = last_or (has_role Yaw) (columns df) (yaw_col ch) /\
  yaw_sp_col ch'
  = last_or (has_role YawSetpoint) (columns df) (yaw_sp_col ch) /\
  servo_col ch'
  = last_or (has_role ServoPosition) (columns df) (servo_col ch) /\
  acc_x ch' = last_or is_acc_x (columns df) (acc_x ch) /\
  acc_y ch' = last_or is_acc_y (columns df) (acc_y ch) /\
  acc_z ch' = last_or is_acc_z (columns df) (acc_z ch) /\
  (forall r c, last_or (has_role r) (columns df) None = Some c ->
     has_role r c = true /\
     exists before after,
       columns df = (before ++ c :: after)%list /\
       Forall (fun x => has_role r x = false) after).
Proof.
  cbv zeta.
  destruct (load_csv_columns_channels df ch vl)
    as (C1 & C2 & C3 & C4 & C5 & C6 & C7 & C8 & C9).
  cbv zeta in C1, C2, C3, C4, C5, C6, C7, C8, C9.
  repeat (split; [assumption|]).
  intros r c H. unfold last_or in H.
  destruct (last_match (has_role r) (columns df)) as [a|] eqn:E;
    [|discriminate].
  injection H as ->. exact (last_match_some _ _ _ E).
Qed.

End ChannelProperties.

(* ================================================================== *)
(** * The HUD gauges and the slot of the full dashboard *)
(* ================================================================== *)

Section GaugeFacts.

Import Lqa.
Import Full.HUDGauge.
Local Open Scope Q_scope.

Lemma clip01_range (x : Q) : 0 <= clip01 x <= 1.
Proof.
  unfold clip01.
  destruct (Qle_bool x 0) eqn:E0; [lra|].
  destruct (Qle_bool 1 x) eqn:E1; [lra|].
  assert (H0 : ~ x <= 0) by (rewrite <- Qle_bool_iff; congruence).
  assert (H1 : ~ 1 <= x) by (rewrite <- Qle_bool_iff; congruence).
  lra.
Qed.

Lemma clip01_low (x : Q) : x <= 0 -> clip01 x = 0.
Proof.
  intros H. unfold clip01. apply Qle_bool_iff in H. rewrite H. reflexivity.
Qed.

Lemma clip01_high (x : Q) : 1 <= x -> clip01 x == 1.
Proof.
  intros H. unfold clip01.
  destruct (Qle_bool x 0) eqn:E0.
  - apply Qle_bool_iff in E0. lra.
  - apply Qle_bool_iff in H. rewrite H. reflexivity.
Qed.

Lemma clip01_inside (x : Q) : 0 <= x <= 1 -> clip01 x == x.
Proof.
  intros H. unfold clip01.
  destruct (Qle_bool x 0) eqn:E0.
  - apply Qle_bool_iff in E0. lra.
  - destruct (Qle_bool 1 x) eqn:E1; [|reflexivity].
    apply Qle_bool_iff in E1. lra.
Qed.

(** [int] of a number between two integers, the lower one not
    negative. *)
Lemma int_bounds (a b : Z) (x : Q) :
  (0 <= a)%Z -> inject_Z a <= x <= inject_Z b -> (a <= int x <= b)%Z.
Proof.
  intros Ha (H1 & H2). unfold int.
  destruct x as [n d]. unfold Qle, inject_Z in H1, H2. cbn in *.
  rewrite Z.mul_1_r in H1, H2.
  assert (Hn : (0 <= n)%Z) by nia.
  rewrite Z.quot_div_nonneg by lia.
  split.
  - apply Z.div_le_lower_bound; lia.
  - apply Z.div_le_upper_bound; lia.
Qed.

(** [int] of a number of magnitude at most [m]. *)
Lemma int_magnitude (m : Z) (x : Q) :
  (0 <= m)%Z -> - inject_Z m <= x <= inject_Z m -> (- m <= int x <= m)%Z.
Proof.
  intros Hm (H1 & H2). unfold int.
  destruct x as [n d]. unfold Qle, inject_Z, Qopp in H1, H2. cbn in *.
  rewrite Z.mul_1_r in H1, H2.
  destruct (Z.le_gt_cases 0 n) as [Hn|Hn].
  - rewrite Z.quot_div_nonneg by lia.
    split.
    + pose proof (Z.div_pos n (Z.pos d) Hn ltac:(lia)). lia.
    + apply Z.div_le_upper_bound; lia.
  - replace n with (- (- n))%Z by lia.
    rewrite Z.quot_opp_l by lia.
    rewrite Z.quot_div_nonneg by lia.
    split.
    + assert ((- n) / Z.pos d <= m)%Z by (apply Z.div_le_upper_bound; lia).
      lia.
    + pose proof (Z.div_pos (- n) (Z.pos d) ltac:(lia) ltac:(lia)). lia.
Qed.

Lemma Qabs_b_abs (x : Q) : Np.Qabs_b x == Qabs x.
Proof.
  unfold Np.Qabs_b. destruct (Qle_bool 0 x) eqn:E.
  - apply Qle_bool_iff in E. symmetry. apply Qabs_pos. exact E.
  - assert (H : ~ 0 <= x) by (rewrite <- Qle_bool_iff; congruence).
    symmetry. apply Qabs_neg. lra.
Qed.

(** A channel holds a number from 0 to 255, and is found again from
    it. *)
Lemma channel_range (b : Byte.byte) : (0 <= Qt.channel b <= 255)%Z.
Proof.
  unfold Qt.channel. pose proof (Byte.to_N_bounded b). lia.
Qed.

Lemma to_channel_channel (b : Byte.byte) :
  Qt.to_channel (Qt.channel b) = Some b.
Proof.
  unfold Qt.to_channel, Qt.channel.
  destruct (Z.ltb_spec (Z.of_N (Byte.to_N b)) 0); [lia|].
  rewrite N2Z.id. apply Byte.of_to_N.
Qed.

Lemma to_channel_ok (n : Z) :
  (0 <= n <= 255)%Z ->
  exists b, Qt.to_channel n = Some b /\ Qt.channel b = n.
Proof.
  intros Hn. unfold Qt.to_channel, Qt.channel.
  destruct (Z.ltb_spec n 0); [lia|].
  destruct (Byte.of_N (Z.to_N n)) as [b|] eqn:E.
  - exists b. split; [reflexivity|].
    rewrite (Byte.to_of_N _ E). lia.
  - apply Byte.of_N_None_iff in E. lia.
Qed.

(** The channels a colour reads as are numbers from 0 to 255. *)
Lemma color_channels (c : Qt.QColor) :
  (0 <= Qt.red c <= 255)%Z /\ (0 <= Qt.green c <= 255)%Z /\
  (0 <= Qt.blue c <= 255)%Z.
Proof.
  destruct c as [r g b|]; cbn [Qt.red Qt.green Qt.blue].
  - repeat split; apply channel_range.
  - lia.
Qed.

(** [QColor(r, g, b)] on channels in range is the valid colour that
    holds them. *)
Lemma rgb_valid (r g b : Z) :
  (0 <= r <= 255)%Z -> (0 <= g <= 255)%Z -> (0 <= b <= 255)%Z ->
  exists r' g' b',
    Qt.rgb r g b = Ok (Qt.Rgb r' g' b') /\
    Qt.channel r' = r /\ Qt.channel g' = g /\ Qt.channel b' = b.
Proof.
  intros Hr Hg Hb.
  destruct (to_channel_ok r Hr) as (r' & Er & Cr).
  destruct (to_channel_ok g Hg) as (g' & Eg & Cg).
  destruct (to_channel_ok b Hb) as (b' & Eb & Cb).
  exists r', g', b'. unfold Qt.rgb, Qt.c_int.
  destruct (Z.leb_spec (-2147483648) r); [|lia].
  destruct (Z.leb_spec r 2147483647); [|lia].
  destruct (Z.leb_spec (-2147483648) g); [|lia].
  destruct (Z.leb_spec g 2147483647); [|lia].
  destruct (Z.leb_spec (-2147483648) b); [|lia].
  destruct (Z.leb_spec b 2147483647); [|lia].
  cbn [andb]. rewrite Er, Eg, Eb. auto.
Qed.

(** [QColor(r, g, b)] returns, with a valid or an invalid colour, when
    the three numbers fit a C [int]. *)
Lemma rgb_fits (r g b : Z) :
  (- 2147483647 <= r <= 2147483647)%Z ->
  (- 2147483647 <= g <= 2147483647)%Z ->
  (0 <= b <= 255)%Z ->
  exists c, Qt.rgb r g b = Ok c.
Proof.
  intros Hr Hg Hb. unfold Qt.rgb, Qt.c_int.
  destruct (Z.leb_spec (-2147483648) r); [|lia].
  destruct (Z.leb_spec r 2147483647); [|lia].
  destruct (Z.leb_spec (-2147483648) g); [|lia].
  destruct (Z.leb_spec g 2147483647); [|lia].
  destruct (Z.leb_spec (-2147483648) b); [|lia].
  destruct (Z.leb_spec b 2147483647); [|lia].
  cbn [andb].
  destruct (Qt.to_channel r), (Qt.to_channel g), (Qt.to_channel b);
    eexists; reflexivity.
Qed.

(** The limits [update_limits] leaves are never equal. *)
Lemma update_limits_range (lo hi : Q) (g : t) :
  lo <= hi ->
  min_val (fst (update_limits lo hi g)) = lo /\
  max_val (fst (update_limits lo hi g))
  = (if Qeq_bool hi lo then hi + (1 # 1000) else hi) /\
  lo < max_val (fst (update_limits lo hi g)).
Proof.
  intros H. unfold update_limits, modify. cbn [fst min_val max_val].
  split; [reflexivity|].
  destruct (Qeq_bool hi lo) eqn:E; cbn [negb].
  - split; [reflexivity|]. apply Qeq_bool_iff in E. lra.
  - split; [reflexivity|].
    assert (~ hi == lo) by (rewrite <- Qeq_bool_iff; congruence). lra.
Qed.

(** [set_value] on a number, line by line: the value and the fill
    ratio are assigned; then the colour is built and, when that
    succeeds, assigned. *)
Lemma set_value_eq (v ratio : Q) (g : t) :
  set_value (CNum v) ratio g
  = (let g1 := mk (min_val g) (max_val g) (CNum v)
                  (clip01 ((v - min_val g) / (max_val g - min_val g)))
                  (base_color g) (display_color g) in
     match Qt.rgb
             (int (inject_Z (Qt.red (base_color g))
                   + (255 - inject_Z (Qt.red (base_color g))) * ratio))
             (int (inject_Z (Qt.green (base_color g)) * (1 - ratio)))
             (Qt.blue (base_color g)) with
     | Ok c => (set_display_color c g1, Ok tt)
     | Raise e => (g1, Raise e)
     end).
Proof.
  unfold set_value, mbind, modify, lift, get.
  cbn [cell_float min_val max_val value fill_ratio base_color display_color].
  destruct (Qt.rgb _ _ _); reflexivity.
Qed.

(** What [set_value] assigns for a number, whether the colour can be
    built or not. *)
Lemma set_value_number (v ratio : Q) (g : t) :
  min_val (fst (set_value (CNum v) ratio g)) = min_val g /\
  max_val (fst (set_value (CNum v) ratio g)) = max_val g /\
  value (fst (set_value (CNum v) ratio g)) = CNum v /\
  fill_ratio (fst (set_value (CNum v) ratio g))
  = clip01 ((v - min_val g) / (max_val g - min_val g)) /\
  base_color (fst (set_value (CNum v) ratio g)) = base_color g.
Proof.
  rewrite set_value_eq. cbv zeta.
  destruct (Qt.rgb _ _ _); cbn; repeat split.
Qed.

(** [set_value] returns when the velocity ratio is at most 8,000,000
    in absolute value: the channels it computes then fit a C [int]. *)
Lemma set_value_returns (v ratio : Q) (g : t) :
  - (8000000) <= ratio <= 8000000 ->
  snd (set_value (CNum v) ratio g) = Ok tt.
Proof.
  intros Hr. rewrite set_value_eq. cbv zeta.
  destruct (color_channels (base_color g)) as (Cr & Cg & Cb).
  set (red := Qt.red (base_color g)) in *.
  set (green := Qt.green (base_color g)) in *.
  assert (Qr : 0 <= inject_Z red <= 255).
  { change 0 with (inject_Z 0). change 255 with (inject_Z 255).
    split; rewrite <- Zle_Qle; lia. }
  assert (Qg : 0 <= inject_Z green <= 255).
  { change 0 with (inject_Z 0). change 255 with (inject_Z 255).
    split; rewrite <- Zle_Qle; lia. }
  destruct (rgb_fits
              (int (inject_Z red + (255 - inject_Z red) * ratio))
              (int (inject_Z green * (1 - ratio)))
              (Qt.blue (base_color g))) as (c & Ec).
  - assert (H : (- 2040000255
                 <= int (inject_Z red + (255 - inject_Z red) * ratio)
                 <= 2040000255)%Z).
    { apply (int_magnitude 2040000255); [lia|].
      change (inject_Z 2040000255) with 2040000255.
      generalize dependent (inject_Z red). intros x Hx.
      clear - Hx Hr. nra. }
    lia.
  - assert (H : (- 2040000255
                 <= int (inject_Z green * (1 - ratio))
                 <= 2040000255)%Z).
    { apply (int_magnitude 2040000255); [lia|].
      change (inject_Z 2040000255) with 2040000255.
      generalize dependent (inject_Z green). intros x Hx.
      clear - Hx Hr. nra. }
    lia.
  - exact Cb.
  - rewrite Ec. reflexivity.
Qed.

Lemma channel_inj (a b : Byte.byte) : Qt.channel a = Qt.channel b -> a = b.
Proof.
  intros H. pose proof (to_channel_channel a) as Ha.
  rewrite H, to_channel_channel in Ha. congruence.
Qed.

(** The colour [set_value] builds from a valid base colour when both
    computed channels are in range: it keeps the blue channel. *)
Lemma set_value_tint (v ratio : Q) (g : t) (red green blue : Byte.byte)
      (lo_r hi_r lo_g hi_g : Z) :
  base_color g = Qt.Rgb red green blue ->
  (0 <= lo_r)%Z -> (hi_r <= 255)%Z -> (0 <= lo_g)%Z -> (hi_g <= 255)%Z ->
  inject_Z lo_r
    <= inject_Z (Qt.channel red) + (255 - inject_Z (Qt.channel red)) * ratio
    <= inject_Z hi_r ->
  inject_Z lo_g <= inject_Z (Qt.channel green) * (1 - ratio)
    <= inject_Z hi_g ->
  exists r' g',
    snd (set_value (CNum v) ratio g) = Ok tt /\
    display_color (fst (set_value (CNum v) ratio g)) = Qt.Rgb r' g' blue /\
    (lo_r <= Qt.channel r' <= hi_r)%Z /\ (lo_g <= Qt.channel g' <= hi_g)%Z.
Proof.
  intros Hbase L1 L2 L3 L4 Hr Hg.
  rewrite set_value_eq. cbv zeta. rewrite Hbase.
  cbn [Qt.red Qt.green Qt.blue].
  pose proof (int_bounds lo_r hi_r _ L1 Hr) as Br.
  pose proof (int_bounds lo_g hi_g _ L3 Hg) as Bg.
  match type of Br with (_ <= ?x <= _)%Z => set (r := x) in * end.
  match type of Bg with (_ <= ?x <= _)%Z => set (gr := x) in * end.
  destruct (rgb_valid r gr (Qt.channel blue)
              ltac:(lia) ltac:(lia) (channel_range blue))
    as (r' & g' & b' & E & Cr & Cg & Cb).
  apply channel_inj in Cb. subst b'.
  exists r', g'. rewrite E. cbn.
  split; [reflexivity|]. split; [reflexivity|].
  rewrite Cr, Cg. split; assumption.
Qed.

End GaugeFacts.

Section GaugeProperties.

Import Lqa.
Import Full.HUDGauge.
Local Open Scope Q_scope.

(** X14.  The fill of a HUD gauge.  After [update_limits(lo, hi)] with
    [lo <= hi] (the extremes of a column) the upper limit is above the
    lower one, by 0.001 when the column is constant, so [set_value]
    never divides by zero.  [set_value(v, ratio)] then stores [v] and
    sets a fill ratio between 0 and 1, whatever the velocity ratio: 0
    for a value at or below the lower limit, 1 at or above the upper
    limit, and in between the fraction of the range that lies below the
    value.  The call returns when the velocity ratio is at most
    8,000,000 in absolute value, the default 0 included: the tint it
    computes then fits the integers of Qt. *)
Theorem gauge_fill_is_a_fraction (lo hi v ratio : Q) (g : t) :
  lo <= hi ->
  let g1 := fst (update_limits lo hi g) in
  let g2 := fst (set_value (CNum v) ratio g1) in
  min_val g1 = lo /\ lo < max_val g1 /\
  (lo < hi -> max_val g1 = hi) /\
  (lo == hi -> max_val g1 == lo + (1 # 1000)) /\
  (- (8000000) <= ratio <= 8000000 ->
   snd (set_value (CNum v) ratio g1) = Ok tt) /\
  value g2 = CNum v /\
  0 <= fill_ratio g2 <= 1 /\
  (v <= lo -> fill_ratio g2 == 0) /\
  (max_val g1 <= v -> fill_ratio g2 == 1) /\
  (lo <= v <= max_val g1 ->
   fill_ratio g2 == (v - lo) / (max_val g1 - lo)).
Proof.
  intros Hle. cbv zeta.
  destruct (update_limits_range lo hi g Hle) as (Hmin & Hmax & Hlt).
  set (g1 := fst (update_limits lo hi g)) in *.
  clearbody g1.
  destruct (set_value_number v ratio g1) as (_ & _ & Hv & Hfill & _).
  rewrite Hfill, Hmin.
  assert (Hd : 0 < max_val g1 - lo) by lra.
  split; [reflexivity|]. split; [exact Hlt|].
  split.
  { intros H. rewrite Hmax.
    destruct (Qeq_bool hi lo) eqn:E; [|reflexivity].
    apply Qeq_bool_iff in E. lra. }
  split.
  { intros H. rewrite Hmax.
    destruct (Qeq_bool hi lo) eqn:E; [rewrite H; reflexivity|].
    assert (~ hi == lo) by (rewrite <- Qeq_bool_iff; congruence).
    exfalso. apply H0. symmetry. exact H. }
  split; [exact (set_value_returns v ratio g1)|]. split; [exact Hv|].
  split; [apply clip01_range|].
  split; [|split].
  - intros H. rewrite clip01_low; [reflexivity|].
    apply Qle_shift_div_r; [exact Hd | lra].
  - intros H. apply clip01_high.
    apply Qle_shift_div_l; [exact Hd | lra].
  - intros H. apply clip01_inside. split.
    + apply Qle_shift_div_l; [exact Hd | lra].
    + apply Qle_shift_div_r; [exact Hd | lra].
Qed.

(** X14's theorem at a column that is constant at 7: a gauge showing 7
    is empty. *)
Lemma gauge_fill_is_a_fraction_witness :
  fill_ratio
    (fst (set_value (CNum 7) 0
            (fst (update_limits 7 7
                    (init (Qt.Rgb Byte.x4c Byte.xaf Byte.x50)))))) == 0.
Proof.
  destruct (gauge_fill_is_a_fraction 7 7 7 0
              (init (Qt.Rgb Byte.x4c Byte.xaf Byte.x50)))
    as (_ & _ & _ & _ & _ & _ & _ & H & _).
  - apply Qle_refl.
  - apply H. apply Qle_refl.
Defined.

(** X15.  The tint of a HUD gauge.  For a velocity ratio between 0 and
    1 and a valid base colour, [set_value] returns and sets a valid
    display colour: its red channel lies between the base red and 255,
    its green channel between 0 and the base green, and its blue
    channel is the base blue.  At ratio 0 the display colour is the
    base colour, at ratio 1 it is (255, 0, blue). *)
Theorem gauge_tint_is_a_colour
        (v ratio : Q) (g : t) (red green blue : Byte.byte) :
  base_color g = Qt.Rgb red green blue ->
  0 <= ratio <= 1 ->
  let g' := fst (set_value (CNum v) ratio g) in
  snd (set_value (CNum v) ratio g) = Ok tt /\
  base_color g' = Qt.Rgb red green blue /\
  (exists r' g'', display_color g' = Qt.Rgb r' g'' blue /\
                  (Qt.channel red <= Qt.channel r' <= 255)%Z /\
                  (0 <= Qt.channel g'' <= Qt.channel green)%Z) /\
  display_color (fst (set_value (CNum v) 0 g)) = Qt.Rgb red green blue /\
  display_color (fst (set_value (CNum v) 1 g))
  = Qt.Rgb Byte.xff Byte.x00 blue.
Proof.
  intros Hbase Hratio. cbv zeta.
  pose proof (channel_range red) as Cr.
  pose proof (channel_range green) as Cg.
  assert (Qr : 0 <= inject_Z (Qt.channel red) <= 255).
  { change 0 with (inject_Z 0). change 255 with (inject_Z 255).
    split; rewrite <- Zle_Qle; lia. }
  assert (Qg : 0 <= inject_Z (Qt.channel green) <= 255).
  { change 0 with (inject_Z 0). change 255 with (inject_Z 255).
    split; rewrite <- Zle_Qle; lia. }
  destruct (set_value_tint v ratio g red green blue
              (Qt.channel red) 255 0 (Qt.channel green) Hbase)
    as (r' & g' & Hok & Hd & Br & Bg); try lia.
  { change (inject_Z 255) with 255.
    generalize dependent (inject_Z (Qt.channel red)). intros x Hx.
    clear - Hx Hratio. nra. }
  { change (inject_Z 0) with 0.
    generalize dependent (inject_Z (Qt.channel green)). intros x Hx.
    clear - Hx Hratio. nra. }
  split; [exact Hok|].
  split.
  { destruct (set_value_number v ratio g) as (_ & _ & _ & _ & Hb).
    rewrite Hb. exact Hbase. }
  split; [exists r', g'; auto|].
  split.
  - destruct (set_value_tint v 0 g red green blue
                (Qt.channel red) (Qt.channel red)
                (Qt.channel green) (Qt.channel green) Hbase)
      as (r0 & g0 & _ & Hd0 & Br0 & Bg0); try lia.
    { clear - Qr. lra. }
    { clear - Qg. lra. }
    rewrite Hd0.
    assert (r0 = red) by (apply channel_inj; lia).
    assert (g0 = green) by (apply channel_inj; lia).
    subst. reflexivity.
  - destruct (set_value_tint v 1 g red green blue 255 255 0 0 Hbase)
      as (r1 & g1 & _ & Hd1 & Br1 & Bg1); try lia.
    { change (inject_Z 255) with 255. clear - Qr. lra. }
    { change (inject_Z 0) with 0. clear - Qg. lra. }
    rewrite Hd1.
    assert (r1 = Byte.xff) by (apply channel_inj; cbn; lia).
    assert (g1 = Byte.x00) by (apply channel_inj; cbn; lia).
    subst. reflexivity.
Qed.

(** X15's theorem at the velocity gauge at half the top speed. *)
Lemma gauge_tint_is_a_colour_witness :
  display_color
    (fst (set_value (CNum 50) (1 # 2)
            (init (Qt.Rgb Byte.x21 Byte.x96 Byte.xf3))))
  = Qt.Rgb Byte.x90 Byte.x4b Byte.xf3.
Proof.
  destruct (gauge_tint_is_a_colour 50 (1 # 2)
              (init (Qt.Rgb Byte.x21 Byte.x96 Byte.xf3))
              Byte.x21 Byte.x96 Byte.xf3 eq_refl) as (_ & _ & _).
  - split; unfold Qle; simpl; lia.
  - vm_compute. reflexivity.
Defined.

End GaugeProperties.

Section RowFacts.

Lemma mbind_step {S A B} (m : M S A) (k : A -> M S B) (s s1 : S) (a : A) :
  m s = (s1, Ok a) -> mbind m k s = k a s1.
Proof. intros H. unfold mbind. rewrite H. reflexivity. Qed.

(** The row at a position inside the table: every column gives its
    cell. *)
Lemma row_at_getitem (n : nat) (df : DataFrame) (i : Z) :
  table_rows n df -> (0 <= i < Z.of_nat n)%Z ->
  exists r,
    row_at df i = Ok r /\
    forall c, row_getitem r (Some c)
              = match lookup df c with
                | Some v => Ok (nth (Z.to_nat i) (cells v) (CNum 0%Q))
                | None => Raise KeyError
                end.
Proof.
  unfold table_rows. intros HF Hi.
  induction df as [|[k v] rest IH].
  - exists []. split; [reflexivity|]. intros c. reflexivity.
  - apply Forall_cons_iff in HF. destruct HF as (Hv & Hrest).
    destruct (IH Hrest) as (r & Hr & Hget).
    cbn [snd] in Hv. cbn [row_at].
    rewrite (index_ok (cells v) i (CNum 0%Q))
      by (rewrite cells_length, Hv; exact Hi).
    cbn [bind]. rewrite Hr. cbn [bind].
    eexists. split; [reflexivity|].
    intros c. cbn [row_getitem lookup].
    destruct (String.eqb k c); [reflexivity | apply Hget].
Qed.

Lemma iloc_getitem (n : nat) (df : DataFrame) (i : Z) :
  table_rows n df -> df <> [] -> (0 <= i < Z.of_nat n)%Z ->
  exists r,
    iloc df i = Ok r /\
    forall c, row_getitem r (Some c)
              = match lookup df c with
                | Some v => Ok (nth (Z.to_nat i) (cells v) (CNum 0%Q))
                | None => Raise KeyError
                end.
Proof.
  intros HF Hne Hi.
  destruct (row_at_getitem n df i HF Hi) as (r & Hr & Hget).
  exists r. split; [|exact Hget].
  unfold iloc.
  assert (Hlen : len df = n).
  { destruct df as [|[k v] rest]; [congruence|].
    unfold table_rows in HF. apply Forall_cons_iff in HF.
    destruct HF as (Hv & _). exact Hv. }
  rewrite Hlen.
  destruct (Z.leb_spec (- Z.of_nat n) i); [|lia].
  destruct (Z.ltb_spec i (Z.of_nat n)); [|lia].
  exact Hr.
Qed.

(** The cell a numeric channel has in the row. *)
Lemma row_number (df : DataFrame) (r : row) (c : string) (i : Z) (n : nat) :
  table_rows n df -> (0 <= i < Z.of_nat n)%Z ->
  (forall c, row_getitem r (Some c)
             = match lookup df c with
               | Some v => Ok (nth (Z.to_nat i) (cells v) (CNum 0%Q))
               | None => Raise KeyError
               end) ->
  numeric_channel df (Some c) ->
  row_getitem r (Some c) = Ok (CNum (number_at df (Some c) i)).
Proof.
  intros Hrows Hi Hget (v & Hv). rewrite Hget. unfold number_at. rewrite Hv.
  cbn [cells].
  change (CNum 0%Q) with ((fun x => CNum x) 0%Q).
  rewrite map_nth. reflexivity.
Qed.

(** The dot loop when every dot belongs to a column of the table. *)
Lemma move_dots_all (df : DataFrame) (r : row) (t_val : cell) (i : Z)
      (dots : list (string * option (cell * cell))) :
  (forall c, row_getitem r (Some c)
             = match lookup df c with
               | Some v => Ok (nth (Z.to_nat i) (cells v) (CNum 0%Q))
               | None => Raise KeyError
               end) ->
  Forall (fun d => In (fst d) (columns df)) dots ->
  Full.RocketDashboard.move_dots r t_val dots
  = (map (fun d => (fst d, Some (t_val, cell_at df (fst d) i))) dots, Ok tt).
Proof.
  intros Hget. induction dots as [|[c d] rest IH]; intros HF; [reflexivity|].
  apply Forall_cons_iff in HF. destruct HF as (Hc & Hrest). cbn [fst] in Hc.
  cbn [Full.RocketDashboard.move_dots]. rewrite Hget.
  destruct (lookup_in df c Hc) as (v & Hv).
  rewrite Hv. rewrite (IH Hrest). cbn [map fst].
  assert (E : cell_at df c i = nth (Z.to_nat i) (cells v) (CNum 0%Q))
    by (unfold cell_at; rewrite Hv; reflexivity).
  rewrite E. reflexivity.
Qed.

Lemma amax_ok (a : list Q) : a <> [] -> exists m, Np.amax a = Ok m.
Proof. destruct a; [congruence | intros _; eexists; reflexivity]. Qed.

(** One gauge of [slider_moved]: without a channel nothing happens;
    with a numeric channel the gauge is given the number of the row,
    provided the velocity ratio lets the tint fit. *)
Lemma gauge_update_number (col : option string) (r : row) (ratio x : Q)
      (proj : Full.RocketDashboard.t -> Full.HUDGauge.t)
      (upd : Full.HUDGauge.t -> Full.RocketDashboard.t
             -> Full.RocketDashboard.t)
      (st : Full.RocketDashboard.t) :
  (- (8000000) <= ratio <= 8000000)%Q ->
  (col <> None -> row_getitem r col = Ok (CNum x)) ->
  Full.RocketDashboard.gauge_update col r ratio proj upd st
  = (match col with
     | Some _ => upd (fst (Full.HUDGauge.set_value (CNum x) ratio (proj st))) st
     | None => st
     end, Ok tt).
Proof.
  intros Hratio Hrow. unfold Full.RocketDashboard.gauge_update.
  destruct col as [c|]; [|reflexivity].
  unfold mbind, lift. rewrite Hrow by discriminate.
  unfold on_attr.
  pose proof (set_value_returns x ratio (proj st) Hratio) as Hok.
  destruct (Full.HUDGauge.set_value (CNum x) ratio (proj st)) as [g' res].
  cbn [fst snd] in *. rewrite Hok. reflexivity.
Qed.

(** The velocity ratio of a row whose speed is at most 8,000,000 times
    the maximum of the column. *)
Lemma ratio_bound (a m : Q) :
  ~ (m == 0)%Q -> (Qabs a <= 8000000 * Qabs m)%Q ->
  (- (8000000) <= Np.Qabs_b a / m <= 8000000)%Q.
Proof.
  intros Hm Ha. apply Qabs_Qle_condition.
  unfold Qdiv. rewrite Qabs_Qmult, Qabs_Qinv, Qabs_b_abs.
  rewrite (Qabs_pos (Qabs a)) by apply Qabs_nonneg.
  assert (Hpos : (0 < Qabs m)%Q).
  { destruct (Qlt_le_dec 0 (Qabs m)) as [H|H]; [exact H|].
    exfalso. apply Hm.
    pose proof (Qabs_nonneg m) as H0.
    assert (E : (Qabs m == 0)%Q) by (apply Qle_antisym; assumption).
    pose proof (Qle_Qabs m) as H1.
    pose proof (Qle_Qabs (- m)) as H2. rewrite Qabs_opp in H2.
    apply Qle_antisym.
    - rewrite <- E. exact H1.
    - rewrite E in H2.
      apply Qopp_le_compat in H2. rewrite Qopp_involutive in H2.
      exact H2. }
  apply Qle_shift_div_r; assumption.
Qed.

End RowFacts.

Section ShowRow.

Import Full.RocketDashboard.

(** X20.  The slot [slider_moved] of the full dashboard on a
    consistent plot.  When the table of [n] rows is loaded, a plot is
    shown, the time column and the assigned gauge channels are numeric
    columns of the table, every dot belongs to a column of the table,
    and no velocity sample is, in absolute value, more than 8,000,000
    times the maximum of the velocity column (so that the tint of the
    gauges fits the integers of Qt), then for every row [i] of the
    table the [try] block runs to its end (no exception is swallowed)
    and every view shows row [i]: the cursor line is at the time stamp
    of the row, every dot is at (time, value of its column), each gauge
    with a channel shows the number of its column, and the telemetry
    label reads the time and the altitude (0 without an altitude
    channel).  The plot is consistent afterwards, so the next move
    works as well. *)
Theorem slider_moved_shows_the_row
        (n : nat) (df : DataFrame) (i : Z) (s : t) :
  plot_consistent n df s -> tint_fits df (vel_col (ch s)) ->
  (0 <= i < Z.of_nat n)%Z ->
  let s' := fst (slider_moved i s) in
  let t_i := number_at df (time_col (ch s)) i in
  exists s_end,
    slider_moved_body i df s = (s_end, Ok tt) /\
    s' = s_end /\
    plot_consistent n df s' /\
    cursor_line s' = Some (CNum t_i) /\
    intersection_dots s'
    = map (fun d => (fst d, Some (CNum t_i, cell_at df (fst d) i)))
          (intersection_dots s) /\
    (alt_col (ch s) <> None ->
     Full.HUDGauge.value (alt_gauge s')
     = CNum (number_at df (alt_col (ch s)) i)) /\
    (vel_col (ch s) <> None ->
     Full.HUDGauge.value (vel_gauge s')
     = CNum (number_at df (vel_col (ch s)) i)) /\
    (servo_col (ch s) <> None ->
     Full.HUDGauge.value (servo_gauge s')
     = CNum (number_at df (servo_col (ch s)) i)) /\
    (yaw_col (ch s) <> None ->
     Full.HUDGauge.value (yaw_gauge s')
     = CNum (number_at df (yaw_col (ch s)) i)) /\
    (yaw_sp_col (ch s) <> None ->
     Full.HUDGauge.value (yaw_sp_gauge s')
     = CNum (number_at df (yaw_sp_col (ch s)) i)) /\
    telemetry s' = Readout t_i (number_at df (alt_col (ch s)) i).
Proof.
  intros (Hd & Hax & Hrows & Htc & Ntime & Nalt & Nvel & Nservo & Nyaw & Nsp
          & Hcl & Hdots) Htint Hi.
  cbv zeta.
  assert (Hne : df <> []).
  { destruct (time_col (ch s)) as [tc|]; [|congruence].
    destruct Ntime as (v & Hv). intros ->. discriminate. }
  destruct (iloc_getitem n df i Hrows Hne Hi) as (r & Hr & Hget).
  assert (Hnum : forall col, numeric_channel df col -> col <> None ->
            row_getitem r col = Ok (CNum (number_at df col i))).
  { intros [c|] Hc Hn; [|congruence].
    apply (row_number df r c i n); assumption. }
  destruct (cursor_line s) as [x|] eqn:Ecl; [|congruence].
  (* the velocity ratio *)
  assert (Hratio : exists ratio,
    (- (8000000) <= ratio <= 8000000)%Q /\ forall st : t,
    mbind
      (match vel_col (ch s) with
       | Some _ =>
           mbind (lift (getitem df (vel_col (ch s)))) (fun col =>
           match col with
           | Numeric v => lift (Np.amax v)
           | Text _ => raise TypeError
           end)
       | None => ret 1%Q
       end)
      (fun v_max =>
       mbind
         (match vel_col (ch s) with
          | Some _ =>
              if negb (Qeq_bool v_max 0)
              then mbind (lift (row_getitem r (vel_col (ch s)))) (fun c =>
                   mbind (lift (cell_float c)) (fun x0 =>
                   ret (Np.Qabs_b x0 / v_max)%Q))
              else ret 0%Q
          | None => ret 0%Q
          end)
         (fun v_ratio => ret v_ratio)) st = (st, Ok ratio)).
  { destruct (vel_col (ch s)) as [vc|] eqn:Evel.
    - destruct Nvel as (v & Hv).
      assert (Lv : List.length v = n)
        by exact (lookup_rows n df vc _ Hrows Hv).
      destruct (amax_ok v) as (m & Hm).
      { intros ->. simpl in Lv. lia. }
      pose proof (Hnum (Some vc) (ex_intro _ v Hv) ltac:(discriminate)) as Hrow.
      destruct (negb (Qeq_bool m 0)) eqn:Em.
      + exists (Np.Qabs_b (number_at df (Some vc) i) / m)%Q. split.
        * apply ratio_bound.
          { intros E. apply Qeq_bool_iff in E. rewrite E in Em.
            discriminate. }
          unfold tint_fits in Htint. rewrite Hv in Htint.
          assert (Hnz : ~ (m == 0)%Q).
          { intros E. apply Qeq_bool_iff in E. rewrite E in Em.
            discriminate. }
          specialize (Htint m Hm Hnz). rewrite Forall_forall in Htint.
          apply Htint. unfold number_at. rewrite Hv.
          apply nth_In. lia.
        * intros st. unfold mbind, lift, getitem, ret.
          rewrite Hv, Hm, Em, Hrow. cbn [cell_float]. reflexivity.
      + exists 0%Q. split; [split; discriminate|].
        intros st. unfold mbind, lift, getitem, ret.
        rewrite Hv, Hm, Em. reflexivity.
    - exists 0%Q. split; [split; discriminate|].
      intros st. reflexivity. }
  destruct Hratio as (ratio & Hbound & Hratio).
  assert (Hzero : (- (8000000) <= 0 <= 8000000)%Q) by (split; discriminate).
  set (t_i := number_at df (time_col (ch s)) i).
  assert (Ht : row_getitem r (time_col (ch s)) = Ok (CNum t_i))
    by (apply Hnum; assumption).
  set (s_dots := set_dots
                   (map (fun d => (fst d, Some (CNum t_i, cell_at df (fst d) i)))
                        (intersection_dots s))
                   (set_cursor_line (Some (CNum t_i)) (set_bg_cache true s))).
  set (g1 := match alt_col (ch s) with
             | Some _ => set_alt_gauge
                 (fst (Full.HUDGauge.set_value
                         (CNum (number_at df (alt_col (ch s)) i)) ratio
                         (alt_gauge s_dots))) s_dots
             | None => s_dots
             end).
  set (g2 := match vel_col (ch s) with
             | Some _ => set_vel_gauge
                 (fst (Full.HUDGauge.set_value
                         (CNum (number_at df (vel_col (ch s)) i)) ratio
                         (vel_gauge g1))) g1
             | None => g1
             end).
  set (g3 := match servo_col (ch s) with
             | Some _ => set_servo_gauge
                 (fst (Full.HUDGauge.set_value
                         (CNum (number_at df (servo_col (ch s)) i)) 0
                         (servo_gauge g2))) g2
             | None => g2
             end).
  set (g4 := match yaw_col (ch s) with
             | Some _ => set_yaw_gauge
                 (fst (Full.HUDGauge.set_value
                         (CNum (number_at df (yaw_col (ch s)) i)) 0
                         (yaw_gauge g3))) g3
             | None => g3
             end).
  set (g5 := match yaw_sp_col (ch s) with
             | Some _ => set_yaw_sp_gauge
                 (fst (Full.HUDGauge.set_value
                         (CNum (number_at df (yaw_sp_col (ch s)) i)) 0
                         (yaw_sp_gauge g4))) g4
             | None => g4
             end).
  set (s_end := set_telemetry
                  (Readout t_i (number_at df (alt_col (ch s)) i)) g5).
  assert (Ealt : fmt_float (row_get r (alt_col (ch s)) (CNum 0%Q))
                 = Ok (number_at df (alt_col (ch s)) i)).
  { unfold row_get. destruct (alt_col (ch s)) as [ac|] eqn:Eac.
    - rewrite (Hnum (Some ac) Nalt ltac:(discriminate)). reflexivity.
    - destruct r as [|[k c] r']; reflexivity. }
  assert (E : slider_moved_body i df s = (s_end, Ok tt)).
  { unfold slider_moved_body.
    rewrite (mbind_step _ _ s s r) by (unfold lift; rewrite Hr; reflexivity).
    rewrite (mbind_step _ _ s s s) by reflexivity.
    rewrite (mbind_step _ _ s s (CNum t_i))
      by (unfold lift; rewrite Ht; reflexivity).
    rewrite (mbind_step _ _ s (set_bg_cache true s) tt) by reflexivity.
    rewrite (mbind_step _ _ _ (set_bg_cache true s) x)
      by (unfold lift; rewrite Ecl; reflexivity).
    rewrite (mbind_step _ _ _ (set_cursor_line (Some (CNum t_i))
                                 (set_bg_cache true s)) tt) by reflexivity.
    rewrite (mbind_step _ _ _ s_dots tt).
    2:{ cbn [intersection_dots set_cursor_line set_bg_cache].
        rewrite (move_dots_all df r (CNum t_i) i _ Hget Hdots). reflexivity. }
    (* the two velocity steps, as one *)
    specialize (Hratio s_dots).
    unfold mbind at 1 in Hratio.
    unfold mbind at 1.
    destruct (match vel_col (ch s) with
              | Some _ => _
              | None => ret 1%Q
              end s_dots) as [sa [v_max|e]] eqn:Evm; [|discriminate].
    unfold mbind at 1 in Hratio.
    unfold mbind at 1.
    destruct (match vel_col (ch s) with
              | Some _ => _
              | None => ret 0%Q
              end sa) as [sb [v_ratio|e]] eqn:Evr; [|discriminate].
    unfold ret in Hratio. injection Hratio as -> ->.
    rewrite (mbind_step _ _ _ g1 tt).
    2:{ apply gauge_update_number; [exact Hbound|].
        intros H. apply Hnum; assumption. }
    rewrite (mbind_step _ _ _ g2 tt).
    2:{ apply gauge_update_number; [exact Hbound|].
        intros H. apply Hnum; assumption. }
    rewrite (mbind_step _ _ _ g3 tt).
    2:{ apply gauge_update_number; [exact Hzero|].
        intros H. apply Hnum; assumption. }
    rewrite (mbind_step _ _ _ g4 tt).
    2:{ apply gauge_update_number; [exact Hzero|].
        intros H. apply Hnum; assumption. }
    rewrite (mbind_step _ _ _ g5 tt).
    2:{ apply gauge_update_number; [exact Hzero|].
        intros H. apply Hnum; assumption. }
    rewrite (mbind_step _ _ _ g5 t_i) by reflexivity.
    rewrite (mbind_step _ _ _ g5 (number_at df (alt_col (ch s)) i))
      by (unfold lift; rewrite Ealt; reflexivity).
    reflexivity. }
  assert (Es : fst (slider_moved i s) = s_end).
  { unfold slider_moved. rewrite Hd, Hax. cbn [negb].
    unfold try_pass. rewrite E. reflexivity. }
  exists s_end. split; [exact E|]. split; [exact Es|]. rewrite Es.
  (* what the gauges leave alone *)
  assert (F1 : data g5 = data s /\ current_ax g5 = current_ax s /\
               ch g5 = ch s /\ cursor_line g5 = Some (CNum t_i) /\
               intersection_dots g5 = intersection_dots s_dots).
  { unfold g5, g4, g3, g2, g1.
    destruct (alt_col (ch s)), (vel_col (ch s)), (servo_col (ch s)),
             (yaw_col (ch s)), (yaw_sp_col (ch s)); cbn; auto. }
  destruct F1 as (Fd & Fax & Fch & Fcl & Fdots).
  split.
  { unfold plot_consistent, s_end.
    cbn [set_telemetry data current_ax ch cursor_line intersection_dots].
    rewrite Fd, Fax, Fch, Fcl, Fdots.
    repeat (split; [assumption|]).
    split; [discriminate|].
    unfold s_dots. cbn [set_dots intersection_dots].
    apply Forall_map. cbn [fst]. exact Hdots. }
  split; [unfold s_end; cbn; exact Fcl|].
  split; [unfold s_end; cbn; rewrite Fdots; reflexivity|].
  assert (V : forall v q g, Full.HUDGauge.value
                              (fst (Full.HUDGauge.set_value (CNum v) q g))
                            = CNum v).
  { intros v q g. destruct (set_value_number v q g) as (_ & _ & H & _).
    exact H. }
  unfold s_end, g5, g4, g3, g2, g1.
  split; [|split; [|split; [|split; [|split]]]].
  - intros H. destruct (alt_col (ch s)); [|congruence].
    destruct (vel_col (ch s)), (servo_col (ch s)), (yaw_col (ch s)),
             (yaw_sp_col (ch s)); cbn [alt_gauge vel_gauge servo_gauge yaw_gauge yaw_sp_gauge
                  set_alt_gauge set_vel_gauge set_servo_gauge set_yaw_gauge
                  set_yaw_sp_gauge set_telemetry]; apply V.
  - intros H. destruct (vel_col (ch s)); [|congruence].
    destruct (alt_col (ch s)), (servo_col (ch s)), (yaw_col (ch s)),
             (yaw_sp_col (ch s)); cbn [alt_gauge vel_gauge servo_gauge yaw_gauge yaw_sp_gauge
                  set_alt_gauge set_vel_gauge set_servo_gauge set_yaw_gauge
                  set_yaw_sp_gauge set_telemetry]; apply V.
  - intros H. destruct (servo_col (ch s)); [|congruence].
    destruct (alt_col (ch s)), (vel_col (ch s)), (yaw_col (ch s)),
             (yaw_sp_col (ch s)); cbn [alt_gauge vel_gauge servo_gauge yaw_gauge yaw_sp_gauge
                  set_alt_gauge set_vel_gauge set_servo_gauge set_yaw_gauge
                  set_yaw_sp_gauge set_telemetry]; apply V.
  - intros H. destruct (yaw_col (ch s)); [|congruence].
    destruct (alt_col (ch s)), (vel_col (ch s)), (servo_col (ch s)),
             (yaw_sp_col (ch s)); cbn [alt_gauge vel_gauge servo_gauge yaw_gauge yaw_sp_gauge
                  set_alt_gauge set_vel_gauge set_servo_gauge set_yaw_gauge
                  set_yaw_sp_gauge set_telemetry]; apply V.
  - intros H. destruct (yaw_sp_col (ch s)); [|congruence].
    destruct (alt_col (ch s)), (vel_col (ch s)), (servo_col (ch s)),
             (yaw_col (ch s)); cbn [alt_gauge vel_gauge servo_gauge yaw_gauge yaw_sp_gauge
                  set_alt_gauge set_vel_gauge set_servo_gauge set_yaw_gauge
                  set_yaw_sp_gauge set_telemetry]; apply V.
  - reflexivity.
Qed.

(** X20's theorem at the dashboard of the stale dot, once the plot shows
    the altitude of the new table instead: at row 2 the label reads
    time 2 and altitude 50. *)
Lemma slider_moved_shows_the_row_witness :
  telemetry (fst (slider_moved 2
                    (set_dots [("alt"%string, None)] stale_dots_dashboard)))
  = Readout 2%Q 50%Q.
Proof.
  destruct (slider_moved_shows_the_row 4
              [("time"%string, Numeric (samples [0; 1; 2; 3]%Z));
               ("alt"%string, Numeric (samples [0; 20; 50; 30]%Z))]
              2 (set_dots [("alt"%string, None)] stale_dots_dashboard))
    as (s_end & _ & _ & _ & _ & _ & _ & _ & _ & _ & _ & Ht).
  - unfold plot_consistent. cbn.
    split; [reflexivity|]. split; [reflexivity|].
    split; [repeat constructor|]. split; [discriminate|].
    split; [eexists; reflexivity|]. split; [eexists; reflexivity|].
    repeat (split; [exact I|]). split; [discriminate|].
    constructor; [|constructor]. right. left. reflexivity.
  - exact I.
  - lia.
  - rewrite Ht. reflexivity.
Defined.

(** Without the bound on the tint the slot still returns, but its
    [try] block ends at the velocity gauge.  On the flight with the
    tiny maximum, row 1 gives the velocity ratio 200,000,000; the red
    channel computed from it does not fit a C [int] and [QColor] raises
    [OverflowError].  The velocity gauge has taken the value of the row
    but keeps its colour, and the label keeps the load message. *)
Remark slider_moved_tint_overflow :
  let s' := fst (slider_moved 1 tiny_maximum_dashboard) in
  snd (slider_moved_body 1 tiny_maximum_flight tiny_maximum_dashboard)
    = Raise OverflowError /\
  snd (slider_moved 1 tiny_maximum_dashboard) = Ok tt /\
  Full.HUDGauge.value (vel_gauge s') = CNum (-200)%Q /\
  Full.HUDGauge.display_color (vel_gauge s')
    = Qt.Rgb Byte.x21 Byte.x96 Byte.xf3 /\
  telemetry s' = Loaded.
Proof. repeat split; vm_compute; reflexivity. Qed.

End ShowRow.

(* ================================================================== *)
(** * The drawn attitude (V10, V12b) *)
(* ================================================================== *)

Section AxisFacts.

Import Mat3.
Local Open Scope R_scope.

(** A rotation keeps the scalar product. *)
Lemma rotation_keeps_dot (A : mat) (u v : vec) :
  is_rotation A -> dot (mvmul A u) (mvmul A v) = dot u v.
Proof.
  intros (HA & _).
  assert (E : dot (mvmul A u) (mvmul A v)
              = dot u (mvmul (mmul (transpose A) A) v)).
  { destruct_mat A. destruct u as [[u0 u1] u2]. destruct v as [[v0 v1] v2].
    cbv beta iota zeta delta [mmul transpose dot mvmul]. ring. }
  rewrite E, HA.
  destruct u as [[u0 u1] u2]. destruct v as [[v0 v1] v2].
  cbv beta iota zeta delta [I3 dot mvmul]. ring.
Qed.

(** [v @ A.T] is [A @ v]. *)
Lemma vmmul_transpose (v : vec) (A : mat) :
  vmmul v (transpose A) = mvmul A v.
Proof.
  destruct_mat A. destruct v as [[v0 v1] v2].
  cbv beta iota zeta delta [vmmul transpose dot mvmul].
  repeat match goal with |- (_, _) = (_, _) => apply f_equal2 end; ring.
Qed.

Lemma update_R_is_rotation (pitch roll yaw : R) :
  is_rotation (V12b.AttitudeViewer.update_R pitch roll yaw).
Proof.
  change (V12b.AttitudeViewer.update_R pitch roll yaw)
    with (mmul (mmul (Rz yaw) (Ry pitch)) (Rx roll)).
  repeat apply is_rotation_mmul.
  - apply is_rotation_Rz.
  - apply is_rotation_Ry.
  - apply is_rotation_Rx.
Qed.

Lemma rotation_matrix_is_rotation (roll pitch yaw : R) :
  is_rotation (V10.Rocket3D.rotation_matrix roll pitch yaw).
Proof.
  change (V10.Rocket3D.rotation_matrix roll pitch yaw)
    with (mmul (mmul (Rz (radians yaw)) (Ry (radians pitch)))
               (Rx (radians roll))).
  repeat apply is_rotation_mmul.
  - apply is_rotation_Rz.
  - apply is_rotation_Ry.
  - apply is_rotation_Rx.
Qed.

(** The axis V12b draws, entry by entry. *)
Lemma update_vec_entries (pitch roll yaw : R) :
  V12b.AttitudeViewer.update_vec pitch roll yaw
  = (cos yaw * sin pitch * cos roll + sin yaw * sin roll,
     sin yaw * sin pitch * cos roll - cos yaw * sin roll,
     cos pitch * cos roll).
Proof.
  cbv beta iota zeta delta
      [V12b.AttitudeViewer.update_vec V12b.AttitudeViewer.update_R
       mmul transpose dot mvmul].
  repeat match goal with |- (_, _) = (_, _) => apply f_equal2 end; ring.
Qed.

End AxisFacts.

Section AxisProperties.

Import Mat3.
Local Open Scope R_scope.

(** X16.  The axis drawn by the attitude viewers is rigid.  With exact
    real arithmetic, V12b's [update] draws from the origin to a point at
    distance 1, whatever the three angles, so the line never leaves the
    axes box from -1 to 1; V10's [update_attitude] draws from the origin
    to [R @ (0, 0, 1.5)], a point at distance 1.5. *)
Theorem drawn_axis_keeps_its_length (roll pitch yaw : R) :
  (let v := V12b.AttitudeViewer.update_vec pitch roll yaw in
   dot v v = 1 /\
   (-1 <= fst (fst v) <= 1 /\ -1 <= snd (fst v) <= 1 /\ -1 <= snd v <= 1)) /\
  (let tail := fst (V10.Rocket3D.update_attitude roll pitch yaw) in
   let tip := snd (V10.Rocket3D.update_attitude roll pitch yaw) in
   tail = (0, 0, 0) /\
   tip = mvmul (V10.Rocket3D.rotation_matrix roll pitch yaw) (0, 0, 3 / 2) /\
   dot tip tip = 9 / 4).
Proof.
  split.
  - cbv zeta.
    assert (H : dot (V12b.AttitudeViewer.update_vec pitch roll yaw)
                    (V12b.AttitudeViewer.update_vec pitch roll yaw) = 1).
    { unfold V12b.AttitudeViewer.update_vec.
      rewrite rotation_keeps_dot by apply update_R_is_rotation.
      cbv beta iota zeta delta [dot]. ring. }
    split; [exact H|].
    destruct (V12b.AttitudeViewer.update_vec pitch roll yaw) as [[x y] z].
    cbv beta iota zeta delta [dot] in H. cbn [fst snd].
    repeat split; nra.
  - cbv zeta. unfold V10.Rocket3D.update_attitude.
    cbn [fst snd V10.Rocket3D.body]. rewrite !vmmul_transpose.
    split; [|split; [reflexivity|]].
    + destruct (V10.Rocket3D.rotation_matrix roll pitch yaw)
        as [[[[a00 a01] a02] [[a10 a11] a12]] [[a20 a21] a22]].
      cbv beta iota zeta delta [mvmul dot]. repeat match goal with |- (_, _) = (_, _) => apply f_equal2 end; ring.
    + rewrite rotation_keeps_dot by apply rotation_matrix_is_rotation.
      cbv beta iota zeta delta [dot]. field.
Qed.

(** X17.  Where the drawn axis points.  V12b's axis for the angles
    (pitch, roll, yaw), in radians, is
    (cos yaw sin pitch cos roll + sin yaw sin roll,
     sin yaw sin pitch cos roll - cos yaw sin roll, cos pitch cos roll):
    its height does not depend on the yaw, and with zero pitch and roll
    the axis points straight up whatever the yaw, so a pure yaw is not
    visible.  V10's viewer draws the same direction for the same angles
    given in degrees, 1.5 times as long. *)
Theorem drawn_axis_direction (roll pitch yaw : R) :
  V12b.AttitudeViewer.update_vec pitch roll yaw
  = (cos yaw * sin pitch * cos roll + sin yaw * sin roll,
     sin yaw * sin pitch * cos roll - cos yaw * sin roll,
     cos pitch * cos roll) /\
  V12b.AttitudeViewer.update_vec 0 0 yaw = (0, 0, 1) /\
  snd (V10.Rocket3D.update_attitude roll pitch yaw)
  = (let v := V12b.AttitudeViewer.update_vec
                (radians pitch) (radians roll) (radians yaw) in
     (3 / 2 * fst (fst v), 3 / 2 * snd (fst v), 3 / 2 * snd v)).
Proof.
  split; [apply update_vec_entries|]. split.
  - rewrite update_vec_entries. rewrite cos_0, sin_0.
    repeat match goal with |- (_, _) = (_, _) => apply f_equal2 end; ring.
  - cbv zeta. rewrite update_vec_entries. cbn [fst snd].
    unfold V10.Rocket3D.update_attitude.
    cbn [fst snd V10.Rocket3D.body]. rewrite vmmul_transpose.
    cbv beta iota zeta delta
        [V10.Rocket3D.rotation_matrix mmul transpose dot mvmul].
    repeat match goal with |- (_, _) = (_, _) => apply f_equal2 end; field.
Qed.

End AxisProperties.

Section AttitudeColumns.

Import V12b.RocketDashboard.

(** [filter(regex=k)] on a table in which no column name contains [k]:
    there is no first column to read. *)
Lemma filter_value_missing (df : DataFrame) (k : string) (i : Z) :
  Forall (fun p => str_in k (fst p) = false) df ->
  filter_value df k i = Raise IndexError.
Proof.
  intros HF. unfold filter_value.
  assert (E : filter (fun p => str_in k (fst p)) df = []).
  { induction df as [|p rest IH]; [reflexivity|].
    apply Forall_cons_iff in HF. destruct HF as (Hp & Hrest).
    cbn [filter]. rewrite Hp. apply IH. exact Hrest. }
  rewrite E. unfold iloc. cbn [len Z.of_nat Z.opp].
  destruct (0 <=? i)%Z; destruct (i <? 0)%Z; reflexivity.
Qed.

(** The [try] block of [update_all] when one of the three columns is
    missing: it raises before it reaches the viewer. *)
Lemma update_attitude_missing (df : DataFrame) (i : Z) (s : t) :
  Forall (fun p => str_in "pitch" (fst p) = false) df \/
  Forall (fun p => str_in "roll" (fst p) = false) df \/
  Forall (fun p => str_in "yaw" (fst p) = false) df ->
  exists e, update_attitude df i s = (s, Raise e).
Proof.
  intros H. unfold update_attitude, mbind, lift.
  destruct H as [H|[H|H]].
  - rewrite (filter_value_missing df "pitch" i H). eexists; reflexivity.
  - rewrite (filter_value_missing df "roll" i H).
    destruct (filter_value df "pitch" i); eexists; reflexivity.
  - rewrite (filter_value_missing df "yaw" i H).
    destruct (filter_value df "pitch" i); [|eexists; reflexivity].
    destruct (filter_value df "roll" i); eexists; reflexivity.
Qed.

End AttitudeColumns.

Section AttitudeColumnProperties.

Import V12b.RocketDashboard.

(** X21.  V12b's attitude viewer needs lower-case column names.  The
    time column is found by its lower-cased name, but the three angles
    are looked up with [filter(regex=...)], which matches the names as
    they are written.  When no column name contains "pitch", or none
    contains "roll", or none contains "yaw", in lower case, the slot
    [update_all] never changes what the viewer shows; the exception of
    the lookup is swallowed, so the outcome of the slot is that of its
    other steps. *)
Theorem attitude_needs_lower_case_names (df : DataFrame) (i : Z) (s : t) :
  data s = Some df ->
  Forall (fun p => str_in "pitch" (fst p) = false) df \/
  Forall (fun p => str_in "roll" (fst p) = false) df \/
  Forall (fun p => str_in "yaw" (fst p) = false) df ->
  attitude (fst (update_all i s)) = attitude s /\
  (forall st, fst (try_pass (update_attitude df i) st) = st /\
              snd (try_pass (update_attitude df i) st) = Ok tt).
Proof.
  intros Hd Hmiss.
  assert (Htry : forall st, fst (try_pass (update_attitude df i) st) = st /\
                            snd (try_pass (update_attitude df i) st) = Ok tt).
  { intros st. destruct (update_attitude_missing df i st Hmiss) as (e & He).
    unfold try_pass. rewrite He. split; reflexivity. }
  split; [|exact Htry].
  unfold update_all. rewrite Hd. unfold mbind, lift.
  destruct (index _ 0) as [tcol|e]; [|reflexivity].
  destruct (getitem df (Some tcol)) as [col|e]; [|reflexivity].
  destruct (index (cells col) i) as [tv|e]; [|reflexivity].
  destruct (for_objs (V12b.GraphCard.update_cursor tv i) (cards s))
    as [cs [[]|e]]; [|reflexivity].
  rewrite (proj1 (Htry (set_cards cs s))). reflexivity.
Qed.

(** X21's theorem at a table whose columns are written with capitals:
    the time stamp is found and the slot returns, but the viewer stays
    empty. *)
Lemma attitude_needs_lower_case_names_witness :
  snd (update_all 2 capital_names_dashboard) = Ok tt /\
  attitude (fst (update_all 2 capital_names_dashboard))
  = Some V12b.AttitudeViewer.init.
Proof.
  split; [reflexivity|].
  apply (attitude_needs_lower_case_names capital_names 2
           capital_names_dashboard eq_refl).
  left. repeat constructor.
Defined.

End AttitudeColumnProperties.

(* ================================================================== *)
(** * The row under the mouse (V4) and the phase labels (V12b) *)
(* ================================================================== *)

Section ArgminFacts.

Import Np.

(** The scan keeps, at every step, the first index holding the smallest
    sample seen so far. *)
Lemma argmin_from_inv (l : list Q) :
  forall (a : list Q) (i best_i : nat) (best : Q),
    a = skipn i l -> (i <= List.length l)%nat ->
    (best_i < i)%nat -> best = nth best_i l 0%Q ->
    (forall j, (j < i)%nat -> (best <= nth j l 0)%Q) ->
    (forall j, (j < best_i)%nat -> (best < nth j l 0)%Q) ->
    let r := argmin_from best_i best i a in
    (r < List.length l)%nat /\
    (forall j, (j < List.length l)%nat -> (nth r l 0 <= nth j l 0)%Q) /\
    (forall j, (j < r)%nat -> (nth r l 0 < nth j l 0)%Q).
Proof.
  induction a as [|x rest IH]; intros i best_i best Ha Hi Hb Hbest Hle Hlt.
  - simpl. symmetry in Ha. apply skipn_nil_length in Ha.
    assert (i = List.length l) by lia. subst i. subst best.
    repeat split; [lia | exact Hle | exact Hlt].
  - symmetry in Ha.
    destruct (skipn_cons_nth l i x 0%Q rest Ha) as (Hil & Hx & Hrest).
    simpl. destruct (Qlt_bool x best) eqn:E.
    + apply Qlt_bool_true in E.
      apply (IH (S i) i x); try lia; try (symmetry; assumption).
      * intros j Hj. destruct (Nat.eq_dec j i) as [->|Hne].
        -- rewrite Hx. apply Qle_refl.
        -- apply Qle_trans with best; [apply Qlt_le_weak; exact E | apply Hle; lia].
      * intros j Hj. apply Qlt_le_trans with best; [exact E | apply Hle; exact Hj].
    + apply Qlt_bool_false in E.
      apply (IH (S i) best_i best); try lia; try assumption;
        try (symmetry; assumption).
      intros j Hj. destruct (Nat.eq_dec j i) as [->|Hne].
      * rewrite Hx. exact E.
      * apply Hle; lia.
Qed.

(** [argmin] of a non-empty array: an index holding the minimum, and
    the first one that does. *)
Lemma argmin_spec (a : list Q) :
  a <> [] ->
  exists i, argmin a = Ok i /\ (i < List.length a)%nat /\
    (forall j, (j < List.length a)%nat -> (nth i a 0 <= nth j a 0)%Q) /\
    (forall j, (j < i)%nat -> (nth i a 0 < nth j a 0)%Q).
Proof.
  intros Hne. destruct a as [|x rest]; [congruence|].
  exists (argmin_from 0 x 1 rest). split; [reflexivity|].
  apply (argmin_from_inv (x :: rest) rest 1%nat 0%nat x).
  - reflexivity.
  - simpl; lia.
  - lia.
  - reflexivity.
  - intros j Hj. assert (j = 0%nat) by lia. subst j. simpl. apply Qle_refl.
  - intros j Hj. lia.
Qed.

Lemma nth_distance (time : list Q) (x : Q) (j : nat) :
  (j < List.length time)%nat ->
  (nth j (map (fun t => Qabs_b (t - x)%Q) time) 0 == Qabs (nth j time 0 - x))%Q.
Proof.
  intros Hj.
  rewrite (nth_indep _ 0%Q (Qabs_b (0 - x)%Q)) by (rewrite length_map; exact Hj).
  rewrite (map_nth (fun t => Qabs_b (t - x)%Q)). apply Qabs_b_abs.
Qed.

(** The two lines of V4's [on_mouse_move] that choose the row: on a
    time column with rows they pick the row nearest to the mouse, the
    earliest of several. *)
Lemma nearest_row_spec (time : list Q) (mouse_time : Q) :
  time <> [] ->
  exists idx,
    V4.RocketDashboard.on_mouse_move_nearest time mouse_time
    = Ok (idx, nth idx time 0%Q) /\
    (idx < List.length time)%nat /\
    (forall j, (j < List.length time)%nat ->
       (Qabs (nth idx time 0 - mouse_time)
        <= Qabs (nth j time 0 - mouse_time))%Q) /\
    (forall j, (j < idx)%nat ->
       (Qabs (nth idx time 0 - mouse_time)
        < Qabs (nth j time 0 - mouse_time))%Q).
Proof.
  intros Hne.
  destruct (argmin_spec (map (fun t => Np.Qabs_b (t - mouse_time)%Q) time))
    as (idx & Hidx & Hlt & Hmin & Hfirst).
  { destruct time; [congruence | discriminate]. }
  rewrite length_map in Hlt, Hmin.
  exists idx. unfold V4.RocketDashboard.on_mouse_move_nearest.
  rewrite Hidx. cbn [bind].
  rewrite (index_nat_ok time idx 0%Q Hlt). cbn [bind].
  split; [reflexivity|]. split; [exact Hlt|]. split.
  - intros j Hj. specialize (Hmin j Hj).
    rewrite !nth_distance in Hmin by assumption. exact Hmin.
  - intros j Hj. specialize (Hfirst j Hj).
    rewrite !nth_distance in Hfirst by lia. exact Hfirst.
Qed.

End ArgminFacts.

Section MouseProperties.

Import V4.RocketDashboard.

(** X18.  V4's [on_mouse_move] on a plotted table with a numeric time
    column.  With the mouse outside the axes the handler returns at
    once.  Inside the axes, on a table without rows the [argmin] raises
    [ValueError]; otherwise the handler picks the row whose time stamp
    is nearest to the mouse position, the earliest such row when
    several are equally near, and hands that time stamp to
    [set_xdata] as a bare number.  Under a matplotlib that wants a
    sequence (3.9 and later) the call raises [RuntimeError]: the cursor
    line and the label stay as they were.  Under an earlier matplotlib
    the cursor line moves to the time stamp and the label reads the
    time, and the altitude of the same row when there is a numeric
    altitude column of the same length. *)
Theorem mouse_snaps_to_the_nearest_row
        (sequence_only : bool) (df : DataFrame) (tc : string)
        (time : list Q) (mouse_time : Q) (s : t) :
  data s = Some df ->
  time_column s = Some tc ->
  lookup df tc = Some (Numeric time) ->
  cursor_line s <> None ->
  let out := on_mouse_move sequence_only (Some mouse_time) s in
  on_mouse_move sequence_only None s = (s, Ok tt) /\
  (time = [] -> out = (s, Raise ValueError)) /\
  (time <> [] ->
   exists idx,
     (idx < List.length time)%nat /\
     (forall j, (j < List.length time)%nat ->
        (Qabs (nth idx time 0 - mouse_time)
         <= Qabs (nth j time 0 - mouse_time))%Q) /\
     (forall j, (j < idx)%nat ->
        (Qabs (nth idx time 0 - mouse_time)
         < Qabs (nth j time 0 - mouse_time))%Q) /\
     (sequence_only = true -> out = (s, Raise RuntimeError)) /\
     (sequence_only = false ->
      let moved := set_cursor_line (Some (nth idx time 0%Q)) s in
      cursor_line (fst out) = Some (nth idx time 0%Q) /\
      (altitude_column s = None ->
       out = (set_telemetry_label (TimeOnly (nth idx time 0%Q)) moved,
              Ok tt)) /\
      (forall ac al,
         altitude_column s = Some ac -> ac <> ""%string ->
         lookup df ac = Some (Numeric al) ->
         List.length al = List.length time ->
         out = (set_telemetry_label
                  (TimeAltitude (nth idx time 0%Q) (nth idx al 0%Q)) moved,
                Ok tt)))).
Proof.
  intros Hd Htc Hcol Hline. cbv zeta.
  split; [reflexivity|].
  assert (Estart :
            on_mouse_move sequence_only (Some mouse_time) s
            = mbind (lift (on_mouse_move_nearest time mouse_time))
                (fun p =>
                   let (idx, nearest_time) := p in
                   mbind (set_xdata sequence_only nearest_time) (fun _ =>
                   mbind (if truthy (altitude_column s) then
                            mbind (lift (getitem df (altitude_column s)))
                              (fun col =>
                            mbind (lift (index_nat (cells col) idx))
                              (fun a =>
                            mbind (lift (fmt_float a)) (fun altitude =>
                            ret (TimeAltitude nearest_time altitude))))
                          else ret (TimeOnly nearest_time))
                     (fun text => modify (set_telemetry_label text)))) s).
  { unfold on_mouse_move. rewrite Hd.
    unfold mbind at 1. unfold lift at 1. unfold getitem. rewrite Htc, Hcol.
    reflexivity. }
  split.
  { intros ->. rewrite Estart. reflexivity. }
  intros Hne.
  destruct (nearest_row_spec time mouse_time Hne)
    as (idx & Hidx & Hlt & Hmin & Hfirst).
  exists idx.
  split; [exact Hlt|]. split; [exact Hmin|]. split; [exact Hfirst|].
  set (t_i := nth idx time 0%Q) in *.
  assert (Eout :
            on_mouse_move sequence_only (Some mouse_time) s
            = mbind (set_xdata sequence_only t_i) (fun _ =>
              mbind (if truthy (altitude_column s) then
                       mbind (lift (getitem df (altitude_column s)))
                         (fun col =>
                       mbind (lift (index_nat (cells col) idx))
                         (fun a =>
                       mbind (lift (fmt_float a)) (fun altitude =>
                       ret (TimeAltitude t_i altitude))))
                     else ret (TimeOnly t_i))
                (fun text => modify (set_telemetry_label text))) s).
  { rewrite Estart. unfold mbind at 1. unfold lift at 1. rewrite Hidx.
    reflexivity. }
  rewrite Eout. clear Eout Estart.
  destruct (cursor_line s) as [x|] eqn:Ecl; [clear Hline | congruence].
  split.
  - intros ->. unfold mbind at 1.
    unfold set_xdata, mbind, get, lift. rewrite Ecl. reflexivity.
  - intros ->.
    assert (Emove : set_xdata false t_i s
                    = (set_cursor_line (Some t_i) s, Ok tt)).
    { unfold set_xdata, mbind, get, lift. rewrite Ecl. reflexivity. }
    assert (Erest : forall k : unit -> M t unit,
              mbind (set_xdata false t_i) k s
              = k tt (set_cursor_line (Some t_i) s)).
    { intros k. unfold mbind. rewrite Emove. reflexivity. }
    rewrite Erest. clear Erest Emove.
    split.
    { unfold mbind, lift, modify, ret.
      destruct (truthy (altitude_column s)); [|reflexivity].
      destruct (getitem df (altitude_column s)) as [col|]; [|reflexivity].
      destruct (index_nat (cells col) idx) as [a|]; [|reflexivity].
      destruct (fmt_float a); reflexivity. }
    split.
    { intros Ha. rewrite Ha. reflexivity. }
    intros ac al Ha Hac Hal Hlen. rewrite Ha.
    cbn [truthy]. destruct (String.eqb_spec ac ""); [congruence|].
    cbn [negb]. unfold mbind, lift, getitem, ret, modify.
    rewrite Hal. cbn [cells].
    rewrite (index_nat_ok (map CNum al) idx (CNum 0%Q))
      by (rewrite length_map; lia).
    change (CNum 0%Q) with ((fun q => CNum q) 0%Q).
    rewrite map_nth. reflexivity.
Qed.

(** X18's theorem at the plotted ten-row table, with the mouse half-way
    between the rows 2 and 3: row 2, the earlier, is taken.  A
    matplotlib that wants a sequence raises; an earlier one shows time
    2 and altitude 40. *)
Lemma mouse_snaps_to_the_nearest_row_witness :
  on_mouse_move true (Some (5 # 2)%Q) ten_rows_plotted
    = (ten_rows_plotted, Raise RuntimeError) /\
  telemetry_label
    (fst (on_mouse_move false (Some (5 # 2)%Q) ten_rows_plotted))
    = TimeAltitude 2%Q 40%Q.
Proof.
  destruct (mouse_snaps_to_the_nearest_row true ten_rows "time"
              (samples [0; 1; 2; 3; 4; 5; 6; 7; 8; 9]%Z) (5 # 2)%Q
              ten_rows_plotted eq_refl eq_refl eq_refl)
    as (_ & _ & Hstrict); [discriminate|].
  destruct Hstrict as (idx & _ & _ & _ & Hraise & _); [discriminate|].
  split; [exact (Hraise eq_refl)|].
  vm_compute. reflexivity.
Defined.

End MouseProperties.

Section LabelFacts.

Import Lqa.
Import V12b.RocketDashboard.
Local Open Scope Q_scope.

(** The label of a rate, by its thresholds. *)
Lemma phase_label_spec (v : Q) :
  (5 < v -> phase_label v = "BOOST"%string) /\
  (0 < v <= 5 -> phase_label v = "COAST"%string) /\
  (v < -2 -> phase_label v = "DESCENT"%string) /\
  (-2 <= v <= 0 -> phase_label v = "LANDED"%string).
Proof.
  unfold phase_label.
  destruct (Np.Qlt_bool 5 v) eqn:E5;
    [apply Qlt_bool_true in E5 | apply Qlt_bool_false in E5];
  (destruct (Np.Qlt_bool 0 v) eqn:E0;
    [apply Qlt_bool_true in E0 | apply Qlt_bool_false in E0]);
  (destruct (Np.Qlt_bool v (-2)) eqn:E2;
    [apply Qlt_bool_true in E2 | apply Qlt_bool_false in E2]);
  repeat split; intros H; try reflexivity; exfalso; lra.
Qed.

(** The rates of [np.gradient(alt)]: central differences inside, the
    difference to the one neighbour at both ends. *)
Lemma gradient_unit_spec (f : list Q) :
  (2 <= List.length f)%nat ->
  exists vel,
    Np.gradient_unit f = Ok vel /\
    List.length vel = List.length f /\
    nth 0 vel 0 == nth 1 f 0 - nth 0 f 0 /\
    nth (List.length f - 1) vel 0
      == nth (List.length f - 1) f 0 - nth (List.length f - 2) f 0 /\
    forall i, (0 < i)%nat -> (i + 1 < List.length f)%nat ->
              nth i vel 0 == (nth (i + 1) f 0 - nth (i - 1) f 0) * (1 # 2).
Proof.
  intros H2. unfold Np.gradient_unit.
  destruct (Nat.ltb_spec (List.length f) 2) as [H|_]; [lia|].
  eexists. split; [reflexivity|].
  split; [rewrite length_map, length_seq; reflexivity|].
  assert (Hnth : forall i, (i < List.length f)%nat ->
            nth i (map (Np.gradient_at true f [1] (List.length f))
                       (seq 0 (List.length f))) 0
            = Np.gradient_at true f [1] (List.length f) i).
  { intros i Hi.
    rewrite (nth_indep _ 0 (Np.gradient_at true f [1] (List.length f) 0%nat))
      by (rewrite length_map, length_seq; exact Hi).
    rewrite map_nth. rewrite seq_nth by exact Hi. reflexivity. }
  split; [|split].
  - rewrite Hnth by lia. unfold Np.gradient_at. cbn [Nat.eqb nth]. field.
  - rewrite Hnth by lia. unfold Np.gradient_at.
    destruct (Nat.eqb_spec (List.length f - 1) 0) as [E|_]; [lia|].
    rewrite Nat.eqb_refl. cbn [nth]. field.
  - intros i H0 H1. rewrite Hnth by lia. unfold Np.gradient_at.
    destruct (Nat.eqb_spec i 0) as [E|_]; [lia|].
    destruct (Nat.eqb_spec i (List.length f - 1)) as [E|_]; [lia|].
    cbn [nth]. field.
Qed.

Lemma phase_label_compat (u v : Q) : u == v -> phase_label u = phase_label v.
Proof.
  intros E. unfold phase_label, Np.Qlt_bool.
  assert (E5 : Qle_bool u 5 = Qle_bool v 5) by (rewrite E; reflexivity).
  assert (E0 : Qle_bool u 0 = Qle_bool v 0) by (rewrite E; reflexivity).
  assert (E2 : Qle_bool (-2) u = Qle_bool (-2) v) by (rewrite E; reflexivity).
  rewrite E5, E0, E2. reflexivity.
Qed.

End LabelFacts.

Section LabelProperties.

Import Lqa.
Import V12b.RocketDashboard.
Local Open Scope Q_scope.

(** X19.  The labels of V12b's [detect_phases(alt)].  The call raises
    [ValueError] on fewer than two samples and otherwise returns one
    label per sample.  The rate of a row is taken over the rows, not
    over the time stamps: an inner row is labelled by the altitude
    difference [d] between its two neighbours, BOOST when [d > 10],
    COAST when [0 < d <= 10], DESCENT when [d < -4] and LANDED
    otherwise; the first row is labelled by the difference to the
    second row, with the thresholds 5, 0 and -2. *)
Theorem labels_follow_the_neighbour_rows (alt : list Q) :
  ((List.length alt < 2)%nat -> detect_phases alt = Raise ValueError) /\
  ((2 <= List.length alt)%nat ->
   exists labels,
     detect_phases alt = Ok labels /\
     List.length labels = List.length alt /\
     (forall i, (0 < i)%nat -> (i + 1 < List.length alt)%nat ->
        let d := nth (i + 1) alt 0 - nth (i - 1) alt 0 in
        (10 < d -> nth i labels ""%string = "BOOST"%string) /\
        (0 < d <= 10 -> nth i labels ""%string = "COAST"%string) /\
        (d < -4 -> nth i labels ""%string = "DESCENT"%string) /\
        (-4 <= d <= 0 -> nth i labels ""%string = "LANDED"%string)) /\
     (let d := nth 1 alt 0 - nth 0 alt 0 in
      (5 < d -> nth 0 labels ""%string = "BOOST"%string) /\
      (0 < d <= 5 -> nth 0 labels ""%string = "COAST"%string) /\
      (d < -2 -> nth 0 labels ""%string = "DESCENT"%string) /\
      (-2 <= d <= 0 -> nth 0 labels ""%string = "LANDED"%string))).
Proof.
  split.
  - intros H. unfold detect_phases, Np.gradient_unit.
    destruct (Nat.ltb_spec (List.length alt) 2) as [_|H']; [reflexivity | lia].
  - intros H2.
    destruct (gradient_unit_spec alt H2) as (vel & Hg & Hlen & H0 & _ & Hin).
    exists (map phase_label vel). unfold detect_phases. rewrite Hg. cbn [bind].
    split; [reflexivity|]. split; [rewrite length_map; exact Hlen|].
    assert (Hnth : forall i, (i < List.length alt)%nat ->
              nth i (map phase_label vel) ""%string = phase_label (nth i vel 0)).
    { intros i Hi.
      rewrite (nth_indep _ ""%string (phase_label 0))
        by (rewrite length_map; lia).
      apply map_nth. }
    split.
    + intros i Hi0 Hi1. cbv zeta. rewrite Hnth by lia.
      rewrite (phase_label_compat _ _ (Hin i Hi0 Hi1)).
      generalize (nth (i + 1) alt 0 - nth (i - 1) alt 0). intros d.
      destruct (phase_label_spec (d * (1 # 2))) as (L1 & L2 & L3 & L4).
      split; [intros H; apply L1; clear - H; lra|].
      split; [intros H; apply L2; clear - H; lra|].
      split; [intros H; apply L3; clear - H; lra | intros H; apply L4; clear - H; lra].
    + cbv zeta. rewrite Hnth by lia.
      rewrite (phase_label_compat _ _ H0).
      destruct (phase_label_spec (nth 1 alt 0 - nth 0 alt 0))
        as (L1 & L2 & L3 & L4).
      split; [intros H; apply L1; clear - H; lra|].
      split; [intros H; apply L2; clear - H; lra|].
      split; [intros H; apply L3; clear - H; lra | intros H; apply L4; clear - H; lra].
Qed.

(** X19's theorem at the altitudes of the example flight: row 2, between
    the altitudes 10 and 90, is labelled BOOST. *)
Lemma labels_follow_the_neighbour_rows_witness :
  exists labels,
    detect_phases example_altitude = Ok labels /\
    nth 2 labels ""%string = "BOOST"%string.
Proof.
  destruct (proj2 (labels_follow_the_neighbour_rows example_altitude))
    as (labels & H & _ & Hin & _).
  - simpl. lia.
  - exists labels. split; [exact H|].
    refine (proj1 (Hin 2%nat _ _) _).
    + lia.
    + simpl. lia.
    + vm_compute. reflexivity.
Defined.

End LabelProperties.
